(** * Last Dance Keno: a shallow embedding of the Python sources

    The development follows the layout of the repository:
    - [Py]        the few Python built-ins the sources rely on
                  (range, stable sort with a key, Counter, exceptions);
    - [Tracker]   src/last_dance_keno/keno_tracker.py
    - [Multi]     src/last_dance_keno/keno_multi_strategy.py (strategies)
    - [Analyzer]  src/last_dance_keno/keno_multi_strategy.py (KenoAnalyzer)
    - [Hybrid]    src/last_dance_keno/keno_hybrid_source.py
    - [Telegram]  src/last_dance_keno/keno_telegram.py
    - [Scraper]   src/last_dance_keno/simple_keno_scraper.py

    Python integers are [Z]; a Python [set] of integers is a [gset Z];
    a Python list is a [list]; objects mutated through [self] are records
    threaded explicitly through the operations. *)

From stdpp Require Import gmap strings list sorting pretty.

Open Scope Z_scope.

(* ===================================================================== *)
(** ** Python built-ins *)
(* ===================================================================== *)

Module Py.

(** [range(a, b)]: the integers a, a+1, ..., b-1 (empty when b <= a). *)
Definition range (a b : Z) : list Z := seqZ a (b - a).

(** [list.sort(key=...)] / [sorted(..., key=...)]: a stable sort.  [leb x y]
    decides [key x <= key y]; an element is placed in front of the first
    element of the already sorted tail that it does not exceed, so elements
    with equal keys keep their original relative order. *)
Fixpoint insert_sorted {A} (leb : A → A → bool) (x : A) (l : list A) : list A :=
  match l with
  | [] => [x]
  | y :: l' => if leb x y then x :: y :: l' else y :: insert_sorted leb x l'
  end.

Definition sorted {A} (leb : A → A → bool) (l : list A) : list A :=
  foldr (insert_sorted leb) [] l.

(** Comparison of integer keys, ascending and descending ([key = -x]). *)
Definition asc_by {A} (key : A → Z) (x y : A) : bool := bool_decide (key x ≤ key y).
Definition desc_by {A} (key : A → Z) (x y : A) : bool := bool_decide (key y ≤ key x).

(** Comparison of pair keys [(a, b)], lexicographic as Python tuples are. *)
Definition lex_leb (k1 k2 : Z * Z) : bool :=
  bool_decide (k1.1 < k2.1) || (bool_decide (k1.1 = k2.1) && bool_decide (k1.2 ≤ k2.2)).

Definition by_pair_key {A} (key : A → Z * Z) (x y : A) : bool := lex_leb (key x) (key y).

(** [collections.Counter(iterable)] and [counter.get(k, 0)]. *)
Definition Counter (l : list Z) : gmap Z Z :=
  foldl (λ m k, <[k := default 0 (m !! k) + 1]> m) ∅ l.

Definition get0 (m : gmap Z Z) (k : Z) : Z := default 0 (m !! k).

(** [sum(1 for x in l if p x)]. *)
Definition count {A} (p : A → bool) (l : list A) : Z :=
  Z.of_nat (length (List.filter p l)).

(** [x in s] for a set, as a boolean. *)
Definition mem (x : Z) (s : gset Z) : bool := bool_decide (x ∈ s).

(** [x in l] for a list, as a boolean. *)
Definition mem_list (x : Z) (l : list Z) : bool := bool_decide (x ∈ l).

(** [sorted(s)] for a set of integers. *)
Definition sorted_set (s : gset Z) : list Z := sorted (asc_by id) (elements s).

(** The exceptions that the modelled code can raise, and the outcome of a
    call: a returned value or a raised exception. *)
Inductive exn : Type :=
  | IndexError
  | KeyError (key : string)
  | AttributeError (attr : string)
  | Exception (message : string).

Definition result (A : Type) : Type := A + exn.
Definition Return {A} (a : A) : result A := inl a.
Definition Raise {A} (e : exn) : result A := inr e.

(** [min(x :: l, key=...)]: the first element with the least key. *)
Definition min_by {A} (key : A → Z) (x : A) (l : list A) : A :=
  foldl (λ best y, if bool_decide (key y < key best) then y else best) x l.

(** [l[i] += 1] on a Python list: a negative index counts from the end, an
    index outside [-len, len) raises IndexError. *)
Definition list_incr (l : list Z) (i : Z) : result (list Z) :=
  let len := Z.of_nat (length l) in
  if bool_decide (0 ≤ i < len) then Return (alter (Z.add 1) (Z.to_nat i) l)
  else if bool_decide (- len ≤ i < 0) then Return (alter (Z.add 1) (Z.to_nat (len + i)) l)
  else Raise IndexError.

(** [l[:n]]: the first [n] elements; for a negative [n], all but the last
    [-n] elements. *)
Definition slice_to {A} (l : list A) (n : Z) : list A :=
  if bool_decide (0 ≤ n) then take (Z.to_nat n) l
  else take (length l - Z.to_nat (- n)) l.

(** [itertools.combinations(l, 2)]. *)
Fixpoint combinations2 {A} (l : list A) : list (A * A) :=
  match l with
  | [] => []
  | x :: l' => ((λ y, (x, y)) <$> l') ++ combinations2 l'
  end.

End Py.

(* ===================================================================== *)
(** ** keno_tracker.py *)
(* ===================================================================== *)

Module Tracker.

(** [get_row]: [(num - 1) // 10 + 1]. *)
Definition get_row (num : Z) : Z := (num - 1) `div` 10 + 1.

(** [get_col]: [(num - 1) % 10 + 1]. *)
Definition get_col (num : Z) : Z := (num - 1) `mod` 10 + 1.

(** [get_neighbors]: the two nested [range] loops over the clipped 3x3 window. *)
Definition get_neighbors (num : Z) : gset Z :=
  let row := get_row num in
  let col := get_col num in
  list_to_set
    (r ← Py.range (Z.max 1 (row - 1)) (Z.min 8 (row + 1) + 1);
     c ← Py.range (Z.max 1 (col - 1)) (Z.min 10 (col + 1) + 1);
     let neighbor := (r - 1) * 10 + c in
     if bool_decide (neighbor ≠ num) && bool_decide (1 ≤ neighbor) && bool_decide (neighbor ≤ 80)
     then [neighbor] else []).

(** One entry of [self.games]. *)
Record Game := mkGame {
  game_id : Z;
  date : string;
  time : string;
  numbers : list Z;
  unique_key : string
}.

(** One entry of [self.predictions]. *)
Record Prediction := mkPrediction {
  p_game_id : Z;
  p_date : string;
  playable_numbers : list Z;
  removed_count : Z
}.

(** One entry of [self.scores] (also a row of scores.csv). *)
Record Score := mkScore {
  s_game_id : Z;
  s_hits : Z;
  s_playable_count : Z
}.

(** The dict returned by [score_prediction]. *)
Record ScoreResult := mkScoreResult {
  r_game_id : Z;
  r_hits : Z;
  r_playable_count : Z;
  r_hit_numbers : list Z;
  r_predicted : list Z;
  r_actual : list Z
}.

(** A CSV file: absent, or the rows written so far, each a list of cells. *)
Definition CsvFile := option (list (list string)).

(** The tracker object together with the files it owns. *)
Record KenoTracker := mkTracker {
  games : list Game;
  predictions : list Prediction;
  scores : list Score;
  GAMES_CSV : CsvFile;
  SCORES_CSV : CsvFile
}.

(** [f"{game_id}_{date}"]. *)
Definition make_key (gid : Z) (d : string) : string := pretty gid +:+ "_" +:+ d.

Definition games_header : list string :=
  ["game_id"; "date"; "time"] ++ ((λ i, "number_" +:+ pretty i) <$> Py.range 1 21).

(** [open(path, 'a')] followed by the optional header and one row. *)
Definition csv_append (header row : list string) (f : CsvFile) : CsvFile :=
  match f with
  | None => Some [header; row]
  | Some rows => Some (rows ++ [row])
  end.

(** [self.games.sort(key=lambda g: g['game_id'], reverse=True)]. *)
Definition sort_games (gs : list Game) : list Game := Py.sorted (Py.desc_by game_id) gs.

(** [add_game]: the boolean result and the tracker afterwards. *)
Definition add_game (gid : Z) (d t : string) (nums : list Z) (s : KenoTracker)
  : bool * KenoTracker :=
  let key := make_key gid d in
  if existsb (λ g, bool_decide (unique_key g = key)) (games s) then (false, s)
  else
    let g := mkGame gid d t nums key in
    let row := [pretty gid; d; t] ++ (pretty <$> nums) in
    (true,
     mkTracker (sort_games (games s ++ [g])) (predictions s) (scores s)
               (csv_append games_header row (GAMES_CSV s)) (SCORES_CSV s)).

Section Rules.
Variable gs : list Game.

(** [calculate_hits]. *)
Definition calculate_hits (num : Z) (last_n : nat) : Z :=
  Py.count (λ g, Py.mem_list num (numbers g)) (take last_n gs).

(** [pos <= len(self.games) and num in self.games[pos - 1]['numbers']]. *)
Definition hit_at (num : Z) (pos : nat) : bool :=
  match gs !! (pos - 1)%nat with
  | Some g => Py.mem_list num (numbers g)
  | None => false
  end.

(** [hit_in_specific_games]. *)
Definition hit_in_specific_games (num : Z) (positions : list nat) : bool :=
  existsb (hit_at num) positions.

(** [hit_count_in_specific_games]. *)
Definition hit_count_in_specific_games (num : Z) (positions : list nat) : Z :=
  Py.count (hit_at num) positions.

(** [has_touching_neighbor_hit]. *)
Definition has_touching_neighbor_hit (num : Z) (game_position : nat) : bool :=
  match gs !! (game_position - 1)%nat with
  | None => false
  | Some g =>
      let drawn : gset Z := list_to_set (numbers g) in
      bool_decide (get_neighbors num ∩ drawn ≠ ∅)
  end.

(** [get_row_col_hits]: two Counters, empty when the position is out of range. *)
Definition get_row_col_hits (game_position : nat) : gmap Z Z * gmap Z Z :=
  match gs !! (game_position - 1)%nat with
  | None => (∅, ∅)
  | Some g => (Py.Counter (get_row <$> numbers g), Py.Counter (get_col <$> numbers g))
  end.

(** [is_row_col_hot]. *)
Definition is_row_col_hot (num : Z) (last_n : nat) (threshold : Z) : bool :=
  let num_row := get_row num in
  let num_col := get_col num in
  existsb (λ i : nat,
             let '(row_hits, col_hits) := get_row_col_hits (i + 1) in
             bool_decide (threshold ≤ Py.get0 row_hits num_row)
             || bool_decide (threshold ≤ Py.get0 col_hits num_col))
          (seq 0 (Nat.min last_n (length gs))).

(** The per-number record built inside [get_playable_numbers]. *)
Record NumberData := mkNumberData {
  number : Z;
  hits_last_10 : Z;
  hits_last_50 : Z;
  reasons : list string
}.

Definition reason_if (b : bool) (r : string) : list string := if b then [r] else [].

Definition number_data (num : Z) : NumberData :=
  let h10 := calculate_hits num 10 in
  let h50 := if bool_decide (50 ≤ length gs)%nat
             then calculate_hits num 50 else calculate_hits num (length gs) in
  mkNumberData num h10 h50
    (reason_if (hit_in_specific_games num [1; 2]%nat) "hit_last_2"
     ++ reason_if (bool_decide (2 ≤ hit_count_in_specific_games num [1; 2; 3]%nat)) "hit_2_of_3"
     ++ reason_if (bool_decide (4 ≤ hit_count_in_specific_games num (seq 1 8))) "hit_4_of_8"
     ++ reason_if (bool_decide (6 ≤ h10)) "hit_6_of_10"
     ++ reason_if (hit_in_specific_games num [1; 3; 4]%nat) "pattern_1_3_4"
     ++ reason_if (is_row_col_hot num 3 4) "row_col_hot"
     ++ reason_if (negb (has_touching_neighbor_hit num 1)) "no_neighbor_hit").

(** ['remove': len(remove_reasons) > 0]. *)
Definition remove (d : NumberData) : bool := bool_decide (0 < length (reasons d))%nat.

(** [get_playable_numbers]. *)
Definition get_playable_numbers : list Z :=
  match gs with
  | [] => Py.range 1 81
  | _ =>
      let numbers_data := number_data <$> Py.range 1 81 in
      let playable := List.filter (λ d, negb (remove d)) numbers_data in
      number <$> Py.sorted (Py.by_pair_key (λ d, (- hits_last_50 d, hits_last_10 d))) playable
  end.
End Rules.

(** The first element of a list with the given [game_id]
    ([for x in xs: if x['game_id'] == game_id: ...; break]). *)
Definition find_prediction (gid : Z) (ps : list Prediction) : option Prediction :=
  List.find (λ p, bool_decide (p_game_id p = gid)) ps.

Definition find_game (gid : Z) (l : list Game) : option Game :=
  List.find (λ g, bool_decide (game_id g = gid)) l.

Definition scores_header : list string := ["game_id"; "hits"; "playable_count"].

Definition score_row (sc : Score) : list string :=
  [pretty (s_game_id sc); pretty (s_hits sc); pretty (s_playable_count sc)].

(** [_save_scores]: the file is rewritten; it stays empty when there are no scores. *)
Definition save_scores (l : list Score) : CsvFile :=
  Some (match l with [] => [] | _ => scores_header :: (score_row <$> l) end).

(** [score_prediction]: the optional result and the tracker afterwards. *)
Definition score_prediction (gid : Z) (s : KenoTracker) : option ScoreResult * KenoTracker :=
  match find_prediction gid (predictions s) with
  | None => (None, s)
  | Some prediction =>
      match find_game gid (games s) with
      | None => (None, s)
      | Some game =>
          let predicted : gset Z := list_to_set (playable_numbers prediction) in
          let actual : gset Z := list_to_set (numbers game) in
          let hits := Z.of_nat (size (predicted ∩ actual)) in
          let hit_numbers := Py.sorted_set (predicted ∩ actual) in
          let cnt := Z.of_nat (length (playable_numbers prediction)) in
          let scores' := scores s ++ [mkScore gid hits cnt] in
          (Some (mkScoreResult gid hits cnt hit_numbers
                               (playable_numbers prediction) (numbers game)),
           mkTracker (games s) (predictions s) scores' (GAMES_CSV s) (save_scores scores'))
      end
  end.

End Tracker.

(* ===================================================================== *)
(** ** keno_multi_strategy.py: board helpers and strategies *)
(* ===================================================================== *)

Module Multi.

Definition ROWS : Z := 8.
Definition COLS : Z := 10.

(** [rc(n)]: zero-based row and column. *)
Definition rc (n : Z) : Z * Z := ((n - 1) `div` COLS, (n - 1) `mod` COLS).

(** [to_num(r, c)]. *)
Definition to_num (r c : Z) : Z := r * COLS + c + 1.

(** [get_row(n)] and [get_col(n)]: the members of the row and of the column. *)
Definition get_row (n : Z) : gset Z := list_to_set ((λ c, to_num (rc n).1 c) <$> Py.range 0 COLS).
Definition get_col (n : Z) : gset Z := list_to_set ((λ r, to_num r (rc n).2) <$> Py.range 0 ROWS).

(** [get_neighbors(n)]: the generator over [dr], [dc] in (-1, 0, 1). *)
Definition get_neighbors (n : Z) : gset Z :=
  let '(r, c) := rc n in
  list_to_set
    (dr ← [-1; 0; 1];
     dc ← [-1; 0; 1];
     if (negb (bool_decide (dr = 0)) || negb (bool_decide (dc = 0)))
        && bool_decide (0 ≤ r + dr) && bool_decide (r + dr < ROWS)
        && bool_decide (0 ≤ c + dc) && bool_decide (c + dc < COLS)
     then [to_num (r + dr) (c + dc)] else []).

(** [mirror_num(n)]. *)
Definition mirror_num (n : Z) : Z := 81 - n.

(** One entry of [self.games]: ['numbers'] is a set, ['numbers_list'] the
    list it was built from. *)
Record Game := mkGame {
  game_id : Z;
  date : string;
  time : string;
  numbers : gset Z;
  numbers_list : list Z
}.

(** [_load_games] stores the twenty columns of a row both ways. *)
Definition of_row (gid : Z) (d t : string) (nums : list Z) : Game :=
  mkGame gid d t (list_to_set nums) nums.

Section Strategies.
Variable games : list Game.

(** [hits_in_n] (local to [strategy_elimination]). *)
Definition hits_in_n (num : Z) (n : nat) : Z :=
  Py.count (λ g, Py.mem num (numbers g)) (take n games).

(** [hit_in_positions]: [any(... for pos in positions if pos <= len(self.games))]. *)
Definition hit_in_positions (num : Z) (positions : list nat) : bool :=
  existsb (λ pos : nat,
             match games !! (pos - 1)%nat with
             | Some g => Py.mem num (numbers g)
             | None => false
             end) positions.

(** [has_neighbor_hit]. *)
Definition has_neighbor_hit (num : Z) (position : nat) : bool :=
  match games !! (position - 1)%nat with
  | None => false
  | Some g => bool_decide (get_neighbors num ∩ numbers g ≠ ∅)
  end.

(** [is_row_col_hot]. *)
Definition is_row_col_hot (num : Z) (last_n : nat) (threshold : Z) : bool :=
  let '(num_row, num_col) := rc num in
  existsb (λ g,
             let drawn := elements (numbers g) in
             bool_decide (threshold ≤ Py.count (λ n, bool_decide ((rc n).1 = num_row)) drawn)
             || bool_decide (threshold ≤ Py.count (λ n, bool_decide ((rc n).2 = num_col)) drawn))
          (take last_n games).

(** The chain of [if ...: continue] tests in the loop of
    [strategy_elimination]: [true] when one of them fires. *)
Definition skipped (num : Z) : bool :=
  hit_in_positions num [1; 2]%nat
  || bool_decide (2 ≤ Py.count (λ g, Py.mem num (numbers g)) (take 3 games))
  || bool_decide (4 ≤ hits_in_n num 8)
  || bool_decide (6 ≤ hits_in_n num 10)
  || hit_in_positions num [1; 3; 4]%nat
  || is_row_col_hot num 3 4
  || negb (has_neighbor_hit num 1).

(** [strategy_elimination].  The loop adds to [remove] every number that
    reaches [remove.add(num)], that is every number no test skipped. *)
Definition strategy_elimination : list Z :=
  match games with
  | [] => Py.range 1 81
  | _ =>
      let remove : gset Z := list_to_set (List.filter (λ num, negb (skipped num)) (Py.range 1 81)) in
      let remaining := List.filter (λ n, negb (Py.mem n remove)) (Py.range 1 81) in
      take 20 (Py.sorted (Py.by_pair_key (λ n, (- hits_in_n n 50, hits_in_n n 10))) remaining)
  end.

(** [heat_scores]: the dict built by the first loop of
    [strategy_cluster_heat], as its items in insertion order. *)
Definition heat_scores : list (Z * Z) :=
  (λ num, (num, foldl (λ total g, total + Z.of_nat (size (get_neighbors num ∩ numbers g)))
                      0 (take 3 games))) <$> Py.range 1 81.

Definition sorted_heat : list (Z * Z) := Py.sorted (Py.desc_by snd) heat_scores.

(** [sorted_heat[20][1] if len(sorted_heat) >= 20 else 0]. *)
Definition top_threshold : Py.result Z :=
  if bool_decide (20 ≤ length sorted_heat)%nat then
    match sorted_heat !! 20%nat with
    | Some x => Py.Return x.2
    | None => Py.Raise Py.IndexError
    end
  else Py.Return 0.


(** The four bands of [strategy_decade]. *)
Definition decades : list (Z * Z) := [(1, 20); (21, 40); (41, 60); (61, 80)].

(** The tally of one band over [self.games[:8]]. *)
Definition decade_count (start end_ : Z) : Z :=
  foldl (λ count g,
           count + Py.count (λ n, bool_decide (start ≤ n) && bool_decide (n ≤ end_))
                            (elements (numbers g)))
        0 (take 8 games).

Definition decade_hits : list (Z * Z * Z) :=
  (λ d, (d.1, d.2, decade_count d.1 d.2)) <$> decades.

(** [expected * 0.7] with [expected = 8 * 20 / 4]: the double 40.0 * 0.7
    is exactly 28.0, and the integer tallies are compared with it. *)
Definition cold_limit : Z := 28.

(** [cold_decades], after the fallback [min(decade_hits, key=lambda x: x[1])]. *)
Definition cold_decades : list (Z * Z * Z) :=
  match List.filter (λ d, bool_decide (d.2 < cold_limit)) decade_hits with
  | [] =>
      match decade_hits with
      | d :: ds => [Py.min_by (λ x, x.1.2) d ds]
      | [] => []
      end
  | cold => cold
  end.

(** [strategy_decade]. *)
Definition strategy_decade : list Z :=
  if bool_decide (length games < 8)%nat then Py.range 1 81
  else
    let candidates :=
      d ← cold_decades;
      (λ num, (num, Py.count (λ g, Py.mem num (numbers g)) (take 10 games)))
        <$> Py.range d.1.1 (d.1.2 + 1) in
    fst <$> take 15 (Py.sorted (Py.asc_by snd) candidates).
End Strategies.

End Multi.

(* ===================================================================== *)
(** ** keno_multi_strategy.py: KenoAnalyzer *)
(* ===================================================================== *)

Module Analyzer.

(** [KenoAnalyzer.__init__]: [self.history = [g['numbers'] for g in games]]. *)
Record KenoAnalyzer := mkAnalyzer { history : list (gset Z) }.

Definition init (games : list Multi.Game) : KenoAnalyzer :=
  mkAnalyzer (Multi.numbers <$> games).

(** What a report prints, kept as the integer data behind the text. *)
Inductive Report : Type :=
  | PairReport (top : Z) (total : Z) (pair_counts : gmap (Z * Z) Z)
  | RepeatReport (repeats : list Z)
  | BalanceReport (window : Z) (rows : list (Z * Z * Z * Z))
  | HeatmapReport (window : Z) (row_hits col_hits : list Z)
  | MonteCarloReport (pick_count games simulations : Z)
  | GapChartReport (window : Z) (rows : list (Z * list bool * Z)).

(** Console output so far and how the call ended. *)
Definition Run : Type := list Report * Py.result unit.

Definition andThen (a : Run) (k : Run) : Run :=
  match a.2 with
  | inl _ => (a.1 ++ k.1, k.2)
  | inr e => (a.1, inr e)
  end.

Infix ">>" := andThen (at level 61, left associativity).

(** Keyword arguments of a call. *)
Inductive Value : Type :=
  | Int (z : Z)
  | IntList (l : list Z).

Definition kwargs : Type := list (string * Value).

Definition kw_int (name : string) (dflt : Z) (kw : kwargs) : Z :=
  match List.find (λ a, bool_decide (a.1 = name)) kw with
  | Some (_, Int z) => z
  | _ => dflt
  end.

Definition kw_list (name : string) (dflt : list Z) (kw : kwargs) : list Z :=
  match List.find (λ a, bool_decide (a.1 = name)) kw with
  | Some (_, IntList l) => l
  | _ => dflt
  end.

Section Methods.
Variable self : KenoAnalyzer.

(** [pair_analysis]: the Counter of co-occurring pairs. *)
Definition pair_counts : gmap (Z * Z) Z :=
  foldl (λ m game,
           foldl (λ m ab, <[ab := default 0 (m !! ab) + 1]> m) m
                 (Py.combinations2 (Py.sorted_set game)))
        ∅ (history self).

Definition print_pair_analysis (kw : kwargs) : Run :=
  ([PairReport (kw_int "top" 20 kw) (Z.of_nat (length (history self))) pair_counts],
   Py.Return ()).

(** [repeat_analysis]: [len(curr & prev)] for consecutive draws. *)
Fixpoint repeats_of (h : list (gset Z)) : list Z :=
  match h with
  | curr :: ((prev :: _) as rest) => Z.of_nat (size (curr ∩ prev)) :: repeats_of rest
  | _ => []
  end.

Definition print_repeat_analysis (kw : kwargs) : Run :=
  ([RepeatReport (repeats_of (history self))], Py.Return ()).

(** [balance_analysis]: odd, even, low, high per draw
    [self.history[i]], [i] in [range(min(window, len(self.history)))]. *)
Definition balance_analysis (window : Z) : list (Z * Z * Z * Z) :=
  (λ g : gset Z,
     let l := elements g in
     let odd := Py.count (λ n, bool_decide (n `mod` 2 = 1)) l in
     let low := Py.count (λ n, bool_decide (n ≤ 40)) l in
     (odd, Z.of_nat (length l) - odd, low, Z.of_nat (length l) - low))
  <$> take (Z.to_nat window) (history self).

Definition print_balance_analysis (kw : kwargs) : Run :=
  let window := kw_int "window" 10 kw in
  ([BalanceReport window (balance_analysis window)], Py.Return ()).

(** [row_col_heatmap]: [row_hits[r] += 1; col_hits[c] += 1] for every hit of
    the draws [self.history[:window]]. *)
Definition row_col_heatmap (window : Z) : Py.result (list Z * list Z) :=
  foldl (λ acc n,
           match acc with
           | inr e => inr e
           | inl (row_hits, col_hits) =>
               let '(r, c) := Multi.rc n in
               match Py.list_incr row_hits r with
               | inr e => inr e
               | inl row_hits' =>
                   match Py.list_incr col_hits c with
                   | inr e => inr e
                   | inl col_hits' => inl (row_hits', col_hits')
                   end
               end
           end)
        (inl (replicate 8 0, replicate 10 0))
        (g ← Py.slice_to (history self) window; elements g).

Definition print_row_col_heatmap (kw : kwargs) : Run :=
  let window := kw_int "window" 10 kw in
  match row_col_heatmap window with
  | inr e => ([], inr e)
  | inl (row_hits, col_hits) => ([HeatmapReport window row_hits col_hits], Py.Return ())
  end.

(** [print_monte_carlo]: the simulation draws from [random] only. *)
Definition print_monte_carlo (kw : kwargs) : Run :=
  ([MonteCarloReport (kw_int "pick_count" 10 kw) (kw_int "games" 100 kw)
                     (kw_int "simulations" 1000 kw)],
   Py.Return ()).

(** [gap_chart]: one line of hit marks and the hit count per number. *)
Definition gap_chart (kw : kwargs) : Run :=
  let numbers := kw_list "numbers" (Py.range 1 21) kw in
  let window := kw_int "window" 30 kw in
  ([GapChartReport window
      ((λ n,
          let line := (λ i : nat,
                         match history self !! i with
                         | Some g => Py.mem n g
                         | None => false
                         end) <$> seq 0 (Z.to_nat window) in
          (n, line, Py.count id line)) <$> numbers)],
   Py.Return ()).

(** The report methods that [class KenoAnalyzer] defines, by name. *)
Definition methods : gmap string (kwargs → Run) :=
  list_to_map
    [("print_pair_analysis", print_pair_analysis);
     ("print_repeat_analysis", print_repeat_analysis);
     ("print_balance_analysis", print_balance_analysis);
     ("print_row_col_heatmap", print_row_col_heatmap);
     ("print_monte_carlo", print_monte_carlo);
     ("gap_chart", gap_chart)].

(** A call [self.name(...)]: attribute lookup, then the call. *)
Definition call (name : string) (kw : kwargs) : Run :=
  match methods !! name with
  | Some m => m kw
  | None => ([], Py.Raise (Py.AttributeError name))
  end.

(** [run_all_analyses]. *)
Definition run_all_analyses : Run :=
  call "print_pair_analysis" [("top", Int 15)]
  >> call "print_repeat_analysis" []
  >> call "print_balance_analysis" [("window", Int 10)]
  >> call "print_row_col_heatmap" [("window", Int 10)]
  >> call "print_gap_chart" [("numbers", IntList [1; 7; 13; 22; 37; 44; 55; 68; 72; 80])]
  >> call "print_monte_carlo" [("pick_count", Int 10); ("games", Int 100);
                               ("simulations", Int 1000)].
End Methods.

End Analyzer.

(* ===================================================================== *)
(** ** keno_hybrid_source.py *)
(* ===================================================================== *)

Module Hybrid.

(** One entry of [state['manual_entries']]. *)
Record ManualEntry := mkManualEntry {
  me_game_id : Z;
  me_drawn : list Z;
  me_timestamp : string
}.

(** [self.state], the JSON object of source_state.json.  A state file written
    by hand may lack either key, hence the options. *)
Record State := mkState {
  last_game_id : option Z;
  manual_entries : option (list ManualEntry)
}.

(** One row of [self.games_df].  A cell of [number_1 .. number_20] is [None]
    when the column is missing or [int(...)] fails on it. *)
Record Row := mkRow {
  row_game_id : Z;
  row_date : string;
  row_time : string;
  row_cells : list (option Z);
  row_datetime : string
}.

(** The dicts returned by [get_latest_game] and [get_new_games_since]. *)
Record GameDict := mkGameDict {
  game_id : Z;
  drawn : list Z;
  date : string;
  time : string;
  timestamp : option string
}.

(** What the component can raise. *)
Inductive exn : Type :=
  | KeyError (key : string)
  | FileNotFoundError (path : string).

Definition result (A : Type) : Type := A + exn.
Definition Return {A} (a : A) : result A := inl a.
Definition Raise {A} (e : exn) : result A := inr e.

(** The source object, the checkpoint file it owns and the console.
    [state_dir] tells whether the directory keno_data/ exists: the class
    never creates it, and the checkpoint file lives in it. *)
Record HybridGameSource := mkSource {
  state : State;
  games_df : list Row;
  state_dir : bool;
  state_file : option State;
  console : list string
}.

Definition state_path : string := "keno_data/source_state.json".

(** [_save_state]: [with open(self.state_path, 'w') as f: json.dump(self.state, f)].
    Without the directory [open] raises FileNotFoundError and nothing is
    written. *)
Definition save_state (s : HybridGameSource) : result unit * HybridGameSource :=
  if state_dir s
  then (Return (), mkSource (state s) (games_df s) (state_dir s) (Some (state s)) (console s))
  else (Raise (FileNotFoundError state_path), s).

Definition print (msg : string) (s : HybridGameSource) : HybridGameSource :=
  mkSource (state s) (games_df s) (state_dir s) (state_file s) (console s ++ [msg]).

(** The loop [for i in range(1, 21): try: drawn.append(int(...)) except: pass]. *)
Definition extract_drawn (r : Row) : list Z := omap id (take 20 (row_cells r)).

Definition sorted_numbers (l : list Z) : list Z := Py.sorted (Py.asc_by id) l.

(** [get_latest_game]. *)
Definition get_latest_game (s : HybridGameSource) : option GameDict * HybridGameSource :=
  match last (games_df s) with
  | None => (None, s)
  | Some latest =>
      let drawn := extract_drawn latest in
      if bool_decide (length drawn ≠ 20%nat) then (None, s)
      else (Some (mkGameDict (row_game_id latest) (sorted_numbers drawn)
                             (row_date latest) (row_time latest)
                             (Some (row_datetime latest))), s)
  end.

(** The body of [get_new_games_since], which only reads [self.games_df]. *)
Definition new_games_since (df : list Row) (last_id : Z) : list GameDict :=
  r ← df;
  if bool_decide (last_id < row_game_id r) then
    let drawn := extract_drawn r in
    if bool_decide (length drawn = 20%nat)
    then [mkGameDict (row_game_id r) (sorted_numbers drawn) (row_date r) (row_time r) None]
    else []
  else [].

(** [get_new_games_since]. *)
Definition get_new_games_since (last_id : Z) (s : HybridGameSource)
  : list GameDict * HybridGameSource :=
  (new_games_since (games_df s) last_id, s).

(** [add_manual_game]; [now] is [datetime.now().isoformat()].  The entry is
    appended in memory before [_save_state] is called. *)
Definition add_manual_game (now : string) (game_id : Z) (drawn : list Z)
    (s : HybridGameSource) : result bool * HybridGameSource :=
  if bool_decide (length drawn ≠ 20%nat) then
    (Return false, print "Error: Must have exactly 20 numbers" s)
  else if negb (forallb (λ n, bool_decide (1 ≤ n) && bool_decide (n ≤ 80)) drawn) then
    (Return false, print "Error: All numbers must be between 1-80" s)
  else
    match manual_entries (state s) with
    | None => (Raise (KeyError "manual_entries"), s)
    | Some entries =>
        let entry := mkManualEntry game_id (sorted_numbers drawn) now in
        let st := mkState (last_game_id (state s)) (Some (entries ++ [entry])) in
        match save_state (mkSource st (games_df s) (state_dir s) (state_file s) (console s)) with
        | (inl _, s1) => (Return true, s1)
        | (inr e, s1) => (Raise e, s1)
        end
    end.

(** [get_manual_game]. *)
Definition get_manual_game (game_id : Z) (s : HybridGameSource)
  : option ManualEntry * HybridGameSource :=
  (List.find (λ e, bool_decide (me_game_id e = game_id))
             (default [] (manual_entries (state s))), s).

(** [check_for_updates].  [self.state['last_game_id']] is set in memory
    before [_save_state] is called. *)
Definition check_for_updates (s : HybridGameSource)
  : result (list GameDict) * HybridGameSource :=
  match last (games_df s) with
  | None => (Return [], s)
  | Some latest =>
      let latest_id := row_game_id latest in
      let last_id := default 0 (last_game_id (state s)) in
      if bool_decide (last_id < latest_id) then
        let '(new_games, s1) := get_new_games_since last_id s in
        let st := mkState (Some latest_id) (manual_entries (state s1)) in
        match save_state (mkSource st (games_df s1) (state_dir s1) (state_file s1)
                                   (console s1)) with
        | (inl _, s2) => (Return new_games, s2)
        | (inr e, s2) => (Raise e, s2)
        end
      else (Return [], s)
  end.

(** The public operations of the component, as requests with their arguments. *)
Inductive Op : Type :=
  | GetLatestGame
  | GetNewGamesSince (last_id : Z)
  | AddManualGame (now : string) (game_id : Z) (drawn : list Z)
  | GetManualGame (game_id : Z)
  | CheckForUpdates.

(** The source after an operation. *)
Definition after (op : Op) (s : HybridGameSource) : HybridGameSource :=
  match op with
  | GetLatestGame => (get_latest_game s).2
  | GetNewGamesSince last_id => (get_new_games_since last_id s).2
  | AddManualGame now game_id drawn => (add_manual_game now game_id drawn s).2
  | GetManualGame game_id => (get_manual_game game_id s).2
  | CheckForUpdates => (check_for_updates s).2
  end.

(** The checkpoint: the in-memory state and its persisted copy. *)
Definition checkpoint (s : HybridGameSource) : State * option State :=
  (state s, state_file s).

End Hybrid.

(* ===================================================================== *)
(** ** keno_telegram.py *)
(* ===================================================================== *)

Module Telegram.

Definition TELEGRAM_BOT_TOKEN : string := "8392348475:AAFwYIjnOuKS4L2E_JU-cSb13ZtoQ6ln8iU".
Definition TELEGRAM_CHAT_ID : string := "5457189805".

(** A decoded JSON body (integer numbers only). *)
#[warnings="-register-all"]
Inductive json : Type :=
  | JNull
  | JBool (b : bool)
  | JInt (z : Z)
  | JStr (s : string)
  | JArr (l : list json)
  | JObj (fields : list (string * json)).

(** Python truthiness of a decoded JSON value. *)
Definition truthy (j : json) : bool :=
  match j with
  | JNull => false
  | JBool b => b
  | JInt z => negb (bool_decide (z = 0))
  | JStr s => negb (bool_decide (s = ""))
  | JArr l => negb (bool_decide (length l = 0%nat))
  | JObj f => negb (bool_decide (length f = 0%nat))
  end.

(** [d.get(key)] on a decoded object: the value of the key, [None] when the
    key is absent (for a repeated key the decoder keeps the last value). *)
Definition dict_get (key : string) (fields : list (string * json)) : option json :=
  snd <$> List.find (λ kv, bool_decide (kv.1 = key)) (reverse fields).

(** The request handed to [requests.post]. *)
Record Request := mkRequest {
  url : string;
  body_chat_id : string;
  body_text : string;
  timeout : Z
}.

(** What [requests.post(...)] followed by [response.json()] can do: the post
    raises, the decoding raises, or a JSON value comes back. *)
Inductive Outcome : Type :=
  | PostRaises (message : string)
  | JsonRaises (message : string)
  | Body (j : json).

Section Send.
(** The network, and [str(...)] as used by the f-strings. *)
Variable post : Request → Outcome.
Variable py_str : json → string.

(** The [try] block of [send_telegram_message]: console output and either
    the returned boolean or the exception that leaves the block. *)
Definition try_block (message chat_id : string) : list string * Py.result bool :=
  let url := "https://api.telegram.org/bot" +:+ TELEGRAM_BOT_TOKEN +:+ "/sendMessage" in
  match post (mkRequest url chat_id message 30) with
  | PostRaises m => ([], Py.Raise (Py.Exception m))
  | JsonRaises m => ([], Py.Raise (Py.Exception m))
  | Body (JObj fields) =>
      if truthy (default JNull (dict_get "ok" fields)) then ([], Py.Return true)
      else (["Telegram error: " +:+ default "Unknown" (py_str <$> dict_get "description" fields)],
            Py.Return false)
  | Body _ => ([], Py.Raise (Py.AttributeError "get"))
  end.

Definition exn_str (e : Py.exn) : string :=
  match e with
  | Py.IndexError => "list index out of range"
  | Py.KeyError k => k
  | Py.AttributeError a => "object has no attribute " +:+ a
  | Py.Exception m => m
  end.

(** [send_telegram_message]: the [try] block under [except Exception]. *)
Definition send_telegram_message (message : string) (chat_id : option string)
  : list string * Py.result bool :=
  let chat_id := default TELEGRAM_CHAT_ID chat_id in
  match try_block message chat_id with
  | (out, inl b) => (out, Py.Return b)
  | (out, inr e) => (out ++ ["Telegram send error: " +:+ exn_str e], Py.Return false)
  end.
End Send.

End Telegram.

(* ===================================================================== *)
(** ** simple_keno_scraper.py *)
(* ===================================================================== *)

Module Scraper.

(** A parsed historical entry (the dict of [_parse_historical_entry]). *)
Record Game := mkGame {
  game_id : Z;
  date : string;
  time : string;
  numbers : list Z
}.

(** [f"{game_data['game_id']}_{game_data['date']}"]. *)
Definition unique_key (g : Game) : string := pretty (game_id g) +:+ "_" +:+ date g.

(** The scraper object with the two files it owns. *)
Record SimpleKenoScraper := mkScraper {
  last_game_id : Z;
  seen_games : gset string;
  has_driver : bool;
  GAMES_CSV : Tracker.CsvFile;
  STATE_FILE : option (Z * gset string)
}.

(** The local variables of the pagination loop. *)
Record Scan := mkScan {
  collected_keys : gset string;
  all_games : list Game;
  consecutive_empty : nat
}.

(** The per-page counters. *)
Record PageCount := mkPageCount {
  page_new : nat;
  page_duplicates : nat;
  page_already_seen : nat
}.

(** Why the pagination loop ended, and on which page (counted from 0). *)
Inductive Stop : Type :=
  | ReachedTarget (page_num : nat)
  | AllAlreadySeen (page_num : nat)
  | ThreeEmptyPages (page_num : nat)
  | NoMorePagination (page_num : nat)
  | PageError (page_num : nat)
  | PagesExhausted.

Section Browser.
(** [HAS_SELENIUM]. *)
Variable HAS_SELENIUM : bool.
(** Whether [driver.get(HIST_URL)] succeeds. *)
Variable load_ok : bool.
(** The links of the page shown after [k] clicks, each with the result of
    [_parse_historical_entry] on it; [None] when reading the page raises. *)
Variable page_links : nat → option (list (option Game)).
(** Whether one of the back buttons could be clicked on that page. *)
Variable navigated : nat → bool.

(** The body of [for link in game_links]. *)
Definition scan_link (seen : gset string) (acc : Scan * PageCount) (link : option Game)
  : Scan * PageCount :=
  let '(sc, pc) := acc in
  match link with
  | None => (sc, pc)
  | Some game_data =>
      let key := unique_key game_data in
      if bool_decide (key ∈ collected_keys sc) then
        (sc, mkPageCount (page_new pc) (S (page_duplicates pc)) (page_already_seen pc))
      else if bool_decide (key ∈ seen) then
        (sc, mkPageCount (page_new pc) (page_duplicates pc) (S (page_already_seen pc)))
      else
        (mkScan ({[key]} ∪ collected_keys sc) (all_games sc ++ [game_data]) (consecutive_empty sc),
         mkPageCount (S (page_new pc)) (page_duplicates pc) (page_already_seen pc))
  end.

Definition scan_page (seen : gset string) (sc : Scan) (links : list (option Game))
  : Scan * PageCount :=
  foldl (scan_link seen) (sc, mkPageCount 0 0 0) links.

(** [for page_num in range(max_pages)], with [remaining = max_pages - page_num]. *)
Fixpoint pages_loop (seen : gset string) (max_games : nat)
    (remaining page_num : nat) (sc : Scan) : Scan * Stop :=
  match remaining with
  | O => (sc, PagesExhausted)
  | S remaining' =>
      if bool_decide (max_games ≤ length (all_games sc))%nat then (sc, ReachedTarget page_num)
      else
        match page_links page_num with
        | None => (sc, PageError page_num)
        | Some game_links =>
            let '(sc1, pc) := scan_page seen sc game_links in
            let next (sc2 : Scan) :=
              if navigated page_num
              then pages_loop seen max_games remaining' (S page_num) sc2
              else (sc2, NoMorePagination page_num) in
            if bool_decide (0 < page_new pc)%nat then
              next (mkScan (collected_keys sc1) (all_games sc1) 0)
            else if bool_decide (page_duplicates pc + page_already_seen pc = length game_links)%nat
                    && bool_decide (0 < length game_links)%nat then
              (sc1, AllAlreadySeen page_num)
            else
              let sc2 := mkScan (collected_keys sc1) (all_games sc1) (S (consecutive_empty sc1)) in
              if bool_decide (3 ≤ consecutive_empty sc2)%nat then (sc2, ThreeEmptyPages page_num)
              else next sc2
        end
  end.

(** [fetch_historical_deep]: the games returned, how the loop ended (what
    the console reports), and the scraper afterwards. *)
Definition fetch_historical_deep (max_games max_pages : nat) (s : SimpleKenoScraper)
  : list Game * option Stop * SimpleKenoScraper :=
  if negb HAS_SELENIUM || negb (has_driver s) then ([], None, s)
  else if negb load_ok then ([], None, s)
  else
    let '(sc, stop) := pages_loop (seen_games s) max_games max_pages 0 (mkScan ∅ [] 0) in
    (all_games sc, Some stop, s).
End Browser.

(** [_write_game_to_csv]. *)
Definition write_game_to_csv (g : Game) (f : Tracker.CsvFile) : Tracker.CsvFile :=
  Tracker.csv_append Tracker.games_header
    ([pretty (game_id g); date g; time g] ++ (pretty <$> numbers g)) f.

(** The body of the loop of [check_and_save_new_games]. *)
Definition save_one (acc : nat * SimpleKenoScraper) (g : Game) : nat * SimpleKenoScraper :=
  let '(new_count, s) := acc in
  if bool_decide (unique_key g ∉ seen_games s) then
    (S new_count,
     mkScraper (if bool_decide (last_game_id s < game_id g) then game_id g else last_game_id s)
               ({[unique_key g]} ∪ seen_games s) (has_driver s)
               (write_game_to_csv g (GAMES_CSV s)) (STATE_FILE s))
  else (new_count, s).

(** [check_and_save_new_games]. *)
Definition check_and_save_new_games (games : list Game) (s : SimpleKenoScraper)
  : nat * SimpleKenoScraper :=
  let '(new_count, s1) := foldl save_one (0%nat, s) games in
  if bool_decide (0 < new_count)%nat then
    (new_count, mkScraper (last_game_id s1) (seen_games s1) (has_driver s1) (GAMES_CSV s1)
                          (Some (last_game_id s1, seen_games s1)))
  else (new_count, s1).

End Scraper.

(* ===================================================================== *)
(** ** keno_tracker.py: predictions and the processing of a new game *)
(* ===================================================================== *)

Module TrackerOps.

(** [','.join(map(str, numbers))]. *)
Definition join_numbers (l : list Z) : string := String.concat "," (pretty <$> l).

Definition predictions_header : list string :=
  ["game_id"; "date"; "playable_numbers"; "removed_count"].

Definition prediction_row (p : Tracker.Prediction) : list string :=
  [pretty (Tracker.p_game_id p); Tracker.p_date p;
   join_numbers (Tracker.playable_numbers p); pretty (Tracker.removed_count p)].

(** [_save_predictions]: the file is rewritten; it stays empty without
    predictions. *)
Definition save_predictions (l : list Tracker.Prediction) : Tracker.CsvFile :=
  Some (match l with [] => [] | _ => predictions_header :: (prediction_row <$> l) end).

(** The tracker together with predictions.csv. *)
Record Store := mkStore {
  tracker : Tracker.KenoTracker;
  PREDICTIONS_CSV : Tracker.CsvFile
}.

(** The dict returned by [process_new_game]. *)
Record Result := mkResult {
  res_game_id : Z;
  is_new : bool;
  score : option Tracker.ScoreResult;
  res_playable_numbers : list Z;
  res_removed_count : Z
}.

(** [game_id + 1 if game_id < 999 else 1]. *)
Definition next_game_id (gid : Z) : Z := if bool_decide (gid < 999) then gid + 1 else 1.

(** [self.predictions.append(...)] followed by [_save_predictions]. *)
Definition file_prediction (p : Tracker.Prediction) (st : Tracker.KenoTracker) : Store :=
  let ps := Tracker.predictions st ++ [p] in
  mkStore (Tracker.mkTracker (Tracker.games st) ps (Tracker.scores st)
                             (Tracker.GAMES_CSV st) (Tracker.SCORES_CSV st))
          (save_predictions ps).

(** [process_new_game]. *)
Definition process_new_game (gid : Z) (d t : string) (nums : list Z) (st : Store)
  : Result * Store :=
  let '(new, s1) := Tracker.add_game gid d t nums (tracker st) in
  let '(sc, s2) :=
    if new && bool_decide (1 < length (Tracker.games s1))%nat
    then Tracker.score_prediction gid s1
    else (None, s1) in
  let playable := Tracker.get_playable_numbers (Tracker.games s2) in
  let removed := 80 - Z.of_nat (length playable) in
  (mkResult gid new sc (take 20 playable) removed,
   file_prediction (Tracker.mkPrediction (next_game_id gid) d (take 20 playable) removed) s2).

(** [generate_prediction_for_game]: the draws with that id are set aside
    while the playable numbers are computed, then put back. *)
Definition generate_prediction_for_game (gid : Z) (d : string) (st : Store)
  : list Z * Store :=
  let temp_games := Tracker.games (tracker st) in
  let playable :=
    Tracker.get_playable_numbers
      (List.filter (λ g, negb (bool_decide (Tracker.game_id g = gid))) temp_games) in
  (take 20 playable,
   file_prediction (Tracker.mkPrediction gid d (take 20 playable)
                                         (80 - Z.of_nat (length playable)))
                   (tracker st)).

End TrackerOps.

(* ===================================================================== *)
(** ** keno_live_tracker.py: the elimination rules *)
(* ===================================================================== *)

Module Live.

Definition get_row (num : Z) : Z := (num - 1) `div` 10 + 1.
Definition get_col (num : Z) : Z := (num - 1) `mod` 10 + 1.

Definition get_neighbors (num : Z) : gset Z :=
  let row := get_row num in
  let col := get_col num in
  list_to_set
    (r ← Py.range (Z.max 1 (row - 1)) (Z.min 8 (row + 1) + 1);
     c ← Py.range (Z.max 1 (col - 1)) (Z.min 10 (col + 1) + 1);
     let neighbor := (r - 1) * 10 + c in
     if bool_decide (neighbor ≠ num) && bool_decide (1 ≤ neighbor) && bool_decide (neighbor ≤ 80)
     then [neighbor] else []).

Section Rules.
Variable games : list Tracker.Game.

(** [_hits_in_n]. *)
Definition hits_in_n (num : Z) (n : nat) : Z :=
  Py.count (λ g, Py.mem_list num (Tracker.numbers g)) (take n games).

(** [pos <= len(self.games) and num in self.games[pos - 1]['numbers']]. *)
Definition hit_at (num : Z) (pos : nat) : bool :=
  match games !! (pos - 1)%nat with
  | Some g => Py.mem_list num (Tracker.numbers g)
  | None => false
  end.

(** [_hit_in_positions] and [_hit_count_positions]. *)
Definition hit_in_positions (num : Z) (positions : list nat) : bool :=
  existsb (hit_at num) positions.
Definition hit_count_positions (num : Z) (positions : list nat) : Z :=
  Py.count (hit_at num) positions.

(** [_has_neighbor_hit]. *)
Definition has_neighbor_hit (num : Z) (position : nat) : bool :=
  match games !! (position - 1)%nat with
  | None => false
  | Some g => bool_decide (get_neighbors num ∩ list_to_set (Tracker.numbers g) ≠ ∅)
  end.

(** [_is_row_col_hot]. *)
Definition is_row_col_hot (num : Z) (last_n : nat) (threshold : Z) : bool :=
  let num_row := get_row num in
  let num_col := get_col num in
  existsb (λ g,
             let drawn := Tracker.numbers g in
             let row_hits := Py.count (λ n, bool_decide (get_row n = num_row)) drawn in
             let col_hits := Py.count (λ n, bool_decide (get_col n = num_col)) drawn in
             bool_decide (threshold ≤ row_hits) || bool_decide (threshold ≤ col_hits))
          (take last_n games).

Definition reason_if (b : bool) (r : string) : list string := if b then [r] else [].

(** The list [reasons] built for one number. *)
Definition reasons_of (num : Z) : list string :=
  reason_if (hit_in_positions num [1; 2]%nat) "last2"
  ++ reason_if (bool_decide (2 ≤ hit_count_positions num [1; 2; 3]%nat)) "2of3"
  ++ reason_if (bool_decide (4 ≤ hit_count_positions num (seq 1 8))) "4of8"
  ++ reason_if (bool_decide (6 ≤ hits_in_n num 10)) "6of10"
  ++ reason_if (hit_in_positions num [1; 3; 4]%nat) "pattern134"
  ++ reason_if (is_row_col_hot num 3 4) "rowcol_hot"
  ++ reason_if (negb (has_neighbor_hit num 1)) "no_neighbor".

(** The dict [remove_reasons] after the first loop. *)
Definition remove_reasons : gmap Z (list string) :=
  foldl (λ m num, match reasons_of num with
                  | [] => m
                  | rs => <[num := rs]> m
                  end) ∅ (Py.range 1 81).

(** [get_playable_numbers]: the playable numbers and the reasons. *)
Definition get_playable_numbers : list Z * gmap Z (list string) :=
  match games with
  | [] => (Py.range 1 81, ∅)
  | _ =>
      let numbers_data :=
        (λ num, (num, (hits_in_n num 50, hits_in_n num 10)))
          <$> List.filter (λ num, negb (bool_decide (is_Some (remove_reasons !! num))))
                          (Py.range 1 81) in
      (fst <$> Py.sorted (Py.by_pair_key (λ x, (- x.2.1, x.2.2))) numbers_data,
       remove_reasons)
  end.
End Rules.

End Live.

(* ===================================================================== *)
(** ** keno_multi_strategy.py: further strategies and scoring *)
(* ===================================================================== *)

Module Strategies.

Section Strategies.
Variable games : list Multi.Game.

(** [sum(1 for g in self.games[:n] if num in g['numbers'])]. *)
Definition hits (num : Z) (n : nat) : Z :=
  Py.count (λ g, Py.mem num (Multi.numbers g)) (take n games).

(** [strategy_icebox]. *)
Definition strategy_icebox : list Z :=
  match games with
  | [] => Py.range 1 81
  | _ =>
      let ice_box : gset Z :=
        list_to_set (List.filter (λ num, bool_decide (2 ≤ hits num 3)) (Py.range 1 81)) in
      let remaining := List.filter (λ n, negb (Py.mem n ice_box)) (Py.range 1 81) in
      take 20 (Py.sorted (Py.desc_by (λ n, hits n 50)) remaining)
  end.



(** The loop [gap = 0; for g in self.games: if num in g: break; gap += 1]. *)
Fixpoint gap_in (num : Z) (l : list Multi.Game) : Z :=
  match l with
  | [] => 0
  | g :: l' => if Py.mem num (Multi.numbers g) then 0 else 1 + gap_in num l'
  end.

(** The second loop of [strategy_lonely7]; after [break] nothing is added. *)
Definition extend_lonely (lonely : list Z) : list Z :=
  foldl (λ lonely num,
           if bool_decide (7 ≤ length lonely)%nat then lonely
           else if negb (Py.mem_list num lonely) && bool_decide (8 ≤ gap_in num games)
                then lonely ++ [num] else lonely)
        lonely (Py.range 1 81).

(** [strategy_lonely7]. *)
Definition strategy_lonely7 : list Z :=
  if bool_decide (length games < 12)%nat then Py.range 1 81
  else
    let gap_data :=
      List.filter (λ x : Z * Z, bool_decide (12 ≤ x.2))
                  ((λ num, (num, gap_in num games)) <$> Py.range 1 81) in
    let lonely := fst <$> take 7 (Py.sorted (Py.desc_by snd) gap_data) in
    if bool_decide (length lonely < 7)%nat then extend_lonely lonely else lonely.
End Strategies.

(** One entry of [self.predictions[strategy]] and of [self.scores[strategy]]. *)
Record Pred := mkPred { pred_game_id : Z; pred_date : string; picks : list Z }.
Record Score := mkScore { score_game_id : Z; hits_of : Z; pick_count : Z }.

(** The two [defaultdict(list)] of the tracker. *)
Record Book := mkBook {
  predictions : gmap string (list Pred);
  scores : gmap string (list Score)
}.

(** [d[key]] on a [defaultdict(list)]: a missing key is created empty. *)
Definition touch {A} (key : string) (d : gmap string (list A)) : gmap string (list A) :=
  match d !! key with
  | Some _ => d
  | None => <[key := []]> d
  end.

(** [score_prediction(strategy, game_id, actual)]. *)
Definition score_prediction (strategy : string) (gid : Z) (actual : gset Z) (b : Book)
  : option Z * Book :=
  let preds := touch strategy (predictions b) in
  match List.find (λ p, bool_decide (pred_game_id p = gid)) (default [] (preds !! strategy)) with
  | Some pred =>
      let h := Z.of_nat (size ((list_to_set (picks pred) : gset Z) ∩ actual)) in
      let sc := touch strategy (scores b) in
      (Some h,
       mkBook preds
              (<[strategy := default [] (sc !! strategy)
                             ++ [mkScore gid h (Z.of_nat (length (picks pred)))]]> sc))
  | None => (None, mkBook preds (scores b))
  end.

End Strategies.

(* ===================================================================== *)
(** ** simple_keno_scraper.py: parsing an entry and the single-page poll *)
(* ===================================================================== *)

Module ScraperPoll.

(** What the regular expressions find in one entry of the historical page:
    the digits of the link text, whether the two parents exist, the date and
    time found in the row, and the tokens that spell a number 1..80. *)
Record RawEntry := mkRawEntry {
  game_id_match : option Z;
  has_parent : bool;
  has_row : bool;
  date_match : option string;
  time_match : option string;
  all_nums : list Z
}.

(** The loop that keeps the first twenty distinct numbers. *)
Definition collect_step (acc : gset Z * list Z) (num : Z) : gset Z * list Z :=
  let '(seen_nums, numbers) := acc in
  if bool_decide (length numbers = 20%nat) then acc
  else if bool_decide (num ∈ seen_nums) then acc
  else ({[num]} ∪ seen_nums, numbers ++ [num]).

Definition collect_numbers (all_nums : list Z) : list Z :=
  (foldl collect_step (∅, []) all_nums).2.

(** [_parse_historical_entry]; [today] and [now] stand for the formatted
    [datetime.now()]. *)
Definition parse_historical_entry (today now : string) (e : RawEntry) : option Scraper.Game :=
  match game_id_match e with
  | None => None
  | Some gid =>
      if negb (has_parent e) then None
      else if negb (has_row e) then None
      else
        let numbers := collect_numbers (all_nums e) in
        if bool_decide (length numbers = 20%nat)
        then Some (Scraper.mkGame gid (default today (date_match e)) (default now (time_match e))
                                  (Py.sorted (Py.asc_by id) numbers))
        else None
  end.

(** [fetch_historical_page]: the parsed entries of the first page whose key
    is not in [seen_games]; [None] stands for a page that could not be read. *)
Definition fetch_historical_page (HAS_SELENIUM : bool)
    (page : option (list (option Scraper.Game))) (s : Scraper.SimpleKenoScraper)
  : list Scraper.Game :=
  if negb HAS_SELENIUM || negb (Scraper.has_driver s) then []
  else
    match page with
    | None => []
    | Some links =>
        List.filter (λ g, bool_decide (Scraper.unique_key g ∉ Scraper.seen_games s))
                    (omap id links)
    end.

(** [run_once]; [current_id] is the result of [get_current_game_id]. *)
Definition run_once (HAS_SELENIUM : bool) (current_id : option Z)
    (page : option (list (option Scraper.Game))) (s : Scraper.SimpleKenoScraper)
  : nat * Scraper.SimpleKenoScraper :=
  let same_as_last :=
    match current_id with
    | Some cid => negb (bool_decide (cid = 0)) && bool_decide (cid = Scraper.last_game_id s)
    | None => false
    end in
  if same_as_last then (0%nat, s)
  else
    match fetch_historical_page HAS_SELENIUM page s with
    | [] => (0%nat, s)
    | hist_games => Scraper.check_and_save_new_games hist_games s
    end.

End ScraperPoll.

(* ===================================================================== *)
(** ** keno_live_tracker.py: processing new games *)
(* ===================================================================== *)

Module LiveOps.

(** The dict returned by [score_last_prediction]. *)
Record ScoreDict := mkScoreDict {
  sd_game_id : Z;
  sd_date : string;
  sd_hits : Z;
  sd_playable_count : Z;
  sd_hit_numbers : list Z
}.

(** The tracker object with the files it owns.  Of an entry of [self.scores]
    only game_id, hits and playable_count are ever read, so the entries are
    kept as [Tracker.Score]. *)
Record KenoLiveTracker := mkLive {
  games : list Tracker.Game;
  predictions : list Tracker.Prediction;
  scores : list Tracker.Score;
  last_game_id : Z;
  seen_games : gset string;
  GAMES_CSV : Tracker.CsvFile;
  PREDICTIONS_CSV : Tracker.CsvFile;
  SCORES_CSV : Tracker.CsvFile;
  STATE_FILE : option (Z * gset string)
}.

(** [add_game]: the game goes to the front of [self.games]. *)
Definition add_game (game : Tracker.Game) (s : KenoLiveTracker) : KenoLiveTracker :=
  let row := [pretty (Tracker.game_id game); Tracker.date game; Tracker.time game]
             ++ (pretty <$> Tracker.numbers game) in
  let last := if bool_decide (last_game_id s < Tracker.game_id game)
              then Tracker.game_id game else last_game_id s in
  mkLive (game :: games s) (predictions s) (scores s) last (seen_games s)
         (Tracker.csv_append Tracker.games_header row (GAMES_CSV s))
         (PREDICTIONS_CSV s) (SCORES_CSV s) (Some (last, seen_games s)).

(** The first prediction with the game's id and date. *)
Definition find_prediction (game : Tracker.Game) (ps : list Tracker.Prediction)
  : option Tracker.Prediction :=
  List.find (λ p, bool_decide (Tracker.p_game_id p = Tracker.game_id game)
                  && bool_decide (Tracker.p_date p = Tracker.date game)) ps.

(** The rows that [DictWriter] writes for the scores, header first. *)
Definition scores_file (l : list Tracker.Score) : Tracker.CsvFile :=
  Some (Tracker.scores_header :: (Tracker.score_row <$> l)).

(** [score_last_prediction]. *)
Definition score_last_prediction (actual_game : Tracker.Game) (s : KenoLiveTracker)
  : option ScoreDict * KenoLiveTracker :=
  match find_prediction actual_game (predictions s) with
  | None => (None, s)
  | Some prediction =>
      let predicted : gset Z := list_to_set (Tracker.playable_numbers prediction) in
      let actual : gset Z := list_to_set (Tracker.numbers actual_game) in
      let hits := Z.of_nat (size (predicted ∩ actual)) in
      let cnt := Z.of_nat (length (Tracker.playable_numbers prediction)) in
      let scores' := scores s ++ [Tracker.mkScore (Tracker.game_id actual_game) hits cnt] in
      (Some (mkScoreDict (Tracker.game_id actual_game) (Tracker.date actual_game) hits cnt
                         (Py.sorted_set (predicted ∩ actual))),
       mkLive (games s) (predictions s) scores' (last_game_id s) (seen_games s)
              (GAMES_CSV s) (PREDICTIONS_CSV s) (scores_file scores') (STATE_FILE s))
  end.

(** [str(l)] for a list of integers. *)
Definition str_list (l : list Z) : string := "[" +:+ String.concat ", " (pretty <$> l) +:+ "]".

(** The row that [writer.writerow(p)] writes for a prediction: the csv writer
    turns each value into its [str]. *)
Definition prediction_row (p : Tracker.Prediction) : list string :=
  [pretty (Tracker.p_game_id p); Tracker.p_date p;
   str_list (Tracker.playable_numbers p); pretty (Tracker.removed_count p)].

Definition predictions_file (l : list Tracker.Prediction) : Tracker.CsvFile :=
  Some (TrackerOps.predictions_header :: (prediction_row <$> l)).

(** [save_prediction]. *)
Definition save_prediction (gid : Z) (d : string) (playable : list Z) (removed_count : Z)
    (s : KenoLiveTracker) : KenoLiveTracker :=
  let ps := predictions s ++ [Tracker.mkPrediction gid d (take 20 playable) removed_count] in
  mkLive (games s) ps (scores s) (last_game_id s) (seen_games s)
         (GAMES_CSV s) (predictions_file ps) (SCORES_CSV s) (STATE_FILE s).

(** One entry of the list that [process_new_games] returns. *)
Record Result := mkResult {
  game : Tracker.Game;
  score : option ScoreDict;
  next_prediction : list Z;
  removed_count : Z;
  remove_reasons : gmap Z (list string)
}.

(** The body of the loop of [process_new_games]. *)
Definition process_one (acc : list Result * KenoLiveTracker) (g : Tracker.Game)
  : list Result * KenoLiveTracker :=
  let '(results, s) := acc in
  let '(sc, s1) := score_last_prediction g s in
  let s2 := add_game g s1 in
  let '(playable, reasons) := Live.get_playable_numbers (games s2) in
  let next_id := TrackerOps.next_game_id (Tracker.game_id g) in
  let removed := Z.of_nat (size reasons) in
  (results ++ [mkResult g sc (take 20 playable) removed reasons],
   save_prediction next_id (Tracker.date g) playable removed s2).

(** [process_new_games]. *)
Definition process_new_games (new_games : list Tracker.Game) (s : KenoLiveTracker)
  : list Result * KenoLiveTracker :=
  foldl process_one ([], s) new_games.

(** What the part of [_load_data] that reads predictions.csv can raise. *)
Inductive load_exn : Type :=
  | ValueError
  | TypeError
  | KeyError (key : string)
  | AttributeError.

(** [s.split(',')]. *)
Fixpoint split_comma (s : string) : list string :=
  match s with
  | EmptyString => [EmptyString]
  | String a s' =>
      if bool_decide (String a EmptyString = ",") then EmptyString :: split_comma s'
      else match split_comma s' with
           | [] => [String a EmptyString]
           | piece :: pieces => String a piece :: pieces
           end
  end.

(** The dict that [csv.DictReader] builds for one row: the cells under the
    field names of the header, [None] under a field name without a cell. *)
Fixpoint dict_row (fieldnames row : list string) : gmap string (option string) :=
  match fieldnames, row with
  | [], _ => ∅
  | f :: fs, [] => <[f := None]> (dict_row fs [])
  | f :: fs, c :: cs =>
      match dict_row fs cs !! f with
      | Some v => dict_row fs cs
      | None => <[f := Some c]> (dict_row fs cs)
      end
  end.

Section Load.
(** [int(s)] for a string: the integer it spells, or nothing when it raises
    ValueError. *)
Variable py_int : string → option Z.

(** [int(row[key])]. *)
Definition int_field (d : gmap string (option string)) (key : string) : Z + load_exn :=
  match d !! key with
  | None => inr (KeyError key)
  | Some None => inr TypeError
  | Some (Some cell) =>
      match py_int cell with
      | Some z => inl z
      | None => inr ValueError
      end
  end.

(** [[int(x) for x in pieces]]. *)
Fixpoint int_list (pieces : list string) : list Z + load_exn :=
  match pieces with
  | [] => inl []
  | x :: rest =>
      match py_int x with
      | None => inr ValueError
      | Some z =>
          match int_list rest with
          | inl zs => inl (z :: zs)
          | inr e => inr e
          end
      end
  end.

(** The dict appended for one row of predictions.csv: game_id, date (None
    when the row has no cell for it), playable_numbers and removed_count. *)
Definition LoadedPrediction : Type := Z * option string * list Z * Z.

Definition load_prediction (d : gmap string (option string)) : LoadedPrediction + load_exn :=
  match int_field d "game_id" with
  | inr e => inr e
  | inl gid =>
      match d !! "date" with
      | None => inr (KeyError "date")
      | Some date =>
          match d !! "playable_numbers" with
          | None => inr (KeyError "playable_numbers")
          | Some None => inr AttributeError
          | Some (Some cell) =>
              match int_list (split_comma cell) with
              | inr e => inr e
              | inl playable =>
                  match int_field d "removed_count" with
                  | inr e => inr e
                  | inl removed => inl (gid, date, playable, removed)
                  end
              end
          end
      end
  end.

(** [for row in reader]; the reader skips empty rows. *)
Fixpoint load_rows (fieldnames : list string) (rows : list (list string))
  : list LoadedPrediction + load_exn :=
  match rows with
  | [] => inl []
  | [] :: rest => load_rows fieldnames rest
  | row :: rest =>
      match load_prediction (dict_row fieldnames row) with
      | inr e => inr e
      | inl p =>
          match load_rows fieldnames rest with
          | inl ps => inl (p :: ps)
          | inr e => inr e
          end
      end
  end.

(** The predictions that [_load_data] reads from predictions.csv. *)
Definition load_predictions (f : Tracker.CsvFile) : list LoadedPrediction + load_exn :=
  match f with
  | None => inl []
  | Some [] => inl []
  | Some (fieldnames :: rows) => load_rows fieldnames rows
  end.
End Load.

End LiveOps.

(* ===================================================================== *)
(** * Properties *)
(* ===================================================================== *)

(** ** Facts about the built-ins *)

Section SortFacts.
Context {A : Type} (leb : A → A → bool).

Lemma insert_sorted_perm (x : A) (l : list A) : Py.insert_sorted leb x l ≡ₚ x :: l.
Proof.
  induction l as [|y l IH]; simpl; [done|].
  destruct (leb x y); [done|].
  rewrite IH. apply Permutation_swap.
Qed.

Lemma sorted_perm (l : list A) : Py.sorted leb l ≡ₚ l.
Proof.
  induction l as [|x l IH]; simpl; [done|].
  rewrite insert_sorted_perm. by rewrite IH.
Qed.

Lemma elem_of_sorted (x : A) (l : list A) : x ∈ Py.sorted leb l ↔ x ∈ l.
Proof. by rewrite sorted_perm. Qed.

Lemma length_sorted (l : list A) : length (Py.sorted leb l) = length l.
Proof. by rewrite sorted_perm. Qed.

Hypothesis leb_total : ∀ x y, leb x y = true ∨ leb y x = true.
Hypothesis leb_trans : ∀ x y z, leb x y = true → leb y z = true → leb x z = true.

Lemma insert_sorted_ordered (x : A) (l : list A) :
  StronglySorted (λ a b, leb a b = true) l →
  StronglySorted (λ a b, leb a b = true) (Py.insert_sorted leb x l).
Proof.
  induction 1 as [|y l Hl IH Hy]; simpl.
  - repeat constructor.
  - destruct (leb x y) eqn:Hxy.
    + constructor; [by constructor|].
      constructor; [done|].
      eapply Forall_impl; [exact Hy|]. intros z Hz. by eapply leb_trans.
    + constructor; [done|].
      rewrite insert_sorted_perm. constructor; [|done].
      destruct (leb_total x y); congruence.
Qed.

Lemma sorted_ordered (l : list A) :
  StronglySorted (λ a b, leb a b = true) (Py.sorted leb l).
Proof.
  induction l as [|x l IH]; simpl; [constructor|].
  by apply insert_sorted_ordered.
Qed.
End SortFacts.

Lemma StronglySorted_weaken {A} (R1 R2 : A → A → Prop) (l : list A) :
  (∀ x y, R1 x y → R2 x y) → StronglySorted R1 l → StronglySorted R2 l.
Proof.
  intros HR. induction 1 as [|x l Hl IH Hx]; constructor; [done|].
  eapply Forall_impl; [exact Hx|]. intros y. apply HR.
Qed.

Lemma elem_of_range (x a b : Z) : x ∈ Py.range a b ↔ a ≤ x < b.
Proof. unfold Py.range. rewrite elem_of_seqZ. lia. Qed.

(** [sorted(s)] lists the members of the set in strictly ascending order. *)
Lemma sorted_set_spec (s : gset Z) :
  StronglySorted Z.lt (Py.sorted_set s)
  ∧ (∀ x, x ∈ Py.sorted_set s ↔ x ∈ s)
  ∧ length (Py.sorted_set s) = size s.
Proof.
  unfold Py.sorted_set. split_and!.
  - assert (Hs : StronglySorted Z.le (Py.sorted (Py.asc_by id) (elements s))).
    { eapply StronglySorted_weaken;
        [|apply (sorted_ordered (Py.asc_by id))].
      - intros x y H. by apply bool_decide_eq_true in H.
      - intros x y. unfold Py.asc_by. rewrite !bool_decide_eq_true. simpl. lia.
      - intros x y z. unfold Py.asc_by. rewrite !bool_decide_eq_true. simpl. lia. }
    assert (Hn : NoDup (Py.sorted (Py.asc_by id) (elements s))).
    { rewrite sorted_perm. apply NoDup_elements. }
    revert Hs Hn. generalize (Py.sorted (Py.asc_by id) (elements s)).
    induction 1 as [|x l Hl IH Hx]; intros Hn; [constructor|].
    apply NoDup_cons in Hn as [Hx' Hn]. constructor; [by apply IH|].
    apply Forall_forall. intros y Hy.
    rewrite Forall_forall in Hx. specialize (Hx y Hy).
    assert (x ≠ y) by (intros ->; done). lia.
  - intros x. by rewrite elem_of_sorted, elem_of_elements.
  - by rewrite length_sorted.
Qed.

(** ** Board geometry (C7) *)

Definition interior (n : Z) : Prop :=
  2 ≤ Tracker.get_row n ≤ 7 ∧ 2 ≤ Tracker.get_col n ≤ 9.

Definition neighbors_ok (n : Z) : Prop :=
  (n ∉ Tracker.get_neighbors n)
  ∧ set_Forall (λ m, 1 ≤ m ≤ 80) (Tracker.get_neighbors n)
  ∧ (n ∉ Multi.get_neighbors n)
  ∧ set_Forall (λ m, 1 ≤ m ≤ 80) (Multi.get_neighbors n)
  ∧ Multi.get_neighbors n = Tracker.get_neighbors n
  ∧ (interior n → size (Tracker.get_neighbors n) = 8%nat).

#[local] Instance neighbors_ok_dec (n : Z) : Decision (neighbors_ok n).
Proof. unfold neighbors_ok, interior. apply _. Defined.

Lemma neighbors_ok_board : Forall neighbors_ok (Py.range 1 81).
Proof. apply (bool_decide_unpack _). by vm_compute. Qed.

Lemma neighbors_ok_all (n : Z) : 1 ≤ n ≤ 80 → neighbors_ok n.
Proof.
  intros Hn. pose proof neighbors_ok_board as H.
  rewrite Forall_forall in H. apply H, elem_of_range. lia.
Qed.

(** C7. Board geometry: for every n in [1,80], row(n) lies in [1,8], col(n)
    in [1,10] and (row(n)-1)*10 + col(n) = n (likewise for the zero-based
    [rc]/[to_num] of the multi-strategy tracker); mirror(mirror(m)) = m and
    mirror(m) <> m for every integer m; the neighbour set of n, in both
    implementations, excludes n and contains only values in [1,80]; it has
    size 8 for every interior number, in particular 25, and size 3 for the
    corner 1. *)
Theorem C7_board_geometry (n : Z) (Hn : 1 ≤ n ≤ 80) :
  (1 ≤ Tracker.get_row n ≤ 8
   ∧ 1 ≤ Tracker.get_col n ≤ 10
   ∧ (Tracker.get_row n - 1) * 10 + Tracker.get_col n = n)
  ∧ (0 ≤ (Multi.rc n).1 < Multi.ROWS
     ∧ 0 ≤ (Multi.rc n).2 < Multi.COLS
     ∧ Multi.to_num (Multi.rc n).1 (Multi.rc n).2 = n)
  ∧ (∀ m : Z, Multi.mirror_num (Multi.mirror_num m) = m ∧ Multi.mirror_num m ≠ m)
  ∧ ((n ∉ Tracker.get_neighbors n) ∧ ∀ m, m ∈ Tracker.get_neighbors n → 1 ≤ m ≤ 80)
  ∧ ((n ∉ Multi.get_neighbors n) ∧ ∀ m, m ∈ Multi.get_neighbors n → 1 ≤ m ≤ 80)
  ∧ (interior n →
     size (Tracker.get_neighbors n) = 8%nat ∧ size (Multi.get_neighbors n) = 8%nat)
  ∧ (interior 25
     ∧ size (Tracker.get_neighbors 25) = 8%nat ∧ size (Multi.get_neighbors 25) = 8%nat)
  ∧ (size (Tracker.get_neighbors 1) = 3%nat ∧ size (Multi.get_neighbors 1) = 3%nat).
Proof.
  destruct (neighbors_ok_all n Hn) as (Ht1 & Ht2 & Hm1 & Hm2 & Heq & Hint).
  unfold Tracker.get_row, Tracker.get_col, Multi.rc, Multi.to_num,
    Multi.ROWS, Multi.COLS, Multi.mirror_num; simpl.
  pose proof (Z.div_mod (n - 1) 10 ltac:(lia)) as Hdm.
  pose proof (Z.mod_pos_bound (n - 1) 10 ltac:(lia)) as Hmod.
  split_and!; try lia; try done.
  intros Hi. rewrite Heq. split; by apply Hint.
Qed.

Lemma C7_board_geometry_witness :
  1 ≤ 25 ≤ 80
  ∧ Tracker.get_row 25 = 3 ∧ Tracker.get_col 25 = 5
  ∧ size (Tracker.get_neighbors 25) = 8%nat.
Proof.
  assert (H : 1 ≤ 25 ≤ 80) by lia.
  pose proof (C7_board_geometry 25 H) as (_ & _ & _ & _ & _ & _ & (_ & Hs & _) & _).
  split; [lia|]. split; [reflexivity|]. split; [reflexivity | exact Hs].
Defined.

(** ** The single-strategy tracker: [add_game] (C10) and [score_prediction] (C5) *)

Lemma existsb_elem_of {A} (f : A → bool) (l : list A) (x : A) :
  x ∈ l → f x = true → existsb f l = true.
Proof.
  intros Hx Hf. apply existsb_exists. exists x.
  split; [by apply list_elem_of_In|done].
Qed.

(** C10. When a draw already held in [self.games] has the identity key
    "{game_id}_{date}" of the draw being added, [add_game] returns False and
    the tracker is left as it was: same in-memory draw list, same games CSV
    file (no row appended). *)
Theorem C10_add_game_duplicate (s : Tracker.KenoTracker)
    (gid : Z) (d t : string) (nums : list Z) (g : Tracker.Game)
    (Hin : g ∈ Tracker.games s)
    (Hkey : Tracker.unique_key g = Tracker.make_key gid d) :
  Tracker.add_game gid d t nums s = (false, s)
  ∧ Tracker.games (Tracker.add_game gid d t nums s).2 = Tracker.games s
  ∧ Tracker.GAMES_CSV (Tracker.add_game gid d t nums s).2 = Tracker.GAMES_CSV s.
Proof.
  assert (H : Tracker.add_game gid d t nums s = (false, s)).
  { unfold Tracker.add_game.
    rewrite (existsb_elem_of _ _ g Hin); [done|].
    by apply bool_decide_eq_true. }
  by rewrite H.
Qed.

Definition game_5_jan : Tracker.Game :=
  Tracker.mkGame 5 "01/01/24" "10:00:00" (Py.range 1 21) "5_01/01/24".

Definition tracker_one_game : Tracker.KenoTracker :=
  Tracker.mkTracker [game_5_jan] [] []
    (Some [Tracker.games_header;
           ["5"; "01/01/24"; "10:00:00"] ++ (pretty <$> Py.range 1 21)])
    None.

Lemma C10_add_game_duplicate_witness :
  Tracker.add_game 5 "01/01/24" "11:30:00" (Py.range 41 61) tracker_one_game
  = (false, tracker_one_game).
Proof.
  refine (proj1 (C10_add_game_duplicate tracker_one_game 5 "01/01/24" "11:30:00"
                   (Py.range 41 61) game_5_jan _ _)).
  - apply list_elem_of_here.
  - reflexivity.
Defined.

(** The same [game_id] on another date is a new draw: it is stored and a row
    is appended. *)
Example add_game_other_date :
  let r := Tracker.add_game 5 "06/01/24" "11:30:00" (Py.range 41 61) tracker_one_game in
  r.1 = true
  ∧ length (Tracker.games r.2) = 2%nat
  ∧ (length <$> Tracker.GAMES_CSV r.2) = Some 3%nat.
Proof. by vm_compute. Qed.

Lemma find_first {A} (f : A → bool) (l1 : list A) (x : A) (l2 : list A) :
  Forall (λ y, f y = false) l1 → f x = true → List.find f (l1 ++ x :: l2) = Some x.
Proof.
  induction 1 as [|y l1 Hy _ IH]; intros Hx; simpl.
  - by rewrite Hx.
  - rewrite Hy. by apply IH.
Qed.

Lemma find_absent {A} (f : A → bool) (l : list A) :
  (∀ y, y ∈ l → f y = false) → List.find f l = None.
Proof.
  induction l as [|y l IH]; intros H; simpl; [done|].
  rewrite (H y) by apply list_elem_of_here.
  apply IH. intros z Hz. apply H. by apply list_elem_of_further.
Qed.

(** The claim of C5 as the specification words it, at one prediction [p] and
    one stored draw [d]. *)
Definition scores_every_pair (s : Tracker.KenoTracker) (gid : Z)
    (p : Tracker.Prediction) (d : Tracker.Game) : Prop :=
  p ∈ Tracker.predictions s → Tracker.p_game_id p = gid →
  d ∈ Tracker.games s → Tracker.game_id d = gid →
  ∃ r, (Tracker.score_prediction gid s).1 = Some r
       ∧ Tracker.r_hits r
         = Z.of_nat (size ((list_to_set (Tracker.playable_numbers p) : gset Z)
                           ∩ list_to_set (Tracker.numbers d))).

(** Game ids cycle through 1..999, so two predictions can be filed under the
    same id; here the second one would score 3 hits, the first one none. *)
Definition stale_prediction : Tracker.Prediction :=
  Tracker.mkPrediction 5 "01/01/24" [61; 62; 63; 64; 65] 75.
Definition fresh_prediction : Tracker.Prediction :=
  Tracker.mkPrediction 5 "01/02/24" [1; 2; 3; 41; 42] 75.
Definition tracker_two_predictions : Tracker.KenoTracker :=
  Tracker.mkTracker [game_5_jan] [stale_prediction; fresh_prediction] [] None None.

Lemma C5_counterexample :
  ¬ scores_every_pair tracker_two_predictions 5 fresh_prediction game_5_jan.
Proof.
  intros H. destruct H as (r & Hr & Hhits).
  - apply list_elem_of_further, list_elem_of_here.
  - reflexivity.
  - apply list_elem_of_here.
  - reflexivity.
  - vm_compute in Hr. injection Hr as <-. vm_compute in Hhits. discriminate Hhits.
Qed.

(** C5 (amended). [score_prediction(g)] scores the first prediction filed
    under game_id g against the first stored draw with game_id g: its hits is
    the size of the intersection of that prediction's numbers and that draw's
    numbers, its hit_numbers lists exactly the members of the intersection in
    ascending order, and one score row (g, hits, number of predicted numbers)
    is appended and persisted.  When no prediction or no draw has game_id g
    the call returns no value and the tracker, its scores included, is
    unchanged. *)
Theorem C5_score_prediction (s : Tracker.KenoTracker) (gid : Z) :
  ((∀ p, p ∈ Tracker.predictions s → Tracker.p_game_id p ≠ gid)
   ∨ (∀ d, d ∈ Tracker.games s → Tracker.game_id d ≠ gid) →
   Tracker.score_prediction gid s = (None, s))
  ∧ (∀ ps1 p ps2 gs1 d gs2,
       Tracker.predictions s = ps1 ++ p :: ps2 →
       Forall (λ q, Tracker.p_game_id q ≠ gid) ps1 → Tracker.p_game_id p = gid →
       Tracker.games s = gs1 ++ d :: gs2 →
       Forall (λ q, Tracker.game_id q ≠ gid) gs1 → Tracker.game_id d = gid →
       let common : gset Z :=
         list_to_set (Tracker.playable_numbers p) ∩ list_to_set (Tracker.numbers d) in
       ∃ r s',
         Tracker.score_prediction gid s = (Some r, s')
         ∧ Tracker.r_hits r = Z.of_nat (size common)
         ∧ StronglySorted Z.lt (Tracker.r_hit_numbers r)
         ∧ (∀ x, x ∈ Tracker.r_hit_numbers r
                 ↔ x ∈ Tracker.playable_numbers p ∧ x ∈ Tracker.numbers d)
         ∧ Z.of_nat (length (Tracker.r_hit_numbers r)) = Tracker.r_hits r
         ∧ Tracker.scores s'
           = Tracker.scores s
               ++ [Tracker.mkScore gid (Tracker.r_hits r)
                     (Z.of_nat (length (Tracker.playable_numbers p)))]
         ∧ Tracker.SCORES_CSV s' = Tracker.save_scores (Tracker.scores s')
         ∧ Tracker.games s' = Tracker.games s
         ∧ Tracker.predictions s' = Tracker.predictions s).
Proof.
  split.
  - intros Hnone. unfold Tracker.score_prediction.
    destruct Hnone as [Hp|Hd].
    + unfold Tracker.find_prediction. rewrite find_absent; [done|].
      intros p Hin. apply bool_decide_eq_false. by apply Hp.
    + destruct (Tracker.find_prediction gid (Tracker.predictions s)); [|done].
      unfold Tracker.find_game. rewrite find_absent; [done|].
      intros d Hin. apply bool_decide_eq_false. by apply Hd.
  - intros ps1 p ps2 gs1 d gs2 Hps Hps1 Hp Hgs Hgs1 Hd common.
    unfold Tracker.score_prediction, Tracker.find_prediction, Tracker.find_game.
    rewrite Hps, Hgs.
    rewrite (find_first _ ps1 p ps2), (find_first _ gs1 d gs2).
    + destruct (sorted_set_spec common) as (Hsorted & Hmem & Hlen).
      eexists _, _. split; [reflexivity|]. simpl. fold common.
      split_and!; try done.
      * intros x. rewrite Hmem. unfold common.
        by rewrite elem_of_intersection, !elem_of_list_to_set.
      * by rewrite Hlen.
    + eapply Forall_impl; [exact Hgs1|]. intros q Hq. by apply bool_decide_eq_false.
    + by apply bool_decide_eq_true.
    + eapply Forall_impl; [exact Hps1|]. intros q Hq. by apply bool_decide_eq_false.
    + by apply bool_decide_eq_true.
Qed.

(** The example of the specification: prediction {1,2,3,4,5} against a draw
    that holds 3, 4, 5 (and not 1, 2) scores 3 hits, [3; 4; 5]. *)
Definition prediction_1_to_5 : Tracker.Prediction :=
  Tracker.mkPrediction 7 "01/01/24" [1; 2; 3; 4; 5] 75.
Definition game_7 : Tracker.Game :=
  Tracker.mkGame 7 "01/01/24" "10:08:00" (Py.range 3 23) "7_01/01/24".
Definition tracker_scoring : Tracker.KenoTracker :=
  Tracker.mkTracker [game_7; game_5_jan] [stale_prediction; prediction_1_to_5] [] None None.

Lemma C5_score_prediction_witness :
  ∃ r s',
    Tracker.score_prediction 7 tracker_scoring = (Some r, s')
    ∧ Tracker.r_hits r = 3
    ∧ Tracker.r_hit_numbers r = [3; 4; 5]
    ∧ Tracker.scores s' = [Tracker.mkScore 7 3 5].
Proof.
  destruct (proj2 (C5_score_prediction tracker_scoring 7)
              [stale_prediction] prediction_1_to_5 [] [] game_7 [game_5_jan])
    as (r & s' & Hrun & Hhits & _ & _ & _ & Hscores & _).
  - reflexivity.
  - repeat constructor. vm_compute. discriminate.
  - reflexivity.
  - reflexivity.
  - constructor.
  - reflexivity.
  - exists r, s'. vm_compute in Hrun. injection Hrun as <- <-.
    split; [reflexivity|]. split; [reflexivity|]. split; reflexivity.
Defined.

(** ** The multi-strategy tracker: elimination (C1), decade (C3), cluster (C4) *)

(** The set [remove] is built from the numbers no test skipped; what is left
    outside it was skipped by some test. *)
Lemma outside_remove_skipped (skipped : Z → bool) (board : list Z) (n : Z) :
  n ∈ List.filter
        (λ n, negb (Py.mem n (list_to_set (List.filter (λ m, negb (skipped m)) board))))
        board →
  skipped n = true.
Proof.
  intros Hin. apply list_elem_of_In, filter_In in Hin as [Hboard Hmem].
  unfold Py.mem in Hmem. apply negb_true_iff, bool_decide_eq_false in Hmem.
  destruct (skipped n) eqn:Hs; [done|].
  exfalso. apply Hmem. apply elem_of_list_to_set, list_elem_of_In, filter_In.
  split; [done|]. by rewrite Hs.
Qed.

Lemma strategy_elimination_cons (g : Multi.Game) (games : list Multi.Game) :
  let gs := g :: games in
  Multi.strategy_elimination gs
  = take 20
      (Py.sorted (Py.by_pair_key (λ n, (- Multi.hits_in_n gs n 50, Multi.hits_in_n gs n 10)))
         (List.filter
            (λ n, negb (Py.mem n (list_to_set
                                    (List.filter (λ m, negb (Multi.skipped gs m))
                                                 (Py.range 1 81)))))
            (Py.range 1 81))).
Proof. reflexivity. Qed.

(** What [strategy_elimination] returns was skipped by one of the seven
    tests of its loop: the set it calls [remove] holds the survivors. *)
Lemma strategy_elimination_returns_skipped (games : list Multi.Game) (n : Z) :
  games ≠ [] → n ∈ Multi.strategy_elimination games → Multi.skipped games n = true.
Proof.
  intros Hne Hin. destruct games as [|g games]; [done|].
  rewrite strategy_elimination_cons in Hin.
  apply (subseteq_take 20) in Hin. apply elem_of_sorted in Hin.
  revert Hin. generalize (Py.range 1 81). intros board Hin.
  by apply outside_remove_skipped in Hin.
Qed.

(** *** The two copies of the seven rules agree *)

(** A draw as [_load_games] of the multi-strategy tracker keeps it. *)
Definition of_tracker (g : Tracker.Game) : Multi.Game :=
  Multi.of_row (Tracker.game_id g) (Tracker.date g) (Tracker.time g) (Tracker.numbers g).

Lemma mem_list_to_set (n : Z) (l : list Z) : Py.mem n (list_to_set l) = Py.mem_list n l.
Proof. apply bool_decide_ext, elem_of_list_to_set. Qed.

Lemma count_fmap {A B} (p : B → bool) (f : A → B) (l : list A) :
  Py.count p (f <$> l) = Py.count (p ∘ f) l.
Proof.
  unfold Py.count. f_equal.
  induction l as [|x l IH]; csimpl; [done|].
  destruct (p (f x)); csimpl; by rewrite IH.
Qed.

Lemma count_ext {A} (p q : A → bool) (l : list A) :
  (∀ x, x ∈ l → p x = q x) → Py.count p l = Py.count q l.
Proof.
  intros H. unfold Py.count. f_equal.
  induction l as [|x l IH]; simpl; [done|].
  rewrite (H x) by apply list_elem_of_here.
  assert (IH' : length (List.filter p l) = length (List.filter q l)).
  { apply IH. intros y Hy. apply H. by apply list_elem_of_further. }
  destruct (q x); simpl; by rewrite IH'.
Qed.

Lemma count_cons {A} (p : A → bool) (x : A) (l : list A) :
  Py.count p (x :: l) = (if p x then 1 else 0) + Py.count p l.
Proof. unfold Py.count. simpl. destruct (p x); simpl; lia. Qed.

Lemma count_perm {A} (p : A → bool) (l1 l2 : list A) :
  l1 ≡ₚ l2 → Py.count p l1 = Py.count p l2.
Proof.
  induction 1 as [|x l1 l2 _ IH|x y l|l1 l2 l3 _ IH1 _ IH2].
  - done.
  - by rewrite !count_cons, IH.
  - rewrite !count_cons. lia.
  - by rewrite IH1.
Qed.

Section SameRules.
Variable h : list Tracker.Game.
Variable num : Z.

Lemma hits_in_n_calculate_hits (n : nat) :
  Multi.hits_in_n (of_tracker <$> h) num n = Tracker.calculate_hits h num n.
Proof.
  unfold Multi.hits_in_n, Tracker.calculate_hits.
  rewrite <- fmap_take, count_fmap. apply count_ext.
  intros g _. simpl. apply mem_list_to_set.
Qed.

Lemma hit_in_positions_specific (positions : list nat) :
  Multi.hit_in_positions (of_tracker <$> h) num positions
  = Tracker.hit_in_specific_games h num positions.
Proof.
  unfold Multi.hit_in_positions, Tracker.hit_in_specific_games.
  induction positions as [|pos positions IH]; simpl; [done|].
  rewrite IH. f_equal. unfold Tracker.hit_at.
  rewrite list_lookup_fmap. destruct (h !! (pos - 1)%nat); simpl; [|done].
  apply mem_list_to_set.
Qed.

Lemma has_neighbor_hit_touching (position : nat) :
  1 ≤ num ≤ 80 →
  Multi.has_neighbor_hit (of_tracker <$> h) num position
  = Tracker.has_touching_neighbor_hit h num position.
Proof.
  intros Hnum. unfold Multi.has_neighbor_hit, Tracker.has_touching_neighbor_hit.
  rewrite list_lookup_fmap. destruct (h !! (position - 1)%nat); simpl; [|done].
  destruct (neighbors_ok_all num Hnum) as (_ & _ & _ & _ & -> & _). done.
Qed.
End SameRules.

(** Counting the hits at positions 1..k is counting over the first k draws. *)
Lemma count_hit_at_seq (num : Z) (h : list Tracker.Game) (k : nat) :
  Py.count (Tracker.hit_at h num) (seq 1 k) = Tracker.calculate_hits h num k.
Proof.
  revert k. induction h as [|g h IH]; intros k.
  - unfold Tracker.calculate_hits. rewrite take_nil.
    transitivity (Py.count (λ _ : nat, false) (seq 1 k)).
    + apply count_ext. intros pos _. unfold Tracker.hit_at. by rewrite lookup_nil.
    + unfold Py.count. induction (seq 1 k); simpl; [done|]. done.
  - destruct k as [|k]; [done|].
    unfold Tracker.calculate_hits. rewrite firstn_cons. simpl seq.
    rewrite !count_cons. f_equal.
    rewrite <- seq_shift, count_fmap.
    fold (Tracker.calculate_hits h num k). rewrite <- IH.
    apply count_ext. intros pos Hpos. apply elem_of_seq in Hpos.
    unfold Tracker.hit_at. simpl.
    destruct pos as [|pos]; [lia|]. simpl. by rewrite Nat.sub_0_r.
Qed.

(** [Counter(l).get(k, 0)] is the number of occurrences of [k] in [l]. *)
Lemma Counter_get0 (l : list Z) (k : Z) :
  Py.get0 (Py.Counter l) k = Py.count (λ x, bool_decide (x = k)) l.
Proof.
  unfold Py.Counter.
  assert (H : ∀ m : gmap Z Z,
             Py.get0 (foldl (λ m k, <[k := default 0 (m !! k) + 1]> m) m l) k
             = Py.get0 m k + Py.count (λ x, bool_decide (x = k)) l).
  { induction l as [|x l IH]; intros m; simpl.
    - unfold Py.count. simpl. lia.
    - rewrite IH, count_cons. unfold Py.get0.
      case_bool_decide as Hx.
      + subst x. rewrite lookup_insert_eq. simpl. lia.
      + rewrite lookup_insert_ne by done. lia. }
  rewrite H. unfold Py.get0. rewrite lookup_empty. simpl. lia.
Qed.

Lemma row_of_rc (n m : Z) :
  bool_decide ((Multi.rc n).1 = (Multi.rc m).1)
  = bool_decide (Tracker.get_row n = Tracker.get_row m).
Proof.
  apply bool_decide_ext. unfold Multi.rc, Multi.COLS, Tracker.get_row. simpl. lia.
Qed.

Lemma col_of_rc (n m : Z) :
  bool_decide ((Multi.rc n).2 = (Multi.rc m).2)
  = bool_decide (Tracker.get_col n = Tracker.get_col m).
Proof.
  apply bool_decide_ext. unfold Multi.rc, Multi.COLS, Tracker.get_col. simpl. lia.
Qed.

Lemma existsb_fmap {A B} (f : B → bool) (g : A → B) (l : list A) :
  existsb f (g <$> l) = existsb (f ∘ g) l.
Proof. induction l as [|x l IH]; csimpl; [done|]. by rewrite IH. Qed.

Lemma existsb_pointwise {A} (f g : A → bool) (l : list A) :
  (∀ x, x ∈ l → f x = g x) → existsb f l = existsb g l.
Proof.
  intros H. induction l as [|x l IH]; simpl; [done|].
  rewrite (H x) by apply list_elem_of_here.
  rewrite IH; [done|]. intros y Hy. apply H. by apply list_elem_of_further.
Qed.

Lemma existsb_seq_take {A} (f : A → bool) (l : list A) (n : nat) :
  existsb (λ i : nat, match l !! i with Some x => f x | None => false end)
          (seq 0 (n `min` length l))
  = existsb f (take n l).
Proof.
  revert n. induction l as [|x l IH]; intros n.
  - rewrite take_nil. simpl. by rewrite Nat.min_0_r.
  - destruct n as [|n]; [done|]. simpl. f_equal.
    rewrite <- seq_shift. change (map S) with (fmap (M:=list) S).
    rewrite existsb_fmap. apply IH.
Qed.

Lemma is_row_col_hot_same (h : list Tracker.Game) (num : Z) (last_n : nat) (threshold : Z) :
  Forall (λ g, NoDup (Tracker.numbers g)) h →
  Multi.is_row_col_hot (of_tracker <$> h) num last_n threshold
  = Tracker.is_row_col_hot h num last_n threshold.
Proof.
  intros Hnodup. unfold Multi.is_row_col_hot, Tracker.is_row_col_hot.
  destruct (Multi.rc num) as [num_row num_col] eqn:Hrc.
  rewrite <- fmap_take, existsb_fmap.
  transitivity
    (existsb (λ i : nat,
                match h !! i with
                | Some g =>
                    bool_decide (threshold ≤ Py.get0 (Py.Counter (Tracker.get_row <$> Tracker.numbers g))
                                                     (Tracker.get_row num))
                    || bool_decide (threshold ≤ Py.get0 (Py.Counter (Tracker.get_col <$> Tracker.numbers g))
                                                        (Tracker.get_col num))
                | None => false
                end) (seq 0 (last_n `min` length h))).
  - rewrite existsb_seq_take. symmetry. apply existsb_pointwise.
    intros g Hg. unfold compose, of_tracker, Multi.of_row. cbn [Multi.numbers].
    assert (Hperm : elements (list_to_set (Tracker.numbers g) : gset Z) ≡ₚ Tracker.numbers g).
    { apply elements_list_to_set. rewrite Forall_forall in Hnodup.
      apply Hnodup. by eapply subseteq_take. }
    rewrite !Counter_get0, !count_fmap.
    rewrite !(count_perm _ _ _ Hperm).
    assert (Hr : num_row = (Multi.rc num).1) by by rewrite Hrc.
    assert (Hc : num_col = (Multi.rc num).2) by by rewrite Hrc.
    rewrite Hr, Hc.
    rewrite (count_ext (λ n, bool_decide ((Multi.rc n).1 = (Multi.rc num).1))
               ((λ x, bool_decide (x = Tracker.get_row num)) ∘ Tracker.get_row))
      by (intros; apply row_of_rc).
    rewrite (count_ext (λ n, bool_decide ((Multi.rc n).2 = (Multi.rc num).2))
               ((λ x, bool_decide (x = Tracker.get_col num)) ∘ Tracker.get_col))
      by (intros; apply col_of_rc).
    reflexivity.
  - apply existsb_pointwise. intros i Hi. unfold Tracker.get_row_col_hits.
    replace (i + 1 - 1)%nat with i by lia.
    apply elem_of_seq in Hi.
    destruct (lookup_lt_is_Some_2 h i) as [g Hg]; [lia|]. by rewrite Hg.
Qed.

(** On the board, a number is skipped by the loop of [strategy_elimination]
    exactly when [get_playable_numbers] records a reason to remove it. *)
Lemma skipped_iff_removed (h : list Tracker.Game) (num : Z) :
  Forall (λ g, NoDup (Tracker.numbers g)) h → 1 ≤ num ≤ 80 →
  Multi.skipped (of_tracker <$> h) num = Tracker.remove (Tracker.number_data h num).
Proof.
  intros Hnodup Hnum. unfold Multi.skipped, Tracker.remove, Tracker.number_data.
  cbn [Tracker.reasons].
  rewrite !hit_in_positions_specific, !hits_in_n_calculate_hits.
  rewrite is_row_col_hot_same by done.
  rewrite has_neighbor_hit_touching by done.
  fold (Multi.hits_in_n (of_tracker <$> h) num 3). rewrite hits_in_n_calculate_hits.
  unfold Tracker.hit_count_in_specific_games.
  change (Py.count (Tracker.hit_at h num) [1; 2; 3]%nat)
    with (Py.count (Tracker.hit_at h num) (seq 1 3)).
  rewrite !count_hit_at_seq.
  destruct (Tracker.hit_in_specific_games h num [1; 2]%nat),
    (bool_decide (2 ≤ Tracker.calculate_hits h num 3)),
    (bool_decide (4 ≤ Tracker.calculate_hits h num 8)),
    (bool_decide (6 ≤ Tracker.calculate_hits h num 10)),
    (Tracker.hit_in_specific_games h num [1; 3; 4]%nat),
    (Tracker.is_row_col_hot h num 3 4),
    (Tracker.has_touching_neighbor_hit h num 1); reflexivity.
Qed.

(** For every non-empty history of duplicate-free draws, kept the same way by
    both trackers, no number returned by [strategy_elimination] is playable. *)
Lemma strategy_elimination_never_playable (h : list Tracker.Game) (n : Z) :
  h ≠ [] → Forall (λ g, NoDup (Tracker.numbers g)) h →
  n ∈ Multi.strategy_elimination (of_tracker <$> h) →
  n ∉ Tracker.get_playable_numbers h.
Proof.
  intros Hne Hnodup Hin Hplay.
  assert (Hskip : Multi.skipped (of_tracker <$> h) n = true).
  { apply strategy_elimination_returns_skipped; [|done]. by destruct h. }
  destruct h as [|g h]; [done|]. set (gs := g :: h) in *.
  change (n ∈ Tracker.number <$>
              Py.sorted (Py.by_pair_key (λ d, (- Tracker.hits_last_50 d, Tracker.hits_last_10 d)))
                (List.filter (λ d, negb (Tracker.remove d))
                             (Tracker.number_data gs <$> Py.range 1 81))) in Hplay.
  apply list_elem_of_fmap in Hplay as (d & -> & Hd).
  apply elem_of_sorted, list_elem_of_In, filter_In in Hd as [Hd Hkeep].
  apply list_elem_of_In, list_elem_of_fmap in Hd as (m & -> & Hm).
  apply elem_of_range in Hm. cbn [Tracker.number_data Tracker.number] in Hskip.
  rewrite skipped_iff_removed in Hskip by (done || lia).
  by rewrite Hskip in Hkeep.
Qed.


Definition history_one_game : list Multi.Game :=
  [Multi.of_row 5 "01/01/24" "10:00:00" (Py.range 1 21)].

(** C1. [strategy_elimination] is not equivalent to [get_playable_numbers].
    On the history holding the single draw 1..20, kept the same way by both
    trackers, the seven rules of [get_playable_numbers] leave exactly 21..30,
    ranked as listed, while [strategy_elimination] returns 1..20: the numbers
    the rules eliminated, none of the survivors. *)
Theorem C1_elimination_differs :
  Multi.numbers_list <$> history_one_game = Tracker.numbers <$> [game_5_jan]
  ∧ take 20 (Tracker.get_playable_numbers [game_5_jan]) = Py.range 21 31
  ∧ Multi.strategy_elimination history_one_game = Py.range 1 21
  ∧ (∀ n, n ∈ Multi.strategy_elimination history_one_game →
          n ∉ Tracker.get_playable_numbers [game_5_jan]).
Proof.
  split_and!; [reflexivity | by vm_compute | by vm_compute |].
  intros n Hn Hp.
  assert (H1 : Multi.strategy_elimination history_one_game = Py.range 1 21) by by vm_compute.
  assert (H2 : Tracker.get_playable_numbers [game_5_jan] = Py.range 21 31) by by vm_compute.
  rewrite H1 in Hn. rewrite H2 in Hp.
  apply elem_of_range in Hn. apply elem_of_range in Hp. lia.
Qed.

(** With no draw at all the strategy returns all eighty numbers, not twenty. *)
Example strategy_elimination_empty : length (Multi.strategy_elimination []) = 80%nat.
Proof. reflexivity. Qed.

(** When no band is below the limit, the fallback takes the band whose upper
    end is least, that is always the band 1..20, whatever the tallies. *)
Lemma cold_decades_fallback (games : list Multi.Game) :
  Forall (λ d, 28 ≤ d.2) (Multi.decade_hits games) →
  Multi.cold_decades games = [(1, 20, Multi.decade_count games 1 20)].
Proof.
  intros H. unfold Multi.cold_decades.
  replace (List.filter _ (Multi.decade_hits games)) with (@nil (Z * Z * Z)).
  - reflexivity.
  - symmetry. unfold Multi.decade_hits, Multi.decades in *. simpl in *.
    repeat (apply Forall_cons in H as [? H]). simpl in *.
    unfold Multi.cold_limit.
    rewrite !bool_decide_eq_false_2 by lia. reflexivity.
Qed.

(** In that case every number the strategy returns lies in 1..20. *)
Lemma strategy_decade_fallback_band (games : list Multi.Game) (n : Z) :
  (8 ≤ length games)%nat →
  Forall (λ d, 28 ≤ d.2) (Multi.decade_hits games) →
  n ∈ Multi.strategy_decade games → 1 ≤ n ≤ 20.
Proof.
  intros Hlen Hwarm Hin. unfold Multi.strategy_decade in Hin.
  rewrite bool_decide_eq_false_2 in Hin by lia.
  rewrite (cold_decades_fallback games Hwarm) in Hin.
  apply list_elem_of_fmap in Hin as ([m hits] & -> & Hin).
  apply (subseteq_take 15), elem_of_sorted in Hin.
  cbn [mbind list_bind mjoin] in Hin. rewrite app_nil_r in Hin.
  apply list_elem_of_fmap in Hin as (k & Hk & Hrange).
  injection Hk as -> _. apply elem_of_range in Hrange. simpl in *. lia.
Qed.

Definition band_draw : list Z :=
  Py.range 1 7 ++ Py.range 21 26 ++ Py.range 41 46 ++ Py.range 61 65.

Definition history_bands : list Multi.Game :=
  replicate 8 (Multi.of_row 5 "01/01/24" "10:00:00" band_draw).

(** C3. The fallback of [strategy_decade] does not take the band with the
    lowest tally. Eight draws that each hold six numbers of 1..20, five of
    21..40, five of 41..60 and four of 61..80 give the tallies 48, 40, 40 and
    32, all at or above 28, the band 61..80 being the coldest;
    [strategy_decade] pools its candidates from the band 1..20, the one with
    the highest tally. *)
Theorem C3_decade_takes_first_band :
  length history_bands = 8%nat
  ∧ Multi.decade_hits history_bands = [(1, 20, 48); (21, 40, 40); (41, 60, 40); (61, 80, 32)]
  ∧ Multi.cold_decades history_bands = [(1, 20, 48)]
  ∧ Multi.strategy_decade history_bands
    = [7; 8; 9; 10; 11; 12; 13; 14; 15; 16; 17; 18; 19; 20; 1].
Proof. split_and!; by vm_compute. Qed.







(** The strategy as the specification words it: the threshold is the
    20th-highest of the eighty scores; every number whose score reaches it is
    kept, in order of descending score, and the list is cut at twenty. *)
Definition twentieth_highest_heat (games : list Multi.Game) : Z :=
  default 0 (Py.sorted (Py.desc_by id) (snd <$> Multi.heat_scores games) !! 19%nat).




Definition history_cluster : list Multi.Game :=
  [Multi.of_row 12 "01/01/24" "10:00:00"
     [3; 4; 11; 14; 19; 25; 27; 29; 33; 34; 40; 44; 47; 50; 51; 54; 56; 66; 68; 71]].


(** The threshold the code reads is the entry at index 20, the 21st-highest
    score; it can be lower than the 20th-highest, which changes nothing once
    the list is cut at twenty. *)
Example top_threshold_is_index_20 :
  Multi.top_threshold history_cluster = Py.Return 2
  ∧ twentieth_highest_heat history_cluster = 3.
Proof. split; by vm_compute. Qed.

(** ** The analyzer: [run_all_analyses] (C2) *)

Lemma andThen_raised (a k : Analyzer.Run) (e : Py.exn) :
  a.2 = inr e → Analyzer.andThen a k = (a.1, inr e).
Proof. intros H. unfold Analyzer.andThen. by rewrite H. Qed.

(** The class defines [gap_chart]; no attribute is called [print_gap_chart]. *)
Lemma print_gap_chart_undefined (self : Analyzer.KenoAnalyzer) (kw : Analyzer.kwargs) :
  Analyzer.call self "print_gap_chart" kw = ([], Py.Raise (Py.AttributeError "print_gap_chart")).
Proof. reflexivity. Qed.

Definition is_chart_or_simulation (r : Analyzer.Report) : bool :=
  match r with
  | Analyzer.MonteCarloReport _ _ _ | Analyzer.GapChartReport _ _ => true
  | _ => false
  end.

Definition analyzer_one_game : Analyzer.KenoAnalyzer := Analyzer.init history_one_game.

(** C2. [run_all_analyses] does not complete. Whatever the history, it ends
    by raising an exception, and neither a gap chart nor the Monte Carlo
    simulation has been printed by then.  On the history holding the single
    draw 1..20 the pair, repeat, balance and heatmap reports are printed, then
    the call [self.print_gap_chart(...)] raises AttributeError. *)
Theorem C2_run_all_analyses_raises :
  (∀ self : Analyzer.KenoAnalyzer,
     ∃ out e, Analyzer.run_all_analyses self = (out, Py.Raise e)
              ∧ forallb (λ r, negb (is_chart_or_simulation r)) out = true)
  ∧ (∃ top total pairs repeats w1 rows w2 rh ch,
       Analyzer.run_all_analyses analyzer_one_game
       = ([Analyzer.PairReport top total pairs; Analyzer.RepeatReport repeats;
           Analyzer.BalanceReport w1 rows; Analyzer.HeatmapReport w2 rh ch],
          Py.Raise (Py.AttributeError "print_gap_chart"))).
Proof.
  split.
  - intros self. unfold Analyzer.run_all_analyses.
    rewrite print_gap_chart_undefined.
    set (first4 := Analyzer.andThen _ (Analyzer.call self "print_row_col_heatmap" _)).
    assert (H4 : forallb (λ r, negb (is_chart_or_simulation r)) first4.1 = true).
    { subst first4. unfold Analyzer.call.
      replace (Analyzer.methods self !! "print_pair_analysis")
        with (Some (Analyzer.print_pair_analysis self)) by reflexivity.
      replace (Analyzer.methods self !! "print_repeat_analysis")
        with (Some (Analyzer.print_repeat_analysis self)) by reflexivity.
      replace (Analyzer.methods self !! "print_balance_analysis")
        with (Some (Analyzer.print_balance_analysis self)) by reflexivity.
      replace (Analyzer.methods self !! "print_row_col_heatmap")
        with (Some (Analyzer.print_row_col_heatmap self)) by reflexivity.
      unfold Analyzer.print_row_col_heatmap.
      destruct (Analyzer.row_col_heatmap self _) as [[rh ch]|e]; reflexivity. }
    destruct (first4.2) as [[]|e] eqn:H2.
    + exists first4.1, (Py.AttributeError "print_gap_chart"). split; [|done].
      unfold Analyzer.andThen at 2. rewrite H2. simpl.
      rewrite andThen_raised with (e := Py.AttributeError "print_gap_chart");
        simpl; [|done]. by rewrite app_nil_r.
    + exists first4.1, e. split; [|done].
      rewrite (andThen_raised (Analyzer.andThen first4 _) _ e).
      * by rewrite (andThen_raised first4 _ e).
      * by rewrite (andThen_raised first4 _ e).
  - by vm_compute; repeat eexists.
Qed.

(** ** The hybrid source: who changes the checkpoint (C6) *)

(** The claim of C6 as the specification words it, at one operation and one
    source: an operation other than [check_for_updates] leaves the checkpoint
    as it was. *)
Definition leaves_checkpoint (op : Hybrid.Op) (s : Hybrid.HybridGameSource) : Prop :=
  op ≠ Hybrid.CheckForUpdates → Hybrid.checkpoint (Hybrid.after op s) = Hybrid.checkpoint s.

Definition source_at_10 : Hybrid.HybridGameSource :=
  Hybrid.mkSource (Hybrid.mkState (Some 10) (Some []))
    [Hybrid.mkRow 10 "01/01/24" "10:00:00" (Some <$> Py.range 1 21) "2024-01-01T10:00:00"]
    true (Some (Hybrid.mkState (Some 10) (Some []))) [].

Lemma C6_counterexample :
  ¬ leaves_checkpoint (Hybrid.AddManualGame "2024-01-01T10:04:00" 11 (Py.range 21 41))
                      source_at_10.
Proof.
  intros H. assert (Hop : Hybrid.AddManualGame "2024-01-01T10:04:00" 11 (Py.range 21 41)
                          ≠ Hybrid.CheckForUpdates) by discriminate.
  specialize (H Hop). vm_compute in H. discriminate H.
Qed.

Definition in_range_draw (drawn : list Z) : Prop :=
  length drawn = 20%nat ∧ Forall (λ n, 1 ≤ n ≤ 80) drawn.

Lemma forallb_in_range (drawn : list Z) :
  Forall (λ n, 1 ≤ n ≤ 80) drawn →
  forallb (λ n, bool_decide (1 ≤ n) && bool_decide (n ≤ 80)) drawn = true.
Proof.
  intros H. apply forallb_forall. intros n Hn.
  rewrite Forall_forall in H. apply list_elem_of_In, H in Hn.
  rewrite !bool_decide_eq_true_2 by lia. reflexivity.
Qed.

(** What [add_manual_game] does with a draw that passes the two tests, on a
    state that has its manual_entries list: the entry is appended in memory,
    then the state is written, which needs the directory. *)
Lemma add_manual_game_accepted (s : Hybrid.HybridGameSource) (now : string) (gid : Z)
    (drawn : list Z) (entries : list Hybrid.ManualEntry) :
  in_range_draw drawn →
  Hybrid.manual_entries (Hybrid.state s) = Some entries →
  Hybrid.add_manual_game now gid drawn s
  = let st := Hybrid.mkState (Hybrid.last_game_id (Hybrid.state s))
                (Some (entries ++ [Hybrid.mkManualEntry gid (Hybrid.sorted_numbers drawn) now])) in
    if Hybrid.state_dir s
    then (Hybrid.Return true,
          Hybrid.mkSource st (Hybrid.games_df s) (Hybrid.state_dir s) (Some st)
                          (Hybrid.console s))
    else (Hybrid.Raise (Hybrid.FileNotFoundError Hybrid.state_path),
          Hybrid.mkSource st (Hybrid.games_df s) (Hybrid.state_dir s) (Hybrid.state_file s)
                          (Hybrid.console s)).
Proof.
  intros [Hlen Hrange] Hentries. unfold Hybrid.add_manual_game.
  rewrite bool_decide_eq_false_2 by (intros ?; done).
  rewrite forallb_in_range by done. cbn [negb]. rewrite Hentries.
  unfold Hybrid.save_state. cbn [Hybrid.state_dir Hybrid.state Hybrid.games_df Hybrid.console].
  by destruct (Hybrid.state_dir s).
Qed.

(** What [check_for_updates] does when the table is ahead of the state. *)
Lemma check_for_updates_ahead (s : Hybrid.HybridGameSource) (latest : Hybrid.Row) :
  last (Hybrid.games_df s) = Some latest →
  default 0 (Hybrid.last_game_id (Hybrid.state s)) < Hybrid.row_game_id latest →
  Hybrid.check_for_updates s
  = let st := Hybrid.mkState (Some (Hybrid.row_game_id latest))
                             (Hybrid.manual_entries (Hybrid.state s)) in
    if Hybrid.state_dir s
    then (Hybrid.Return (Hybrid.new_games_since (Hybrid.games_df s)
                           (default 0 (Hybrid.last_game_id (Hybrid.state s)))),
          Hybrid.mkSource st (Hybrid.games_df s) (Hybrid.state_dir s) (Some st)
                          (Hybrid.console s))
    else (Hybrid.Raise (Hybrid.FileNotFoundError Hybrid.state_path),
          Hybrid.mkSource st (Hybrid.games_df s) (Hybrid.state_dir s) (Hybrid.state_file s)
                          (Hybrid.console s)).
Proof.
  intros Hlast Hlt. unfold Hybrid.check_for_updates. rewrite Hlast.
  rewrite bool_decide_eq_true_2 by done.
  unfold Hybrid.get_new_games_since, Hybrid.save_state.
  cbn [Hybrid.state_dir Hybrid.state Hybrid.games_df Hybrid.console].
  by destruct (Hybrid.state_dir s).
Qed.

(** C6 (amended). [check_for_updates] is the only operation that changes the
    checkpoint's last_game_id.  When the table's latest game_id strictly
    exceeds the stored one it sets last_game_id to the latest id in memory,
    the manual entries being kept; then, when the directory keno_data/
    exists, it persists the state and returns the delta games, and when the
    directory is missing the write raises FileNotFoundError and the state
    file stays as it was.  Otherwise it returns an empty list and leaves the
    source unchanged.  [get_latest_game], [get_new_games_since] and
    [get_manual_game] leave the source unchanged.  [add_manual_game], given
    twenty numbers in [1,80] and a state that has its manual_entries list,
    appends an entry to manual_entries in memory, last_game_id being kept;
    then, when the directory exists, it persists the state and returns True,
    and when the directory is missing it raises FileNotFoundError and the
    state file stays as it was.  On a state without manual_entries it raises
    KeyError and changes nothing. *)
Theorem C6_checkpoint_mutation (s : Hybrid.HybridGameSource) :
  (∀ latest,
     last (Hybrid.games_df s) = Some latest →
     default 0 (Hybrid.last_game_id (Hybrid.state s)) < Hybrid.row_game_id latest →
     let r := Hybrid.check_for_updates s in
     Hybrid.last_game_id (Hybrid.state r.2) = Some (Hybrid.row_game_id latest)
     ∧ Hybrid.manual_entries (Hybrid.state r.2) = Hybrid.manual_entries (Hybrid.state s)
     ∧ Hybrid.games_df r.2 = Hybrid.games_df s
     ∧ (Hybrid.state_dir s = true →
        r.1 = Hybrid.Return (Hybrid.new_games_since (Hybrid.games_df s)
                               (default 0 (Hybrid.last_game_id (Hybrid.state s))))
        ∧ Hybrid.state_file r.2 = Some (Hybrid.state r.2))
     ∧ (Hybrid.state_dir s = false →
        r.1 = Hybrid.Raise (Hybrid.FileNotFoundError Hybrid.state_path)
        ∧ Hybrid.state_file r.2 = Hybrid.state_file s))
  ∧ (last (Hybrid.games_df s) = None
     ∨ (∃ latest, last (Hybrid.games_df s) = Some latest
                  ∧ Hybrid.row_game_id latest
                    ≤ default 0 (Hybrid.last_game_id (Hybrid.state s))) →
     Hybrid.check_for_updates s = (Hybrid.Return [], s))
  ∧ (∀ op, Hybrid.last_game_id (Hybrid.state (Hybrid.after op s))
           ≠ Hybrid.last_game_id (Hybrid.state s) →
           op = Hybrid.CheckForUpdates)
  ∧ (∀ last_id game_id,
       Hybrid.after Hybrid.GetLatestGame s = s
       ∧ Hybrid.after (Hybrid.GetNewGamesSince last_id) s = s
       ∧ Hybrid.after (Hybrid.GetManualGame game_id) s = s)
  ∧ (∀ now game_id drawn,
       in_range_draw drawn →
       let r := Hybrid.add_manual_game now game_id drawn s in
       match Hybrid.manual_entries (Hybrid.state s) with
       | None => r = (Hybrid.Raise (Hybrid.KeyError "manual_entries"), s)
       | Some entries =>
           Hybrid.manual_entries (Hybrid.state r.2)
           = Some (entries ++ [Hybrid.mkManualEntry game_id (Hybrid.sorted_numbers drawn) now])
           ∧ Hybrid.last_game_id (Hybrid.state r.2) = Hybrid.last_game_id (Hybrid.state s)
           ∧ (Hybrid.state_dir s = true →
              r.1 = Hybrid.Return true ∧ Hybrid.state_file r.2 = Some (Hybrid.state r.2))
           ∧ (Hybrid.state_dir s = false →
              r.1 = Hybrid.Raise (Hybrid.FileNotFoundError Hybrid.state_path)
              ∧ Hybrid.state_file r.2 = Hybrid.state_file s)
       end).
Proof.
  split_and!.
  - intros latest Hlast Hlt. cbv zeta. rewrite (check_for_updates_ahead s latest Hlast Hlt).
    cbv zeta. destruct (Hybrid.state_dir s); by split_and!.
  - intros [Hnone|(latest & Hlast & Hle)]; unfold Hybrid.check_for_updates.
    + by rewrite Hnone.
    + rewrite Hlast. rewrite bool_decide_eq_false_2 by lia. done.
  - intros op Hop. destruct op as [| last_id | now game_id drawn | game_id |]; [| | | |done];
      exfalso; apply Hop; simpl.
    + unfold Hybrid.get_latest_game.
      destruct (last (Hybrid.games_df s)); [|done]. by case_bool_decide.
    + done.
    + unfold Hybrid.add_manual_game, Hybrid.save_state.
      case_bool_decide; [done|].
      destruct (negb _); [done|].
      destruct (Hybrid.manual_entries (Hybrid.state s)); [|done].
      cbn [Hybrid.state_dir]. by destruct (Hybrid.state_dir s).
    + done.
  - intros last_id game_id. split_and!; simpl; [|done|done].
    unfold Hybrid.get_latest_game.
    destruct (last (Hybrid.games_df s)); [|done]. by case_bool_decide.
  - intros now game_id drawn Hvalid. cbv zeta.
    destruct (Hybrid.manual_entries (Hybrid.state s)) as [entries|] eqn:Hentries.
    + rewrite (add_manual_game_accepted s now game_id drawn entries Hvalid Hentries).
      cbv zeta. destruct (Hybrid.state_dir s); by split_and!.
    + destruct Hvalid as [Hlen Hrange]. unfold Hybrid.add_manual_game.
      rewrite bool_decide_eq_false_2 by (intros ?; done).
      rewrite forallb_in_range by done. cbn [negb]. by rewrite Hentries.
Qed.

Lemma C6_checkpoint_mutation_witness :
  let r := Hybrid.add_manual_game "2024-01-01T10:04:00" 11 (Py.range 21 41) source_at_10 in
  r.1 = Hybrid.Return true
  ∧ Hybrid.manual_entries (Hybrid.state r.2)
    = Some [Hybrid.mkManualEntry 11 (Py.range 21 41) "2024-01-01T10:04:00"]
  ∧ Hybrid.state_file r.2 = Some (Hybrid.state r.2).
Proof.
  pose proof (C6_checkpoint_mutation source_at_10) as (_ & _ & _ & _ & Hadd).
  assert (Hvalid : in_range_draw (Py.range 21 41)).
  { split; [reflexivity|]. apply (bool_decide_unpack _). by vm_compute. }
  destruct (Hadd "2024-01-01T10:04:00" 11 (Py.range 21 41) Hvalid)
    as (Hentries & _ & Hdir & _).
  destruct (Hdir eq_refl) as [Hret Hfile].
  split_and!; [exact Hret|exact Hentries|exact Hfile].
Defined.

(** A newer row in the table advances the checkpoint; a second call finds
    nothing new. *)
Example check_for_updates_twice :
  let s := Hybrid.mkSource (Hybrid.mkState (Some 9) (Some [])) (Hybrid.games_df source_at_10)
                           true None [] in
  let r1 := Hybrid.check_for_updates s in
  let r2 := Hybrid.check_for_updates r1.2 in
  (∃ new_games, r1.1 = Hybrid.Return new_games ∧ Hybrid.game_id <$> new_games = [10])
  ∧ Hybrid.state_file r1.2 = Some (Hybrid.mkState (Some 10) (Some []))
  ∧ r2 = (Hybrid.Return [], r1.2).
Proof.
  cbv zeta. split_and!; [|by vm_compute|by vm_compute].
  eexists. split; [by vm_compute|]. by vm_compute.
Qed.

(** Without the directory keno_data/ the same call advances last_game_id in
    memory and raises; no state file appears. *)
Example check_for_updates_without_directory :
  let s := Hybrid.mkSource (Hybrid.mkState (Some 9) (Some [])) (Hybrid.games_df source_at_10)
                           false None [] in
  let r := Hybrid.check_for_updates s in
  r.1 = Hybrid.Raise (Hybrid.FileNotFoundError "keno_data/source_state.json")
  ∧ Hybrid.last_game_id (Hybrid.state r.2) = Some 10
  ∧ Hybrid.state_file r.2 = None.
Proof. by vm_compute. Qed.

(** ** The notifier: [send_telegram_message] (C8) *)

Section SendFacts.
Variable post : Telegram.Request → Telegram.Outcome.
Variable py_str : Telegram.json → string.

(** The request that reaches the network. *)
Definition request_of (message : string) (chat_id : option string) : Telegram.Request :=
  Telegram.mkRequest
    ("https://api.telegram.org/bot" +:+ Telegram.TELEGRAM_BOT_TOKEN +:+ "/sendMessage")
    (default Telegram.TELEGRAM_CHAT_ID chat_id) message 30.

(** The body of the response is an object whose ["ok"] field is truthy. *)
Definition ok_is_true (o : Telegram.Outcome) : Prop :=
  ∃ fields ok, o = Telegram.Body (Telegram.JObj fields)
               ∧ Telegram.dict_get "ok" fields = Some ok
               ∧ Telegram.truthy ok = true.

(** C8. [send_telegram_message] never raises: it always returns a boolean.
    It returns True if and only if the response body is an object whose ok
    field is true (in Python's sense of truth, as [if result.get("ok")]
    tests it), and then prints nothing; when the post or the decoding
    raises, or ok is absent or falsy, it returns False after printing one
    line to the console. *)
Theorem C8_send_telegram_message (message : string) (chat_id : option string) :
  let r := Telegram.send_telegram_message post py_str message chat_id in
  let o := post (request_of message chat_id) in
  (∃ b, r.2 = Py.Return b)
  ∧ (r.2 = Py.Return true ↔ ok_is_true o)
  ∧ (r.2 = Py.Return true → r.1 = [])
  ∧ (r.2 = Py.Return false → ∃ line, r.1 = [line])
  ∧ (∀ m, o = Telegram.PostRaises m ∨ o = Telegram.JsonRaises m →
          r = (["Telegram send error: " +:+ m], Py.Return false))
  ∧ (∀ fields, o = Telegram.Body (Telegram.JObj fields) →
               Telegram.dict_get "ok" fields = Some (Telegram.JBool true) →
               r = ([], Py.Return true)).
Proof.
  unfold Telegram.send_telegram_message, Telegram.try_block, request_of, ok_is_true.
  simpl.
  destruct (post _) as [m|m|j] eqn:Hpost.
  - split_and!; try done.
    + eauto.
    + split; [done|]. intros (? & ? & ? & _); done.
    + eauto.
    + intros m' [H|H]; by inversion H.
  - split_and!; try done.
    + eauto.
    + split; [done|]. intros (? & ? & ? & _); done.
    + eauto.
    + intros m' [H|H]; by inversion H.
  - destruct j as [|b|z|s|l|fields];
      try (split_and!; try done;
           [eauto
           |split; [done|]; intros (? & ? & ? & _); done
           |eauto
           |intros ? [?|?]; done]).
    destruct (Telegram.dict_get "ok" fields) as [ok|] eqn:Hok; simpl.
    + destruct (Telegram.truthy ok) eqn:Ht; simpl.
      * split_and!; try done; [eauto | | intros ? [?|?]; done].
        split; [|done]. intros _. by exists fields, ok.
      * split_and!; try done; [eauto | | eauto | intros ? [?|?]; done | ].
        -- split; [done|]. intros (f & ok' & Hf & Hok' & Ht').
           inversion Hf; subst f. rewrite Hok in Hok'. inversion Hok'; subst ok'.
           by rewrite Ht in Ht'.
        -- intros f Hf Hok'. inversion Hf; subst f. rewrite Hok in Hok'.
           inversion Hok'; subst ok. done.
    + split_and!; try done; [eauto | | eauto | intros ? [?|?]; done | ].
      * split; [done|]. intros (f & ok' & Hf & Hok' & Ht').
        inversion Hf; subst f. by rewrite Hok in Hok'.
      * intros f Hf Hok'. inversion Hf; subst f. by rewrite Hok in Hok'.
Qed.
End SendFacts.

(** An unreachable endpoint, a refusal by the service and an accepted message. *)
Example send_telegram_message_cases :
  let render j := match j with Telegram.JStr s => s | _ => "?" end in
  Telegram.send_telegram_message (λ _, Telegram.PostRaises "Connection refused") render "hi" None
  = (["Telegram send error: Connection refused"], Py.Return false)
  ∧ Telegram.send_telegram_message
      (λ _, Telegram.Body (Telegram.JObj [("ok", Telegram.JBool false);
                                          ("description", Telegram.JStr "Unauthorized")]))
      render "hi" None
    = (["Telegram error: Unauthorized"], Py.Return false)
  ∧ Telegram.send_telegram_message
      (λ _, Telegram.Body (Telegram.JObj [("ok", Telegram.JBool true)])) render "hi" (Some "42")
    = ([], Py.Return true).
Proof. split_and!; reflexivity. Qed.

Lemma C8_send_telegram_message_witness :
  Telegram.send_telegram_message
    (λ _, Telegram.Body (Telegram.JObj [("ok", Telegram.JBool true)])) (λ _, "") "hi" None
  = ([], Py.Return true).
Proof.
  pose proof (C8_send_telegram_message
                (λ _, Telegram.Body (Telegram.JObj [("ok", Telegram.JBool true)]))
                (λ _, "") "hi" None) as (_ & _ & _ & _ & _ & Hok).
  apply (Hok [("ok", Telegram.JBool true)]); reflexivity.
Defined.

(** ** The scraper: deep backfill (C9) *)

Section DeepFetchFacts.
Variable HAS_SELENIUM load_ok : bool.
Variable page_links : nat → option (list (option Scraper.Game)).
Variable navigated : nat → bool.

(** Every link of the page parses, and to an entry already known. *)
Definition all_links_known (seen : gset string) (sc : Scraper.Scan)
    (links : list (option Scraper.Game)) : Prop :=
  Forall (λ link, ∃ g, link = Some g
                       ∧ Scraper.unique_key g ∈ Scraper.collected_keys sc ∪ seen) links.

Lemma scan_page_all_known (seen : gset string) (sc : Scraper.Scan)
    (links : list (option Scraper.Game)) :
  all_links_known seen sc links →
  ∀ pc, ∃ pc',
    foldl (Scraper.scan_link seen) (sc, pc) links = (sc, pc')
    ∧ Scraper.page_new pc' = Scraper.page_new pc
    ∧ (Scraper.page_duplicates pc' + Scraper.page_already_seen pc'
       = Scraper.page_duplicates pc + Scraper.page_already_seen pc + length links)%nat.
Proof.
  induction 1 as [|link links (g & -> & Hg) _ IH]; intros pc; simpl.
  - exists pc. split_and!; [done|done|lia].
  - case_bool_decide as Hc.
    + destruct (IH (Scraper.mkPageCount (Scraper.page_new pc)
                      (S (Scraper.page_duplicates pc)) (Scraper.page_already_seen pc)))
        as (pc' & -> & Hn & Hsum).
      exists pc'. simpl in *. split_and!; [done|done|lia].
    + rewrite bool_decide_eq_true_2
        by (apply elem_of_union in Hg as [Hg|Hg]; [by destruct Hc|exact Hg]).
      destruct (IH (Scraper.mkPageCount (Scraper.page_new pc)
                      (Scraper.page_duplicates pc) (S (Scraper.page_already_seen pc))))
        as (pc' & -> & Hn & Hsum).
      exists pc'. simpl in *. split_and!; [done|done|lia].
Qed.

(** The keys of the checkpoint only grow while games are saved. *)
Lemma save_all_seen (games : list Scraper.Game) :
  ∀ (acc : nat * Scraper.SimpleKenoScraper) (k : string),
    k ∈ Scraper.seen_games acc.2 ∨ k ∈ Scraper.unique_key <$> games →
    k ∈ Scraper.seen_games (foldl Scraper.save_one acc games).2.
Proof.
  induction games as [|g games IH]; intros [n s] k Hk; simpl.
  - destruct Hk as [Hk|Hk]; [done|]. by apply elem_of_nil in Hk.
  - apply IH. unfold Scraper.save_one.
    destruct Hk as [Hk|Hk].
    + left. case_bool_decide; simpl; [|done].
      apply elem_of_union. by right.
    + apply elem_of_cons in Hk as [->|Hk]; [|by right].
      left. case_bool_decide as Hs; simpl.
      * apply elem_of_union. left. by apply elem_of_singleton.
      * exact Hs.
Qed.

(** C9 (amended). During [fetch_historical_deep], when the target number of
    games is not yet reached and the current page has at least one entry
    link, every link parses, and every parsed entry has an identity key
    already known (in the run-local collected set or in the checkpoint's
    seen_games), the pagination loop stops at that page, whatever remains
    of max_pages, having collected nothing more.  The scan leaves the
    scraper, and so the checkpoint's seen_games, unchanged, whereas
    [check_and_save_new_games] puts the key of every game it is given into
    seen_games. *)
Theorem C9_deep_fetch_stops :
  (∀ (seen : gset string) (max_games remaining page_num : nat) (sc : Scraper.Scan)
     (links : list (option Scraper.Game)),
     (length (Scraper.all_games sc) < max_games)%nat →
     page_links page_num = Some links →
     links ≠ [] →
     all_links_known seen sc links →
     Scraper.pages_loop page_links navigated seen max_games (S remaining) page_num sc
     = (sc, Scraper.AllAlreadySeen page_num))
  ∧ (∀ (max_games max_pages : nat) (s : Scraper.SimpleKenoScraper),
       (Scraper.fetch_historical_deep HAS_SELENIUM load_ok page_links navigated
          max_games max_pages s).2 = s)
  ∧ (∀ (games : list Scraper.Game) (s : Scraper.SimpleKenoScraper) (g : Scraper.Game),
       g ∈ games →
       Scraper.unique_key g ∈ Scraper.seen_games (Scraper.check_and_save_new_games games s).2).
Proof.
  split_and!.
  - intros seen max_games remaining page_num sc links Hlt Hpage Hne Hknown.
    simpl. rewrite bool_decide_eq_false_2 by lia. rewrite Hpage.
    unfold Scraper.scan_page.
    destruct (scan_page_all_known seen sc links Hknown (Scraper.mkPageCount 0 0 0))
      as (pc & -> & Hnew & Hsum). simpl in Hnew, Hsum.
    rewrite bool_decide_eq_false_2 by lia.
    rewrite bool_decide_eq_true_2 by lia.
    rewrite bool_decide_eq_true_2; [done|].
    destruct links; [done|simpl; lia].
  - intros max_games max_pages s. unfold Scraper.fetch_historical_deep.
    destruct (negb HAS_SELENIUM || negb (Scraper.has_driver s)); [done|].
    destruct (negb load_ok); [done|].
    by destruct (Scraper.pages_loop _ _ _ _ _ _ _).
  - intros games s g Hg. unfold Scraper.check_and_save_new_games.
    pose proof (save_all_seen games (0%nat, s) (Scraper.unique_key g)) as H.
    destruct (foldl Scraper.save_one (0%nat, s) games) as [n s1].
    simpl in H. case_bool_decide; simpl; apply H; right; by apply list_elem_of_fmap_2.
Qed.
End DeepFetchFacts.

(** A simulated source: four pages of new draws, then a fifth page that
    repeats the draws of the fourth; the back button always works. *)
Definition draw_on (gid : Z) : Scraper.Game :=
  Scraper.mkGame gid "01/01/24" "10:00:00" (Py.range 1 21).

Definition five_pages (k : nat) : option (list (option Scraper.Game)) :=
  match k with
  | 0%nat => Some [Some (draw_on 40); Some (draw_on 39)]
  | 1%nat => Some [Some (draw_on 38); Some (draw_on 37)]
  | 2%nat => Some [Some (draw_on 36); Some (draw_on 35)]
  | 3%nat => Some [Some (draw_on 34); Some (draw_on 33)]
  | _ => Some [Some (draw_on 34); Some (draw_on 33)]
  end.

Definition fresh_scraper : Scraper.SimpleKenoScraper :=
  Scraper.mkScraper 0 ∅ true None None.

(** The backfill stops at the fifth page (index 4), far from max_pages. *)
Example deep_fetch_stops_at_page_5 :
  let r := Scraper.fetch_historical_deep true true five_pages (λ _, true) 1000 100
             fresh_scraper in
  r.1.2 = Some (Scraper.AllAlreadySeen 4)
  ∧ (Scraper.game_id <$> r.1.1) = [40; 39; 38; 37; 36; 35; 34; 33]
  ∧ r.2 = fresh_scraper.
Proof. by vm_compute. Qed.

Lemma C9_deep_fetch_stops_witness :
  Scraper.pages_loop five_pages (λ _, true) ∅ 1000 96 4
    (Scraper.mkScan (list_to_set (Scraper.unique_key <$> [draw_on 34; draw_on 33])) [] 0)
  = (Scraper.mkScan (list_to_set (Scraper.unique_key <$> [draw_on 34; draw_on 33])) [] 0,
     Scraper.AllAlreadySeen 4).
Proof.
  refine (proj1 (C9_deep_fetch_stops true true five_pages (λ _, true))
            ∅ 1000%nat 95%nat 4%nat _ [Some (draw_on 34); Some (draw_on 33)] _ _ _ _).
  - simpl. lia.
  - reflexivity.
  - discriminate.
  - repeat constructor; eexists; (split; [reflexivity|]);
      apply (bool_decide_unpack _); by vm_compute.
Defined.

(** The claim of C9 as the specification words it, at one page: if every
    entry parsed from the page is already known, the loop ends on that page. *)
Definition stop_page (st : Scraper.Stop) : option nat :=
  match st with
  | Scraper.ReachedTarget p | Scraper.AllAlreadySeen p | Scraper.ThreeEmptyPages p
  | Scraper.NoMorePagination p | Scraper.PageError p => Some p
  | Scraper.PagesExhausted => None
  end.

Definition stops_when_parsed_known
    (page_links : nat → option (list (option Scraper.Game))) (navigated : nat → bool)
    (seen : gset string) (max_games remaining page_num : nat) (sc : Scraper.Scan) : Prop :=
  ∀ links,
    page_links page_num = Some links →
    Forall (λ link, ∀ g, link = Some g →
                         Scraper.unique_key g ∈ Scraper.collected_keys sc ∪ seen) links →
    stop_page (Scraper.pages_loop page_links navigated seen max_games remaining page_num sc).2
    = Some page_num.

(** A first page with one known entry and one link that does not parse, then
    a page with a new draw. *)
Definition two_pages (k : nat) : option (list (option Scraper.Game)) :=
  match k with
  | 0%nat => Some [Some (draw_on 34); None]
  | _ => Some [Some (draw_on 33)]
  end.

Lemma C9_counterexample :
  ¬ stops_when_parsed_known two_pages (λ k, bool_decide (k = 0%nat))
      {[Scraper.unique_key (draw_on 34)]} 1000 100 0 (Scraper.mkScan ∅ [] 0).
Proof.
  intros H. specialize (H [Some (draw_on 34); None] eq_refl).
  assert (Hstop : stop_page
            (Scraper.pages_loop two_pages (λ k, bool_decide (k = 0%nat))
               {[Scraper.unique_key (draw_on 34)]} 1000 100 0 (Scraper.mkScan ∅ [] 0)).2
          = Some 1%nat) by by vm_compute.
  rewrite Hstop in H. 
  assert (Some 1%nat = Some 0%nat) as Heq; [|discriminate Heq].
  apply H. repeat constructor.
  - intros g Hg. injection Hg as <-. apply (bool_decide_unpack _). by vm_compute.
  - intros g Hg. discriminate Hg.
Qed.

(* ===================================================================== *)
(** * Further properties *)
(* ===================================================================== *)

(** ** More facts about the built-ins *)

Lemma lex_leb_total (k1 k2 : Z * Z) : Py.lex_leb k1 k2 = true ∨ Py.lex_leb k2 k1 = true.
Proof.
  unfold Py.lex_leb. destruct k1 as [a1 b1], k2 as [a2 b2]. simpl.
  repeat case_bool_decide; simpl; auto; lia.
Qed.

Lemma lex_leb_trans (k1 k2 k3 : Z * Z) :
  Py.lex_leb k1 k2 = true → Py.lex_leb k2 k3 = true → Py.lex_leb k1 k3 = true.
Proof.
  unfold Py.lex_leb. destruct k1 as [a1 b1], k2 as [a2 b2], k3 as [a3 b3]. simpl.
  repeat case_bool_decide; simpl; auto; try lia; discriminate.
Qed.

Lemma lex_leb_fst (k1 k2 : Z * Z) : Py.lex_leb k1 k2 = true → k1.1 ≤ k2.1.
Proof.
  unfold Py.lex_leb. repeat case_bool_decide; simpl; try lia; discriminate.
Qed.

(** Sorting by a key of the image is sorting the source by the composed key. *)
Lemma sorted_fmap {A B} (leb : B → B → bool) (f : A → B) (l : list A) :
  Py.sorted leb (f <$> l) = f <$> Py.sorted (λ x y, leb (f x) (f y)) l.
Proof.
  induction l as [|x l IH]; [done|].
  change (Py.sorted leb (f <$> x :: l))
    with (Py.insert_sorted leb (f x) (Py.sorted leb (f <$> l))).
  change (Py.sorted (λ x y, leb (f x) (f y)) (x :: l))
    with (Py.insert_sorted (λ x y, leb (f x) (f y)) x (Py.sorted (λ x y, leb (f x) (f y)) l)).
  rewrite IH. generalize (Py.sorted (λ x y, leb (f x) (f y)) l). clear IH.
  intros s. induction s as [|y s IHs]; [done|].
  cbn [Py.insert_sorted fmap list_fmap].
  destruct (leb (f x) (f y)); [done|].
  cbn [fmap list_fmap]. f_equal. exact IHs.
Qed.

Lemma filter_fmap {A B} (p : B → bool) (f : A → B) (l : list A) :
  List.filter p (f <$> l) = f <$> List.filter (p ∘ f) l.
Proof.
  induction l as [|x l IH]; [done|]. csimpl.
  destruct (p (f x)); csimpl; by rewrite IH.
Qed.

Lemma NoDup_filter_list {A} (p : A → bool) (l : list A) : NoDup l → NoDup (List.filter p l).
Proof.
  induction 1 as [|x l Hx _ IH]; simpl; [constructor|].
  destruct (p x); [|done]. constructor; [|done].
  intros Hin. apply Hx. apply list_elem_of_In, filter_In in Hin as [Hin _].
  by apply list_elem_of_In.
Qed.

Lemma elem_of_filter_list {A} (p : A → bool) (l : list A) (x : A) :
  x ∈ List.filter p l ↔ x ∈ l ∧ p x = true.
Proof. rewrite !list_elem_of_In. apply filter_In. Qed.

Lemma NoDup_range (a b : Z) : NoDup (Py.range a b).
Proof. apply NoDup_seqZ. Qed.

Lemma length_filter_le {A} (p : A → bool) (l : list A) :
  (length (List.filter p l) ≤ length l)%nat.
Proof. induction l as [|x l IH]; simpl; [done|]. destruct (p x); simpl; lia. Qed.

(** In a list in the order [leb], an earlier entry is [leb] a later one. *)
Lemma StronglySorted_lookup {A} (R : A → A → Prop) (l : list A) :
  StronglySorted R l →
  ∀ (i j : nat) (a b : A), (i < j)%nat → l !! i = Some a → l !! j = Some b → R a b.
Proof.
  induction 1 as [|x l Hl IH Hx]; intros i j a b Hij Hi Hj; [done|].
  destruct j as [|j]; [lia|]. simpl in Hj.
  destruct i as [|i]; simpl in Hi.
  - injection Hi as ->. rewrite Forall_forall in Hx. apply Hx.
    by eapply list_elem_of_lookup_2.
  - apply (IH i j); [lia|done|done].
Qed.

(** ** The playable numbers of the single-strategy tracker *)

Lemma reason_if_nil (b : bool) (r : string) : Tracker.reason_if b r = [] → b = false.
Proof. by destruct b. Qed.

(** A number is kept exactly when none of the seven tests fires. *)
Lemma not_removed_tests (gs : list Tracker.Game) (num : Z) :
  Tracker.remove (Tracker.number_data gs num) = false →
  Tracker.hit_in_specific_games gs num [1; 2]%nat = false
  ∧ Tracker.hit_count_in_specific_games gs num [1; 2; 3]%nat < 2
  ∧ Tracker.hit_count_in_specific_games gs num (seq 1 8) < 4
  ∧ Tracker.calculate_hits gs num 10 < 6
  ∧ Tracker.hit_in_specific_games gs num [1; 3; 4]%nat = false
  ∧ Tracker.is_row_col_hot gs num 3 4 = false
  ∧ Tracker.has_touching_neighbor_hit gs num 1 = true.
Proof.
  unfold Tracker.remove, Tracker.number_data. cbn [Tracker.reasons].
  intros H. apply bool_decide_eq_false in H.
  destruct (Tracker.hit_in_specific_games gs num [1; 2]%nat); [simpl in H; lia|].
  case_bool_decide; [simpl in H; lia|].
  case_bool_decide; [simpl in H; lia|].
  case_bool_decide; [simpl in H; lia|].
  destruct (Tracker.hit_in_specific_games gs num [1; 3; 4]%nat); [simpl in H; lia|].
  destruct (Tracker.is_row_col_hot gs num 3 4); [simpl in H; lia|].
  destruct (Tracker.has_touching_neighbor_hit gs num 1); [|simpl in H; lia].
  split_and!; (done || lia).
Qed.

(** The playable numbers of a non-empty history are the numbers of the board
    that no test removes, in the order of the sort. *)
Lemma get_playable_numbers_cons (g : Tracker.Game) (gs' : list Tracker.Game) :
  let gs := g :: gs' in
  Tracker.get_playable_numbers gs
  = Py.sorted (Py.by_pair_key (λ n, (- Tracker.hits_last_50 (Tracker.number_data gs n),
                                     Tracker.hits_last_10 (Tracker.number_data gs n))))
      (List.filter (λ n, negb (Tracker.remove (Tracker.number_data gs n))) (Py.range 1 81)).
Proof.
  intros gs.
  change (Tracker.get_playable_numbers gs)
    with (Tracker.number <$>
          Py.sorted (Py.by_pair_key (λ d, (- Tracker.hits_last_50 d, Tracker.hits_last_10 d)))
            (List.filter (λ d, negb (Tracker.remove d))
                         (Tracker.number_data gs <$> Py.range 1 81))).
  generalize (Py.range 1 81). intros board.
  rewrite filter_fmap.
  rewrite (sorted_fmap (Py.by_pair_key (λ d, (- Tracker.hits_last_50 d, Tracker.hits_last_10 d)))
             (Tracker.number_data gs)).
  rewrite <- list_fmap_compose. 
  change (Tracker.number ∘ Tracker.number_data gs) with (@id Z).
  by rewrite list_fmap_id.
Qed.

Lemma hits_last_50_calculate (gs : list Tracker.Game) (n : Z) :
  Tracker.hits_last_50 (Tracker.number_data gs n) = Tracker.calculate_hits gs n 50.
Proof.
  unfold Tracker.number_data. cbn [Tracker.hits_last_50].
  case_bool_decide; [done|].
  unfold Tracker.calculate_hits. rewrite !take_ge by lia. done.
Qed.

Lemma length_playable_le (gs : list Tracker.Game) :
  (length (Tracker.get_playable_numbers gs) ≤ 80)%nat.
Proof.
  destruct gs as [|g gs']; [done|].
  rewrite get_playable_numbers_cons. cbv zeta.
  rewrite length_sorted. etrans; [apply length_filter_le|]. done.
Qed.

(** X1. Whatever the history, [get_playable_numbers] returns numbers of the
    board 1..80 without repetition, hence at most eighty of them, ranked by
    their hits over the last fifty draws: an earlier number has at least as
    many as a later one. *)
Theorem playable_numbers_invariant (gs : list Tracker.Game) :
  let playable := Tracker.get_playable_numbers gs in
  NoDup playable
  ∧ (∀ n, n ∈ playable → 1 ≤ n ≤ 80)
  ∧ (length playable ≤ 80)%nat
  ∧ (∀ (i j : nat) (a b : Z), (i < j)%nat → playable !! i = Some a → playable !! j = Some b →
       Tracker.calculate_hits gs b 50 ≤ Tracker.calculate_hits gs a 50).
Proof.
  destruct gs as [|g gs'].
  - cbn [Tracker.get_playable_numbers]. split_and!.
    + apply NoDup_range.
    + intros n Hn. apply elem_of_range in Hn. lia.
    + apply (length_playable_le []).
    + intros i j a b _ _ _. unfold Tracker.calculate_hits. by rewrite take_nil.
  - cbv zeta. pose proof (length_playable_le (g :: gs')) as Hlen. revert Hlen.
    rewrite get_playable_numbers_cons. cbv zeta.
    set (gs := g :: gs').
    set (key := λ n : Z, (- Tracker.hits_last_50 (Tracker.number_data gs n),
                          Tracker.hits_last_10 (Tracker.number_data gs n))).
    set (kept := List.filter (λ n, negb (Tracker.remove (Tracker.number_data gs n)))
                             (Py.range 1 81)).
    intros Hlen. split_and!.
    + rewrite sorted_perm. apply NoDup_filter_list, NoDup_range.
    + intros n Hn. apply elem_of_sorted, elem_of_filter_list in Hn as [Hn _].
      apply elem_of_range in Hn. lia.
    + exact Hlen.
    + intros i j a b Hij Hi Hj.
      assert (Hs : StronglySorted (λ x y, Py.by_pair_key key x y = true)
                     (Py.sorted (Py.by_pair_key key) kept)).
      { apply sorted_ordered.
        - intros x y. apply lex_leb_total.
        - intros x y z. apply lex_leb_trans. }
      pose proof (StronglySorted_lookup _ _ Hs i j a b Hij Hi Hj) as Hab.
      apply lex_leb_fst in Hab. unfold key in Hab. cbn [fst] in Hab.
      rewrite !hits_last_50_calculate in Hab. lia.
Qed.

Lemma hit_in_specific_first (gs : list Tracker.Game) (num : Z) (pos : nat) (l : list nat) :
  Tracker.hit_in_specific_games gs num l = false → pos ∈ l → Tracker.hit_at gs num pos = false.
Proof.
  unfold Tracker.hit_in_specific_games. intros H Hin.
  destruct (Tracker.hit_at gs num pos) eqn:E; [|done].
  rewrite (existsb_elem_of _ _ pos Hin E) in H. done.
Qed.

(** X2. A number that [get_playable_numbers] returns for a non-empty history
    was drawn in neither of the two most recent draws, touches a number of
    the most recent draw, and was drawn fewer than 2 times in the last 3
    draws, fewer than 4 times in the last 8 and fewer than 6 times in the
    last 10. *)
Theorem playable_number_rules (g : Tracker.Game) (gs' : list Tracker.Game) (n : Z)
    (Hn : n ∈ Tracker.get_playable_numbers (g :: gs')) :
  (n ∉ Tracker.numbers g)
  ∧ (∀ g2, gs' !! 0%nat = Some g2 → n ∉ Tracker.numbers g2)
  ∧ (∃ m, m ∈ Tracker.get_neighbors n ∧ m ∈ Tracker.numbers g)
  ∧ Tracker.calculate_hits (g :: gs') n 3 < 2
  ∧ Tracker.calculate_hits (g :: gs') n 8 < 4
  ∧ Tracker.calculate_hits (g :: gs') n 10 < 6.
Proof.
  rewrite get_playable_numbers_cons in Hn. cbv zeta in Hn.
  apply elem_of_sorted, elem_of_filter_list in Hn as [_ Hkeep].
  apply negb_true_iff, not_removed_tests in Hkeep
    as (H12 & H3 & H8 & H10 & _ & _ & Hnb).
  split_and!.
  - pose proof (hit_in_specific_first _ _ 1%nat _ H12 ltac:(set_solver)) as H.
    unfold Tracker.hit_at in H. simpl in H.
    by apply bool_decide_eq_false in H.
  - intros g2 Hg2.
    pose proof (hit_in_specific_first _ _ 2%nat _ H12 ltac:(set_solver)) as H.
    unfold Tracker.hit_at in H. simpl in H. rewrite Hg2 in H.
    by apply bool_decide_eq_false in H.
  - unfold Tracker.has_touching_neighbor_hit in Hnb. simpl in Hnb.
    apply bool_decide_eq_true in Hnb.
    apply set_choose_L in Hnb as [m Hm]. exists m.
    apply elem_of_intersection in Hm as [Hm1 Hm2].
    split; [done|]. by apply elem_of_list_to_set in Hm2.
  - unfold Tracker.hit_count_in_specific_games in H3.
    change [1; 2; 3]%nat with (seq 1 3) in H3. by rewrite count_hit_at_seq in H3.
  - unfold Tracker.hit_count_in_specific_games in H8. by rewrite count_hit_at_seq in H8.
  - done.
Qed.

Lemma playable_number_rules_witness :
  (25 ∉ Tracker.numbers game_5_jan)
  ∧ ∃ m, m ∈ Tracker.get_neighbors 25 ∧ m ∈ Tracker.numbers game_5_jan.
Proof.
  assert (H : 25 ∈ Tracker.get_playable_numbers [game_5_jan]).
  { apply (bool_decide_unpack _). by vm_compute. }
  pose proof (playable_number_rules game_5_jan [] 25 H) as (H1 & _ & H3 & _).
  split; [exact H1 | exact H3].
Defined.

(** ** Adding and processing a draw *)

Lemma existsb_none {A} (f : A → bool) (l : list A) :
  (∀ x, x ∈ l → f x = false) → existsb f l = false.
Proof.
  intros H. induction l as [|x l IH]; simpl; [done|].
  rewrite (H x) by apply list_elem_of_here. simpl.
  apply IH. intros y Hy. apply H. by apply list_elem_of_further.
Qed.

Lemma sort_games_descending (gs : list Tracker.Game) :
  StronglySorted (λ a b, Tracker.game_id b ≤ Tracker.game_id a) (Tracker.sort_games gs).
Proof.
  eapply StronglySorted_weaken; [|apply (sorted_ordered (Py.desc_by Tracker.game_id))].
  - intros x y H. by apply bool_decide_eq_true in H.
  - intros x y. unfold Py.desc_by. rewrite !bool_decide_eq_true. lia.
  - intros x y z. unfold Py.desc_by. rewrite !bool_decide_eq_true. lia.
Qed.

(** X3. When no stored draw carries the identity key of the draw being
    added, [add_game] returns True; the draw list afterwards holds the old
    draws and the new one, in descending order of game_id; exactly one row
    is appended to the games CSV, after a header row when the file did not
    exist; predictions and scores are untouched. *)
Theorem add_game_new (s : Tracker.KenoTracker) (gid : Z) (d t : string) (nums : list Z)
    (Hnew : ∀ g, g ∈ Tracker.games s → Tracker.unique_key g ≠ Tracker.make_key gid d) :
  let r := Tracker.add_game gid d t nums s in
  let row := [pretty gid; d; t] ++ (pretty <$> nums) in
  r.1 = true
  ∧ Tracker.games r.2 ≡ₚ Tracker.mkGame gid d t nums (Tracker.make_key gid d) :: Tracker.games s
  ∧ StronglySorted (λ a b, Tracker.game_id b ≤ Tracker.game_id a) (Tracker.games r.2)
  ∧ Tracker.GAMES_CSV r.2
    = Some (match Tracker.GAMES_CSV s with
            | None => [Tracker.games_header]
            | Some rows => rows
            end ++ [row])
  ∧ Tracker.predictions r.2 = Tracker.predictions s
  ∧ Tracker.scores r.2 = Tracker.scores s
  ∧ Tracker.SCORES_CSV r.2 = Tracker.SCORES_CSV s.
Proof.
  unfold Tracker.add_game. rewrite existsb_none.
  - cbn [fst snd Tracker.games Tracker.GAMES_CSV Tracker.predictions Tracker.scores
           Tracker.SCORES_CSV].
    split_and!; try done.
    + unfold Tracker.sort_games. rewrite sorted_perm.
      by rewrite Permutation_app_comm.
    + apply sort_games_descending.
    + by destruct (Tracker.GAMES_CSV s).
  - intros g Hg. apply bool_decide_eq_false. by apply Hnew.
Qed.

Lemma add_game_new_witness :
  let r := Tracker.add_game 5 "06/01/24" "11:30:00" (Py.range 41 61) tracker_one_game in
  r.1 = true ∧ (length <$> Tracker.GAMES_CSV r.2) = Some 3%nat.
Proof.
  pose proof (add_game_new tracker_one_game 5 "06/01/24" "11:30:00" (Py.range 41 61))
    as H.
  destruct H as (H1 & _ & _ & H4 & _).
  - intros g Hg. apply list_elem_of_singleton in Hg as ->. vm_compute. discriminate.
  - split; [exact H1|]. rewrite H4. reflexivity.
Defined.

Lemma score_prediction_frame (gid : Z) (s : Tracker.KenoTracker) :
  Tracker.games (Tracker.score_prediction gid s).2 = Tracker.games s
  ∧ Tracker.predictions (Tracker.score_prediction gid s).2 = Tracker.predictions s
  ∧ Tracker.GAMES_CSV (Tracker.score_prediction gid s).2 = Tracker.GAMES_CSV s.
Proof.
  unfold Tracker.score_prediction.
  destruct (Tracker.find_prediction gid (Tracker.predictions s)); [|done].
  by destruct (Tracker.find_game gid (Tracker.games s)).
Qed.

Lemma add_game_frame (gid : Z) (d t : string) (nums : list Z) (s : Tracker.KenoTracker) :
  Tracker.predictions (Tracker.add_game gid d t nums s).2 = Tracker.predictions s
  ∧ ((Tracker.add_game gid d t nums s).1 = false → (Tracker.add_game gid d t nums s).2 = s).
Proof.
  unfold Tracker.add_game. by destruct (existsb _ _).
Qed.

(** X4. [process_new_game] always files exactly one prediction, also when the
    draw was already stored: it is keyed to the next game id (1 after 999 or
    more), dated as the draw, holds the first twenty playable numbers of the
    updated history, and its removed_count is 80 minus the number of playable
    numbers, between 0 and 80; the predictions file is rewritten from the
    list.  When the draw is not new, draws and scores are left as they were
    and nothing is scored. *)
Theorem process_new_game_files_prediction
    (gid : Z) (d t : string) (nums : list Z) (st : TrackerOps.Store) :
  let r := TrackerOps.process_new_game gid d t nums st in
  let after := TrackerOps.tracker r.2 in
  let playable := Tracker.get_playable_numbers (Tracker.games after) in
  Tracker.predictions after
  = Tracker.predictions (TrackerOps.tracker st)
      ++ [Tracker.mkPrediction (TrackerOps.next_game_id gid) d (take 20 playable)
            (80 - Z.of_nat (length playable))]
  ∧ TrackerOps.PREDICTIONS_CSV r.2 = TrackerOps.save_predictions (Tracker.predictions after)
  ∧ TrackerOps.res_playable_numbers r.1 = take 20 playable
  ∧ (length (TrackerOps.res_playable_numbers r.1) ≤ 20)%nat
  ∧ TrackerOps.res_removed_count r.1 = 80 - Z.of_nat (length playable)
  ∧ 0 ≤ TrackerOps.res_removed_count r.1 ≤ 80
  ∧ (1 ≤ gid ≤ 999 → 1 ≤ TrackerOps.next_game_id gid ≤ 999)
  ∧ (TrackerOps.is_new r.1 = false →
     TrackerOps.score r.1 = None
     ∧ Tracker.games after = Tracker.games (TrackerOps.tracker st)
     ∧ Tracker.scores after = Tracker.scores (TrackerOps.tracker st)).
Proof.
  unfold TrackerOps.process_new_game.
  pose proof (add_game_frame gid d t nums (TrackerOps.tracker st)) as [Hp1 Hdup].
  destruct (Tracker.add_game gid d t nums (TrackerOps.tracker st)) as [new s1].
  cbn [fst snd] in Hp1, Hdup.
  destruct (if new && bool_decide (1 < length (Tracker.games s1))%nat
            then Tracker.score_prediction gid s1 else (None, s1)) as [sc s2] eqn:Escored.
  assert (Hs : Tracker.games s2 = Tracker.games s1
               ∧ Tracker.predictions s2 = Tracker.predictions s1).
  { destruct (new && _).
    - pose proof (score_prediction_frame gid s1) as (Hg & Hp & _).
      rewrite Escored in Hg, Hp. done.
    - by injection Escored as <- <-. }
  assert (Hd : new = false → sc = None ∧ s2 = s1).
  { intros ->. simpl in Escored. by injection Escored as <- <-. }
  destruct Hs as [Hg2 Hp2].
  cbn [fst snd TrackerOps.tracker TrackerOps.file_prediction TrackerOps.PREDICTIONS_CSV
       Tracker.games Tracker.predictions Tracker.scores
       TrackerOps.res_playable_numbers TrackerOps.res_removed_count
       TrackerOps.is_new TrackerOps.score].
  pose proof (length_playable_le (Tracker.games s2)) as Hlen.
  split_and!; try done; try lia.
  - by rewrite Hp2, Hp1.
  - rewrite length_take. lia.
  - intros Hgid. unfold TrackerOps.next_game_id.
    destruct (decide (gid < 999)) as [Hlt|Hge].
    + rewrite bool_decide_eq_true_2 by done. lia.
    + rewrite bool_decide_eq_false_2 by done. lia.
  - intros Hnew. destruct (Hd Hnew) as [-> ->].
    rewrite (Hdup Hnew). done.
Qed.

Definition store_one_game : TrackerOps.Store := TrackerOps.mkStore tracker_one_game None.

Lemma process_new_game_files_prediction_witness :
  let r := TrackerOps.process_new_game 999 "01/01/24" "10:04:00" (Py.range 1 21)
             store_one_game in
  Tracker.p_game_id <$> Tracker.predictions (TrackerOps.tracker r.2) = [1].
Proof.
  pose proof (process_new_game_files_prediction 999 "01/01/24" "10:04:00" (Py.range 1 21)
                store_one_game) as (H & _).
  cbv zeta. rewrite H. reflexivity.
Defined.

(** X5. [score_prediction] does not remember what it has scored: called
    again with the same game id it returns the same score and appends the
    same row a second time. *)
Theorem score_prediction_twice (s s1 : Tracker.KenoTracker) (gid : Z) (r : Tracker.ScoreResult)
    (Hfirst : Tracker.score_prediction gid s = (Some r, s1)) :
  ∃ s2, Tracker.score_prediction gid s1 = (Some r, s2)
        ∧ Tracker.scores s2
          = Tracker.scores s
              ++ [Tracker.mkScore gid (Tracker.r_hits r) (Tracker.r_playable_count r);
                  Tracker.mkScore gid (Tracker.r_hits r) (Tracker.r_playable_count r)]
        ∧ Tracker.SCORES_CSV s2 = Tracker.save_scores (Tracker.scores s2).
Proof.
  unfold Tracker.score_prediction in *.
  destruct (Tracker.find_prediction gid (Tracker.predictions s)) as [p|] eqn:Hp; [|done].
  destruct (Tracker.find_game gid (Tracker.games s)) as [g|] eqn:Hg; [|done].
  injection Hfirst as <- <-. cbn [Tracker.predictions Tracker.games Tracker.scores].
  rewrite Hp, Hg. eexists. split; [reflexivity|].
  cbn [Tracker.scores Tracker.SCORES_CSV Tracker.r_hits Tracker.r_playable_count].
  split; [|done]. by rewrite <- app_assoc.
Qed.

Lemma score_prediction_twice_witness :
  ∃ r s1 s2,
    Tracker.score_prediction 7 tracker_scoring = (Some r, s1)
    ∧ Tracker.score_prediction 7 s1 = (Some r, s2)
    ∧ length (Tracker.scores s2) = 2%nat.
Proof.
  destruct (Tracker.score_prediction 7 tracker_scoring) as [[r|] s1] eqn:H;
    [|by vm_compute in H].
  destruct (score_prediction_twice tracker_scoring s1 7 r H) as (s2 & H2 & Hsc & _).
  exists r, s1, s2. split; [reflexivity|]. split; [exact H2|]. by rewrite Hsc.
Defined.

(** ** The three copies of the elimination rules *)

Lemma sorted_ext {A} (leb1 leb2 : A → A → bool) (l : list A) :
  (∀ x y, leb1 x y = leb2 x y) → Py.sorted leb1 l = Py.sorted leb2 l.
Proof.
  intros H. induction l as [|x l IH]; [done|].
  change (Py.sorted leb1 (x :: l)) with (Py.insert_sorted leb1 x (Py.sorted leb1 l)).
  change (Py.sorted leb2 (x :: l)) with (Py.insert_sorted leb2 x (Py.sorted leb2 l)).
  rewrite IH. generalize (Py.sorted leb2 l). intros s.
  induction s as [|y s IHs]; [done|]. cbn [Py.insert_sorted].
  rewrite H. destruct (leb2 x y); [done|]. by rewrite IHs.
Qed.

Lemma filter_ext_in_list {A} (p q : A → bool) (l : list A) :
  (∀ x, x ∈ l → p x = q x) → List.filter p l = List.filter q l.
Proof.
  intros H. induction l as [|x l IH]; simpl; [done|].
  rewrite (H x) by apply list_elem_of_here.
  rewrite IH; [done|]. intros y Hy. apply H. by apply list_elem_of_further.
Qed.

Lemma filter_ext_list {A} (p q : A → bool) (l : list A) :
  (∀ x, p x = q x) → List.filter p l = List.filter q l.
Proof. intros H. induction l as [|x l IH]; simpl; [done|]. by rewrite H, IH. Qed.

(** The Counter-based test of the tracker and the counting test of the live
    tracker decide the same. *)
Lemma live_is_row_col_hot (gs : list Tracker.Game) (num : Z) (last_n : nat) (threshold : Z) :
  Live.is_row_col_hot gs num last_n threshold = Tracker.is_row_col_hot gs num last_n threshold.
Proof.
  unfold Live.is_row_col_hot, Tracker.is_row_col_hot.
  rewrite <- existsb_seq_take. apply existsb_pointwise. intros i Hi.
  apply elem_of_seq in Hi. unfold Tracker.get_row_col_hits.
  replace (i + 1 - 1)%nat with i by lia.
  destruct (lookup_lt_is_Some_2 gs i) as [g Hg]; [lia|]. rewrite Hg.
  by rewrite !Counter_get0, !count_fmap.
Qed.

Lemma live_reasons_removed (gs : list Tracker.Game) (num : Z) :
  bool_decide (Live.reasons_of gs num = []) = negb (Tracker.remove (Tracker.number_data gs num)).
Proof.
  unfold Live.reasons_of, Tracker.remove, Tracker.number_data. cbn [Tracker.reasons].
  rewrite live_is_row_col_hot.
  change (Live.hit_in_positions gs num) with (Tracker.hit_in_specific_games gs num).
  change (Live.hit_count_positions gs num) with (Tracker.hit_count_in_specific_games gs num).
  change (Live.hits_in_n gs num) with (Tracker.calculate_hits gs num).
  change (Live.has_neighbor_hit gs num) with (Tracker.has_touching_neighbor_hit gs num).
  destruct (Tracker.hit_in_specific_games gs num [1; 2]%nat),
    (bool_decide (2 ≤ Tracker.hit_count_in_specific_games gs num [1; 2; 3]%nat)),
    (bool_decide (4 ≤ Tracker.hit_count_in_specific_games gs num (seq 1 8))),
    (bool_decide (6 ≤ Tracker.calculate_hits gs num 10)),
    (Tracker.hit_in_specific_games gs num [1; 3; 4]%nat),
    (Tracker.is_row_col_hot gs num 3 4),
    (Tracker.has_touching_neighbor_hit gs num 1); reflexivity.
Qed.

(** The dict [remove_reasons] holds a number exactly when it is on the board
    and some test gave a reason. *)
Lemma remove_reasons_fold (reasons : Z → list string) (l : list Z) (m : gmap Z (list string)) :
  dom (foldl (λ (m : gmap Z (list string)) num,
                match reasons num with [] => m | rs => <[num := rs]> m end) m l)
  = dom m ∪ list_to_set (List.filter (λ num, negb (bool_decide (reasons num = []))) l).
Proof.
  revert m. induction l as [|x l IH]; intros m; cbn [foldl List.filter].
  - by rewrite list_to_set_nil, (right_id_L ∅ (∪)).
  - rewrite IH. destruct (reasons x) as [|r rs] eqn:Hr.
    + by rewrite bool_decide_eq_true_2.
    + rewrite bool_decide_eq_false_2 by done. cbn [negb].
      rewrite dom_insert_L, list_to_set_cons.
      by rewrite (comm_L (∪) {[x]} (dom m)), <- (assoc_L (∪)).
Qed.

Lemma remove_reasons_dom (gs : list Tracker.Game) :
  dom (Live.remove_reasons gs)
  = list_to_set (List.filter (λ num, Tracker.remove (Tracker.number_data gs num))
                             (Py.range 1 81)).
Proof.
  unfold Live.remove_reasons. rewrite (remove_reasons_fold (Live.reasons_of gs)).
  rewrite dom_empty_L, (left_id_L ∅ (∪)). f_equal.
  apply filter_ext_list. intros num. rewrite live_reasons_removed. apply negb_involutive.
Qed.

Lemma length_filter_partition {A} (p : A → bool) (l : list A) :
  (length (List.filter p l) + length (List.filter (λ x, negb (p x)) l) = length l)%nat.
Proof. induction l as [|x l IH]; simpl; [done|]. destruct (p x); simpl; lia. Qed.

Lemma live_filter_kept (gs : list Tracker.Game) :
  List.filter (λ num, negb (bool_decide (is_Some (Live.remove_reasons gs !! num))))
              (Py.range 1 81)
  = List.filter (λ num, negb (Tracker.remove (Tracker.number_data gs num)))
                (Py.range 1 81).
Proof.
  apply filter_ext_in_list. intros num Hnum. f_equal.
  destruct (Tracker.remove (Tracker.number_data gs num)) eqn:Hrm.
  - apply bool_decide_eq_true_2, elem_of_dom. rewrite remove_reasons_dom.
    by apply elem_of_list_to_set, elem_of_filter_list.
  - apply bool_decide_eq_false_2. rewrite <- elem_of_dom, remove_reasons_dom.
    rewrite elem_of_list_to_set, elem_of_filter_list. intros [_ ?]. congruence.
Qed.

Lemma live_playable_fst (gs : list Tracker.Game) :
  (Live.get_playable_numbers gs).1 = Tracker.get_playable_numbers gs.
Proof.
  destruct gs as [|g gs']; [done|].
  set (gs := g :: gs').
  unfold gs at 2. rewrite get_playable_numbers_cons. fold gs. cbv zeta.
  change ((Live.get_playable_numbers gs).1)
    with (fst <$> Py.sorted (Py.by_pair_key (λ x : Z * (Z * Z), (- x.2.1, x.2.2)))
            ((λ num, (num, (Live.hits_in_n gs num 50, Live.hits_in_n gs num 10)))
               <$> List.filter
                     (λ num, negb (bool_decide (is_Some (Live.remove_reasons gs !! num))))
                     (Py.range 1 81))).
  rewrite live_filter_kept.
  generalize (List.filter (λ num, negb (Tracker.remove (Tracker.number_data gs num)))
                          (Py.range 1 81)). intros kept.
  rewrite (sorted_fmap (Py.by_pair_key (λ x : Z * (Z * Z), (- x.2.1, x.2.2)))
             (λ num, (num, (Live.hits_in_n gs num 50, Live.hits_in_n gs num 10)))).
  rewrite <- list_fmap_compose.
  change (fst ∘ (λ num, (num, (Live.hits_in_n gs num 50, Live.hits_in_n gs num 10))))
    with (@id Z).
  rewrite list_fmap_id. apply sorted_ext. intros x y.
  unfold Py.by_pair_key. cbn [fst snd]. rewrite !hits_last_50_calculate. reflexivity.
Qed.

Lemma live_playable_count (gs : list Tracker.Game) :
  (size (Live.get_playable_numbers gs).2 + length (Live.get_playable_numbers gs).1 = 80)%nat.
Proof.
  rewrite live_playable_fst.
  destruct gs as [|g gs'].
  - cbn [Live.get_playable_numbers Tracker.get_playable_numbers snd].
    by rewrite map_size_empty.
  - set (gs := g :: gs').
    unfold gs at 2. rewrite get_playable_numbers_cons. fold gs. cbv zeta.
    rewrite length_sorted.
    change ((Live.get_playable_numbers gs).2) with (Live.remove_reasons gs).
    rewrite <- size_dom, remove_reasons_dom.
    rewrite size_list_to_set by apply NoDup_filter_list, NoDup_range.
    rewrite length_filter_partition. reflexivity.
Qed.

(** X6. For every history the live tracker's [get_playable_numbers] returns
    the same ranked list as the single-strategy tracker's, and its dict of
    reasons has one entry per removed number: entries and playable numbers
    add up to the eighty numbers of the board (on an empty history the dict
    is empty and all eighty numbers are playable). *)
Theorem live_playable_same_as_tracker (gs : list Tracker.Game) :
  (Live.get_playable_numbers gs).1 = Tracker.get_playable_numbers gs
  ∧ (size (Live.get_playable_numbers gs).2 + length (Live.get_playable_numbers gs).1 = 80)%nat
  ∧ (∀ n, n ∈ (Live.get_playable_numbers gs).1 → (Live.get_playable_numbers gs).2 !! n = None).
Proof.
  split_and!; [apply live_playable_fst|apply live_playable_count|].
  destruct gs as [|g gs']; [done|].
  set (gs := g :: gs').
  intros n Hn. rewrite live_playable_fst in Hn. unfold gs in Hn at 1.
  rewrite get_playable_numbers_cons in Hn. fold gs in Hn. cbv zeta in Hn.
  apply elem_of_sorted, elem_of_filter_list in Hn as [Hn Hkeep].
  change ((Live.get_playable_numbers gs).2) with (Live.remove_reasons gs).
  apply not_elem_of_dom. rewrite remove_reasons_dom.
  rewrite elem_of_list_to_set, elem_of_filter_list.
  intros [_ Hrm]. by rewrite Hrm in Hkeep.
Qed.

(** X7. On a history of duplicate-free draws, kept the same way by both
    trackers, the chain of tests in the loop of [strategy_elimination] fires
    on a number of the board exactly when [get_playable_numbers] removes it,
    and exactly when the live tracker records a reason for it. *)
Theorem rule_engines_agree (h : list Tracker.Game) (num : Z)
    (Hnodup : Forall (λ g, NoDup (Tracker.numbers g)) h) (Hnum : 1 ≤ num ≤ 80) :
  Multi.skipped (of_tracker <$> h) num = Tracker.remove (Tracker.number_data h num)
  ∧ Multi.skipped (of_tracker <$> h) num = negb (bool_decide (Live.reasons_of h num = [])).
Proof.
  rewrite live_reasons_removed, negb_involutive.
  split; by apply skipped_iff_removed.
Qed.

Lemma rule_engines_agree_witness :
  Multi.skipped (of_tracker <$> [game_5_jan]) 25 = false
  ∧ Tracker.remove (Tracker.number_data [game_5_jan] 25) = false.
Proof.
  assert (Hnodup : Forall (λ g, NoDup (Tracker.numbers g)) [game_5_jan]).
  { apply Forall_cons. split; [apply (NoDup_range 1 21)|apply Forall_nil_2]. }
  assert (Hnum : 1 ≤ 25 ≤ 80) by lia.
  pose proof (rule_engines_agree [game_5_jan] 25 Hnodup Hnum) as [H _].
  split; [|rewrite <- H]; by vm_compute.
Defined.

(** ** The icebox, deadzone and lonely7 strategies *)

Lemma NoDup_take_list {A} (n : nat) (l : list A) : NoDup l → NoDup (take n l).
Proof. intros H. eapply sublist_NoDup; [exact H|apply sublist_take]. Qed.

Lemma length_NoDup_subset (l : list Z) (X : gset Z) :
  NoDup l → (∀ x, x ∈ l → x ∈ X) → (length l ≤ size X)%nat.
Proof.
  intros Hnd Hsub. rewrite <- (size_list_to_set (C := gset Z) l Hnd).
  apply subseteq_size. intros x Hx. apply elem_of_list_to_set in Hx. by apply Hsub.
Qed.

Lemma size_union_le (X Y : gset Z) : (size (X ∪ Y) ≤ size X + size Y)%nat.
Proof.
  rewrite size_union_alt.
  assert (size (Y ∖ X) ≤ size Y)%nat.
  { apply subseteq_size. intros x Hx. by apply elem_of_difference in Hx as [? _]. }
  lia.
Qed.

Lemma desc_by_ordered {A} (key : A → Z) (l : list A) :
  StronglySorted (λ a b, key b ≤ key a) (Py.sorted (Py.desc_by key) l).
Proof.
  eapply StronglySorted_weaken; [|apply (sorted_ordered (Py.desc_by key))].
  - intros x y H. by apply bool_decide_eq_true in H.
  - intros x y. unfold Py.desc_by. rewrite !bool_decide_eq_true. lia.
  - intros x y z. unfold Py.desc_by. rewrite !bool_decide_eq_true. lia.
Qed.

Lemma asc_by_ordered {A} (key : A → Z) (l : list A) :
  StronglySorted (λ a b, key a ≤ key b) (Py.sorted (Py.asc_by key) l).
Proof.
  eapply StronglySorted_weaken; [|apply (sorted_ordered (Py.asc_by key))].
  - intros x y H. by apply bool_decide_eq_true in H.
  - intros x y. unfold Py.asc_by. rewrite !bool_decide_eq_true. lia.
  - intros x y z. unfold Py.asc_by. rewrite !bool_decide_eq_true. lia.
Qed.

Lemma StronglySorted_take {A} (R : A → A → Prop) (n : nat) (l : list A) :
  StronglySorted R l → StronglySorted R (take n l).
Proof.
  intros H. revert n. induction H as [|x l Hl IH Hx]; intros [|n]; simpl; try constructor.
  - apply IH.
  - rewrite Forall_forall in *. intros y Hy. apply Hx. by eapply subseteq_take.
Qed.

Lemma count_nonneg {A} (p : A → bool) (l : list A) : 0 ≤ Py.count p l.
Proof. unfold Py.count. lia. Qed.

Lemma count_le_length {A} (p : A → bool) (l : list A) : Py.count p l ≤ Z.of_nat (length l).
Proof. unfold Py.count. pose proof (length_filter_le p l). lia. Qed.

(** A number drawn at least twice in the three most recent draws is in one
    of the two most recent ones. *)
Lemma two_of_three_recent (g : Multi.Game) (gs' : list Multi.Game) (num : Z) :
  2 ≤ Strategies.hits (g :: gs') num 3 →
  num ∈ Multi.numbers g ∪ default ∅ (Multi.numbers <$> gs' !! 0%nat).
Proof.
  unfold Strategies.hits. intros H. apply elem_of_union.
  destruct (decide (num ∈ Multi.numbers g)) as [|Hg]; [by left|]. right.
  change (take 3 (g :: gs')) with (g :: take 2 gs') in H.
  rewrite count_cons in H. unfold Py.mem in H at 1.
  rewrite bool_decide_eq_false_2 in H by done.
  destruct gs' as [|g2 gs''].
  - rewrite take_nil in H. unfold Py.count in H. simpl in H. lia.
  - simpl. destruct (decide (num ∈ Multi.numbers g2)) as [|Hg2]; [done|].
    change (take 2 (g2 :: gs'')) with (g2 :: take 1 gs'') in H.
    rewrite count_cons in H. unfold Py.mem in H at 1.
    rewrite bool_decide_eq_false_2 in H by done.
    pose proof (count_le_length (λ g, Py.mem num (Multi.numbers g)) (take 1 gs'')) as Hle.
    rewrite length_take in Hle. lia.
Qed.

Lemma strategy_icebox_cons (g : Multi.Game) (gs' : list Multi.Game) :
  let games := g :: gs' in
  Strategies.strategy_icebox games
  = take 20 (Py.sorted (Py.desc_by (λ n, Strategies.hits games n 50))
               (List.filter
                  (λ n, negb (Py.mem n (list_to_set
                                          (List.filter (λ num, bool_decide (2 ≤ Strategies.hits games num 3))
                                                       (Py.range 1 81)))))
                  (Py.range 1 81))).
Proof. reflexivity. Qed.

(** X8. For a non-empty history [strategy_icebox] returns at most twenty
    distinct numbers of the board, none drawn twice or more in the three most
    recent draws, ranked by their hits over the last fifty draws (an earlier
    number has at least as many as a later one).  When the two most recent
    draws hold at most twenty numbers each, it returns exactly twenty. *)
Theorem strategy_icebox_spec (g : Multi.Game) (gs' : list Multi.Game) :
  let games := g :: gs' in
  let picks := Strategies.strategy_icebox games in
  NoDup picks
  ∧ (length picks ≤ 20)%nat
  ∧ (∀ n, n ∈ picks → 1 ≤ n ≤ 80 ∧ Strategies.hits games n 3 < 2)
  ∧ (∀ (i j : nat) (a b : Z), (i < j)%nat → picks !! i = Some a → picks !! j = Some b →
       Strategies.hits games b 50 ≤ Strategies.hits games a 50)
  ∧ ((size (Multi.numbers g) ≤ 20)%nat →
     (∀ g2, gs' !! 0%nat = Some g2 → (size (Multi.numbers g2) ≤ 20)%nat) →
     length picks = 20%nat).
Proof.
  cbv zeta. rewrite strategy_icebox_cons. cbv zeta. set (games := g :: gs').
  set (iced := List.filter (λ num, bool_decide (2 ≤ Strategies.hits games num 3))
                           (Py.range 1 81)).
  set (remaining := List.filter (λ n, negb (Py.mem n (list_to_set iced))) (Py.range 1 81)).
  assert (Hnd : NoDup remaining) by apply NoDup_filter_list, NoDup_range.
  split_and!.
  - apply NoDup_take_list. by rewrite sorted_perm.
  - rewrite length_take. lia.
  - intros n Hn. apply (subseteq_take 20), elem_of_sorted in Hn.
    apply elem_of_filter_list in Hn as [Hr Hice].
    split; [apply elem_of_range in Hr; lia|].
    apply negb_true_iff, bool_decide_eq_false in Hice.
    destruct (decide (2 ≤ Strategies.hits games n 3)) as [H2|]; [|lia].
    exfalso. apply Hice. apply elem_of_list_to_set, elem_of_filter_list.
    split; [done|]. by apply bool_decide_eq_true_2.
  - intros i j a b Hij Hi Hj.
    apply (StronglySorted_lookup (λ a b, Strategies.hits games b 50 ≤ Strategies.hits games a 50)
             (take 20 (Py.sorted (Py.desc_by (λ n, Strategies.hits games n 50)) remaining))
             (StronglySorted_take _ _ _ (desc_by_ordered _ _)) i j a b Hij Hi Hj).
  - intros Hg Hg2. rewrite length_take, length_sorted.
    assert (Hiced : (length iced ≤ 40)%nat).
    { etrans; [apply (length_NoDup_subset iced
                        (Multi.numbers g ∪ default ∅ (Multi.numbers <$> gs' !! 0%nat)))|].
      - apply NoDup_filter_list, NoDup_range.
      - intros x Hx. apply elem_of_filter_list in Hx as [_ Hx].
        apply bool_decide_eq_true in Hx. by apply two_of_three_recent.
      - etrans; [apply size_union_le|].
        destruct (gs' !! 0%nat) as [g2|] eqn:E.
        + specialize (Hg2 g2 eq_refl).
          change (default ∅ (Multi.numbers <$> Some g2)) with (Multi.numbers g2). lia.
        + change (default ∅ (Multi.numbers <$> None)) with (∅ : gset Z).
          rewrite size_empty. lia. }
    assert (Hsplit : (length iced + length remaining = 80)%nat).
    { pose proof (length_filter_partition
                    (λ num, bool_decide (2 ≤ Strategies.hits games num 3)) (Py.range 1 81)) as Hp.
      fold iced in Hp. change (length (Py.range 1 81)) with 80%nat in Hp.
      rewrite <- Hp. f_equal. unfold remaining. f_equal.
      apply filter_ext_in_list. intros n Hn. f_equal. unfold Py.mem.
      apply bool_decide_ext. unfold iced.
      rewrite elem_of_list_to_set, elem_of_filter_list, bool_decide_eq_true. tauto. }
    lia.
Qed.

Definition history_three : list Multi.Game :=
  [Multi.of_row 7 "01/01/24" "10:08:00" (Py.range 1 21);
   Multi.of_row 6 "01/01/24" "10:04:00" (Py.range 11 31);
   Multi.of_row 5 "01/01/24" "10:00:00" (Py.range 21 41)].

Lemma strategy_icebox_spec_witness :
  length (Strategies.strategy_icebox history_three) = 20%nat.
Proof.
  pose proof (strategy_icebox_spec
                (Multi.of_row 7 "01/01/24" "10:08:00" (Py.range 1 21))
                [Multi.of_row 6 "01/01/24" "10:04:00" (Py.range 11 31);
                 Multi.of_row 5 "01/01/24" "10:00:00" (Py.range 21 41)])
    as (_ & _ & _ & _ & H).
  apply H.
  - vm_compute. lia.
  - intros g2 Hg2. injection Hg2 as <-. vm_compute. lia.
Defined.



(** The gap of a number is at least [k] exactly when none of the [k] most
    recent draws holds it (for [k] up to the length of the history). *)
Lemma gap_in_nonneg (num : Z) (l : list Multi.Game) : 0 ≤ Strategies.gap_in num l.
Proof. induction l as [|g l IH]; simpl; [done|]. destruct (Py.mem _ _); lia. Qed.

Lemma gap_in_absent (num : Z) (l : list Multi.Game) (k : nat) :
  Z.of_nat k ≤ Strategies.gap_in num l →
  ∀ g, g ∈ take k l → num ∉ Multi.numbers g.
Proof.
  revert k. induction l as [|g0 l IH]; intros k Hk g Hg.
  - rewrite take_nil in Hg. by apply elem_of_nil in Hg.
  - destruct k as [|k]; [by apply elem_of_nil in Hg|].
    simpl in Hk, Hg. unfold Py.mem in Hk. case_bool_decide as Hmem; [lia|].
    apply elem_of_cons in Hg as [->|Hg]; [done|].
    apply (IH k); [lia|done].
Qed.

(** What the second loop of [strategy_lonely7] keeps. *)
Lemma extend_lonely_invariant (games : list Multi.Game) (P : Z → Prop) (board lonely : list Z) :
  (∀ n, 8 ≤ Strategies.gap_in n games → n ∈ board → P n) →
  NoDup lonely → (length lonely ≤ 7)%nat → Forall P lonely →
  let r := foldl (λ lonely num,
                    if bool_decide (7 ≤ length lonely)%nat then lonely
                    else if negb (Py.mem_list num lonely)
                            && bool_decide (8 ≤ Strategies.gap_in num games)
                         then lonely ++ [num] else lonely) lonely board in
  NoDup r ∧ (length r ≤ 7)%nat ∧ Forall P r.
Proof.
  intros HP. revert lonely. induction board as [|x board IH]; intros lonely Hnd Hlen Hall.
  - done.
  - cbn [foldl]. apply IH.
    + intros n Hgap Hn. apply HP; [done|]. by apply list_elem_of_further.
    + case_bool_decide; [done|].
      destruct (negb (Py.mem_list x lonely)) eqn:Hx; simpl; [|done].
      case_bool_decide; [|done].
      apply NoDup_app. split_and!; [done| |apply NoDup_singleton].
      intros y Hy Hy'. apply list_elem_of_singleton in Hy' as ->.
      apply negb_true_iff, bool_decide_eq_false in Hx. done.
    + case_bool_decide; [done|].
      destruct (negb (Py.mem_list x lonely) && _); [|done].
      rewrite length_app. simpl. lia.
    + case_bool_decide; [done|].
      destruct (negb (Py.mem_list x lonely)); simpl; [|done].
      case_bool_decide as Hgap; [|done].
      apply Forall_app. split; [done|]. constructor; [|constructor].
      apply HP; [done|]. apply list_elem_of_here.
Qed.

(** X10. With at least twelve draws of history [strategy_lonely7] returns at
    most seven distinct numbers of the board, none of which was drawn in any
    of the eight most recent draws. *)
Theorem strategy_lonely7_spec (games : list Multi.Game) (Hlen : (12 ≤ length games)%nat) :
  let picks := Strategies.strategy_lonely7 games in
  NoDup picks
  ∧ (length picks ≤ 7)%nat
  ∧ (∀ n, n ∈ picks → 1 ≤ n ≤ 80 ∧ ∀ g, g ∈ take 8 games → n ∉ Multi.numbers g).
Proof.
  cbv zeta. unfold Strategies.strategy_lonely7.
  rewrite bool_decide_eq_false_2 by lia.
  set (P := λ n : Z, 1 ≤ n ≤ 80 ∧ ∀ g, g ∈ take 8 games → n ∉ Multi.numbers g).
  set (gap_data := List.filter (λ x : Z * Z, bool_decide (12 ≤ x.2))
                     ((λ num, (num, Strategies.gap_in num games)) <$> Py.range 1 81)).
  set (lonely := fst <$> take 7 (Py.sorted (Py.desc_by snd) gap_data)).
  assert (Hfst : fst <$> Py.sorted (Py.desc_by snd) gap_data
                 ≡ₚ List.filter (λ n, bool_decide (12 ≤ Strategies.gap_in n games))
                                (Py.range 1 81)).
  { rewrite sorted_perm. unfold gap_data. rewrite filter_fmap, <- list_fmap_compose.
    change (fst ∘ (λ num, (num, Strategies.gap_in num games))) with (@id Z).
    by rewrite list_fmap_id. }
  assert (Hnd : NoDup lonely).
  { unfold lonely. rewrite fmap_take. apply NoDup_take_list.
    rewrite Hfst. apply NoDup_filter_list, NoDup_range. }
  assert (Hl7 : (length lonely ≤ 7)%nat).
  { unfold lonely. rewrite length_fmap, length_take. lia. }
  assert (HP : Forall P lonely).
  { apply Forall_forall. intros n Hn. unfold lonely in Hn. rewrite fmap_take in Hn.
    apply (subseteq_take 7) in Hn. rewrite Hfst in Hn.
    apply elem_of_filter_list in Hn as [Hr Hgap]. apply bool_decide_eq_true in Hgap.
    split; [apply elem_of_range in Hr; lia|].
    apply gap_in_absent. lia. }
  assert (Hfinal : NoDup (if bool_decide (length lonely < 7)%nat
                          then Strategies.extend_lonely games lonely else lonely)
                   ∧ (length (if bool_decide (length lonely < 7)%nat
                              then Strategies.extend_lonely games lonely else lonely) ≤ 7)%nat
                   ∧ Forall P (if bool_decide (length lonely < 7)%nat
                               then Strategies.extend_lonely games lonely else lonely)).
  { case_bool_decide; [|done].
    apply (extend_lonely_invariant games P (Py.range 1 81) lonely); try done.
    intros n Hgap Hn. split; [apply elem_of_range in Hn; lia|].
    apply gap_in_absent. lia. }
  destruct Hfinal as (H1 & H2 & H3). split_and!; [done|done|].
  intros n Hn. rewrite Forall_forall in H3. by apply H3.
Qed.

Definition history_twelve : list Multi.Game :=
  replicate 12 (Multi.of_row 5 "01/01/24" "10:00:00" (Py.range 1 21)).

Lemma strategy_lonely7_spec_witness :
  (length (Strategies.strategy_lonely7 history_twelve) ≤ 7)%nat.
Proof.
  assert (H : (12 ≤ length history_twelve)%nat) by (vm_compute; lia).
  exact (proj1 (proj2 (strategy_lonely7_spec history_twelve H))).
Defined.

(** ** Scoring in the multi-strategy tracker *)

Lemma lookup_touch {A} (key : string) (d : gmap string (list A)) :
  Strategies.touch key d !! key = Some (default [] (d !! key)).
Proof.
  unfold Strategies.touch. destruct (d !! key) eqn:E; simpl.
  - by rewrite E.
  - by rewrite lookup_insert_eq.
Qed.

Lemma lookup_touch_ne {A} (key other : string) (d : gmap string (list A)) :
  key ≠ other → Strategies.touch key d !! other = d !! other.
Proof.
  intros Hne. unfold Strategies.touch. destruct (d !! key); [done|].
  by rewrite lookup_insert_ne.
Qed.

Lemma size_inter_list (l : list Z) (X : gset Z) :
  (size ((list_to_set l : gset Z) ∩ X) ≤ length l)%nat
  ∧ (size ((list_to_set l : gset Z) ∩ X) ≤ size X)%nat.
Proof.
  split.
  - etrans; [apply (subseteq_size _ (list_to_set l))|].
    + intros x Hx. by apply elem_of_intersection in Hx as [? _].
    + induction l as [|x l IH]; [by rewrite list_to_set_nil, size_empty|].
      rewrite list_to_set_cons. etrans; [apply size_union_le|].
      rewrite size_singleton. simpl. lia.
  - apply subseteq_size. intros x Hx. by apply elem_of_intersection in Hx as [_ ?].
Qed.

(** X11. [KenoMultiStrategy.score_prediction] scores the first prediction
    filed for the strategy under the game id: the hits it returns are the
    size of the intersection of the picks and the draw, so between 0 and the
    number of picks and at most the size of the draw, and one score row is
    appended for that strategy, the rows of other strategies being kept.
    When the strategy has no prediction under that id it returns no value and
    the scores are unchanged.  In both cases the predictions of the strategy
    read as before, the strategy being registered with an empty list when it
    was unknown. *)
Theorem multi_score_prediction_spec (strategy : string) (gid : Z) (actual : gset Z)
    (b : Strategies.Book) :
  let r := Strategies.score_prediction strategy gid actual b in
  let filed := default [] (Strategies.predictions b !! strategy) in
  Strategies.predictions r.2 !! strategy = Some filed
  ∧ (∀ other, other ≠ strategy →
       Strategies.predictions r.2 !! other = Strategies.predictions b !! other)
  ∧ match List.find (λ p, bool_decide (Strategies.pred_game_id p = gid)) filed with
    | Some pred =>
        let h := Z.of_nat (size ((list_to_set (Strategies.picks pred) : gset Z) ∩ actual)) in
        r.1 = Some h
        ∧ 0 ≤ h ≤ Z.of_nat (length (Strategies.picks pred))
        ∧ h ≤ Z.of_nat (size actual)
        ∧ Strategies.scores r.2 !! strategy
          = Some (default [] (Strategies.scores b !! strategy)
                  ++ [Strategies.mkScore gid h (Z.of_nat (length (Strategies.picks pred)))])
        ∧ (∀ other, other ≠ strategy →
             Strategies.scores r.2 !! other = Strategies.scores b !! other)
    | None => r.1 = None ∧ Strategies.scores r.2 = Strategies.scores b
    end.
Proof.
  cbv zeta. unfold Strategies.score_prediction. rewrite lookup_touch. cbn [default].
  destruct (List.find _ _) as [pred|] eqn:Hfind; cbn [fst snd Strategies.predictions
                                                      Strategies.scores].
  - pose proof (size_inter_list (Strategies.picks pred) actual) as [H1 H2].
    split_and!; try done; try lia.
    + apply lookup_touch.
    + intros other Hne. by apply lookup_touch_ne.
    + rewrite lookup_insert_eq. by rewrite lookup_touch.
    + intros other Hne. rewrite lookup_insert_ne by done. by apply lookup_touch_ne.
  - split_and!; try done.
    + apply lookup_touch.
    + intros other Hne. by apply lookup_touch_ne.
Qed.

(** ** The analyzer: heat map, pair counts and repeats *)

Lemma list_incr_in_range (l : list Z) (i : Z) :
  - Z.of_nat (length l) ≤ i < Z.of_nat (length l) →
  ∃ l', Py.list_incr l i = inl l' ∧ length l' = length l
        ∧ (0 ≤ i → l' = alter (Z.add 1) (Z.to_nat i) l).
Proof.
  intros Hi. unfold Py.list_incr.
  destruct (decide (0 ≤ i)) as [Hpos|Hneg].
  - rewrite bool_decide_eq_true_2 by lia. eexists. split; [reflexivity|].
    split; [apply length_alter|done].
  - rewrite bool_decide_eq_false_2 by lia. rewrite bool_decide_eq_true_2 by lia.
    eexists. split; [reflexivity|]. split; [apply length_alter|lia].
Qed.

Lemma list_incr_out_of_range (l : list Z) (i : Z) :
  ¬ (- Z.of_nat (length l) ≤ i < Z.of_nat (length l)) → Py.list_incr l i = inr Py.IndexError.
Proof.
  intros Hi. unfold Py.list_incr.
  rewrite bool_decide_eq_false_2 by lia. by rewrite bool_decide_eq_false_2 by lia.
Qed.

(** The body of the two loops of [row_col_heatmap]. *)
Definition heat_step (acc : Py.result (list Z * list Z)) (n : Z) : Py.result (list Z * list Z) :=
  match acc with
  | inr e => inr e
  | inl (row_hits, col_hits) =>
      let '(r, c) := Multi.rc n in
      match Py.list_incr row_hits r with
      | inr e => inr e
      | inl row_hits' =>
          match Py.list_incr col_hits c with
          | inr e => inr e
          | inl col_hits' => inl (row_hits', col_hits')
          end
      end
  end.

Lemma heat_step_raised (e : Py.exn) (hits : list Z) : foldl heat_step (inr e) hits = inr e.
Proof. induction hits as [|n hits IH]; [done|]. exact IH. Qed.

Lemma lookup_alter_count (l : list Z) (i k : nat) :
  alter (Z.add 1) i l !! k
  = (λ v, v + (if bool_decide (i = k) then 1 else 0)) <$> l !! k.
Proof.
  destruct (decide (i = k)) as [->|Hne].
  - rewrite list_lookup_alter_eq, bool_decide_eq_true_2 by done.
    destruct (l !! k); simpl; [f_equal; lia|done].
  - rewrite list_lookup_alter_ne, bool_decide_eq_false_2 by done.
    destruct (l !! k); simpl; [f_equal; lia|done].
Qed.

Lemma heat_step_in_range (rows cols : list Z) (n : Z) :
  length rows = 8%nat → length cols = 10%nat → -79 ≤ n ≤ 80 →
  ∃ rows1 cols1,
    heat_step (inl (rows, cols)) n = inl (rows1, cols1)
    ∧ length rows1 = 8%nat ∧ length cols1 = 10%nat
    ∧ (1 ≤ n ≤ 80 →
       rows1 = alter (Z.add 1) (Z.to_nat ((n - 1) `div` 10)) rows
       ∧ cols1 = alter (Z.add 1) (Z.to_nat ((n - 1) `mod` 10)) cols).
Proof.
  intros Hr Hc Hn. unfold heat_step, Multi.rc, Multi.COLS.
  pose proof (Z.mod_pos_bound (n - 1) 10 ltac:(lia)) as Hmod.
  assert (Hrow : - Z.of_nat (length rows) ≤ (n - 1) `div` 10 < Z.of_nat (length rows)).
  { rewrite Hr. split.
    - apply Z.div_le_lower_bound; lia.
    - apply Z.div_lt_upper_bound; lia. }
  destruct (list_incr_in_range rows _ Hrow) as (rows1 & Hrows & Hr1 & Hrows1).
  assert (Hcol : - Z.of_nat (length cols) ≤ (n - 1) `mod` 10 < Z.of_nat (length cols))
    by (rewrite Hc; lia).
  destruct (list_incr_in_range cols _ Hcol) as (cols1 & Hcols & Hc1 & Hcols1).
  exists rows1, cols1. rewrite Hrows, Hcols. split_and!; [done|lia|lia|].
  intros Hv. split.
  - apply Hrows1. apply Z.div_pos; lia.
  - apply Hcols1. lia.
Qed.

Lemma heat_step_out_of_range (rows cols : list Z) (n : Z) :
  length rows = 8%nat → ¬ (-79 ≤ n ≤ 80) →
  heat_step (inl (rows, cols)) n = inr Py.IndexError.
Proof.
  intros Hr Hn. unfold heat_step, Multi.rc, Multi.COLS.
  rewrite list_incr_out_of_range; [done|].
  rewrite Hr. intros [Hlo Hhi]. apply Hn.
  pose proof (Z.div_mod (n - 1) 10 ltac:(lia)).
  pose proof (Z.mod_pos_bound (n - 1) 10 ltac:(lia)). lia.
Qed.

Lemma heat_fold_spec (hits : list Z) :
  ∀ rows cols : list Z,
    length rows = 8%nat → length cols = 10%nat →
    (Forall (λ n, -79 ≤ n ≤ 80) hits →
     ∃ rows' cols',
       foldl heat_step (inl (rows, cols)) hits = inl (rows', cols')
       ∧ length rows' = 8%nat ∧ length cols' = 10%nat
       ∧ (Forall (λ n, 1 ≤ n ≤ 80) hits →
          ∀ k : nat,
            rows' !! k
            = (λ v, v + Py.count (λ n, bool_decide ((n - 1) `div` 10 = Z.of_nat k)) hits)
                <$> rows !! k
            ∧ cols' !! k
              = (λ v, v + Py.count (λ n, bool_decide ((n - 1) `mod` 10 = Z.of_nat k)) hits)
                  <$> cols !! k))
    ∧ (¬ Forall (λ n, -79 ≤ n ≤ 80) hits →
       foldl heat_step (inl (rows, cols)) hits = inr Py.IndexError).
Proof.
  induction hits as [|n hits IH]; intros rows cols Hr Hc.
  - split.
    + intros _. exists rows, cols. split_and!; try done.
      intros _ k. unfold Py.count. simpl.
      split; [by destruct (rows !! k); simpl; [f_equal; lia|]
             |by destruct (cols !! k); simpl; [f_equal; lia|]].
    + intros H. destruct H. constructor.
  - cbn [foldl].
    destruct (decide (-79 ≤ n ≤ 80)) as [Hn|Hn].
    + destruct (heat_step_in_range rows cols n Hr Hc Hn)
        as (rows1 & cols1 & -> & Hr1 & Hc1 & Halter).
      destruct (IH rows1 cols1 Hr1 Hc1) as [IHok IHbad]. split.
      * intros Hall. apply Forall_cons in Hall as [_ Hall].
        destruct (IHok Hall) as (rows' & cols' & Hfold & Hr' & Hc' & Hcount).
        exists rows', cols'. split_and!; try done.
        intros Hvalid k. apply Forall_cons in Hvalid as [Hn1 Hvalid].
        destruct (Hcount Hvalid k) as [Hrk Hck].
        destruct (Halter Hn1) as [-> ->].
        pose proof (Z.mod_pos_bound (n - 1) 10 ltac:(lia)) as Hmod.
        assert (Hrow0 : 0 ≤ (n - 1) `div` 10) by (apply Z.div_pos; lia).
        rewrite Hrk, Hck, !lookup_alter_count, !count_cons.
        split.
        -- destruct (rows !! k); simpl; [|done]. f_equal.
           destruct (decide (Z.to_nat ((n - 1) `div` 10) = k)) as [Hk|Hk].
           ++ rewrite !bool_decide_eq_true_2 by lia. lia.
           ++ rewrite !bool_decide_eq_false_2 by lia. lia.
        -- destruct (cols !! k); simpl; [|done]. f_equal.
           destruct (decide (Z.to_nat ((n - 1) `mod` 10) = k)) as [Hk|Hk].
           ++ rewrite !bool_decide_eq_true_2 by lia. lia.
           ++ rewrite !bool_decide_eq_false_2 by lia. lia.
      * intros Hbad. apply IHbad. intros Hall. apply Hbad. by constructor.
    + split; [intros Hall; apply Forall_cons in Hall as [? _]; done|].
      intros _. rewrite heat_step_out_of_range by done. apply heat_step_raised.
Qed.

Lemma row_col_heatmap_fold (self : Analyzer.KenoAnalyzer) (window : Z) :
  Analyzer.row_col_heatmap self window
  = foldl heat_step (inl (replicate 8 0, replicate 10 0))
      (g ← Py.slice_to (Analyzer.history self) window; elements g).
Proof. reflexivity. Qed.

(** X12. For every integer window, [row_col_heatmap] reads the draws
    [history[:window]]: the first window draws, or for a negative window all
    but the last -window.  It returns exactly when every number of these
    draws lies in [-79, 80], and raises IndexError otherwise.  When it
    returns, the row list has 8 entries and the column list 10; when all the
    numbers lie in 1..80, entry k of the row list is the number of hits n with
    (n-1)//10 = k and entry k of the column list the number of hits with
    (n-1)%10 = k. *)
Theorem row_col_heatmap_spec (self : Analyzer.KenoAnalyzer) (window : Z) :
  let draws := if bool_decide (0 ≤ window)
               then take (Z.to_nat window) (Analyzer.history self)
               else take (length (Analyzer.history self) - Z.to_nat (- window))
                         (Analyzer.history self) in
  let hits := g ← draws; elements g in
  (Forall (λ n, -79 ≤ n ≤ 80) hits →
   ∃ row_hits col_hits,
     Analyzer.row_col_heatmap self window = inl (row_hits, col_hits)
     ∧ length row_hits = 8%nat ∧ length col_hits = 10%nat
     ∧ (Forall (λ n, 1 ≤ n ≤ 80) hits →
        ∀ k : nat,
          ((k < 8)%nat →
           row_hits !! k
           = Some (Py.count (λ n, bool_decide ((n - 1) `div` 10 = Z.of_nat k)) hits))
          ∧ ((k < 10)%nat →
             col_hits !! k
             = Some (Py.count (λ n, bool_decide ((n - 1) `mod` 10 = Z.of_nat k)) hits))))
  ∧ (¬ Forall (λ n, -79 ≤ n ≤ 80) hits →
     Analyzer.row_col_heatmap self window = inr Py.IndexError).
Proof.
  cbv zeta. rewrite row_col_heatmap_fold.
  change (if bool_decide (0 ≤ window)
          then take (Z.to_nat window) (Analyzer.history self)
          else take (length (Analyzer.history self) - Z.to_nat (- window))
                    (Analyzer.history self))
    with (Py.slice_to (Analyzer.history self) window).
  destruct (heat_fold_spec (g ← Py.slice_to (Analyzer.history self) window; elements g)
              (replicate 8 0) (replicate 10 0) eq_refl eq_refl) as [Hok Hbad].
  split; [|exact Hbad].
  intros Hall. destruct (Hok Hall) as (rows & cols & Hfold & Hr & Hc & Hcount).
  exists rows, cols. split_and!; try done.
  intros Hvalid k. destruct (Hcount Hvalid k) as [Hrk Hck]. split.
  - intros Hk. rewrite Hrk, lookup_replicate_2 by done. simpl. f_equal; lia.
  - intros Hk. rewrite Hck, lookup_replicate_2 by done. simpl. f_equal; lia.
Qed.

Lemma row_col_heatmap_spec_witness :
  ∃ row_hits col_hits,
    Analyzer.row_col_heatmap analyzer_one_game 10 = inl (row_hits, col_hits)
    ∧ row_hits = [10; 10; 0; 0; 0; 0; 0; 0].
Proof.
  destruct (proj1 (row_col_heatmap_spec analyzer_one_game 10))
    as (rows & cols & H & _).
  - apply (bool_decide_unpack _). by vm_compute.
  - exists rows, cols. split; [exact H|].
    vm_compute in H. by injection H as <- _.
Defined.

(** A negative window leaves out the last draws only: of three draws, the
    second one holding 81, the window -1 reads the first two and the call
    raises IndexError; the window 1 reads the first draw only. *)
Example row_col_heatmap_negative_window :
  let self := Analyzer.mkAnalyzer [list_to_set [1; 2; 3]; {[81]}; {[5]}] in
  Analyzer.row_col_heatmap self (-1) = inr Py.IndexError
  ∧ Analyzer.row_col_heatmap self 1
    = inl ([3; 0; 0; 0; 0; 0; 0; 0], [1; 1; 1; 0; 0; 0; 0; 0; 0; 0]).
Proof. by vm_compute. Qed.

(** Pairs of a strictly ascending list: each pair once, smaller number first. *)
Lemma combinations2_ascending (l : list Z) :
  StronglySorted Z.lt l →
  NoDup (Py.combinations2 l)
  ∧ ∀ a b, (a, b) ∈ Py.combinations2 l ↔ a ∈ l ∧ b ∈ l ∧ a < b.
Proof.
  induction 1 as [|x l Hl [IHnd IHin] Hx]; simpl.
  - split; [constructor|]. intros a b. split; [by intros ?%elem_of_nil|].
    by intros [?%elem_of_nil _].
  - rewrite Forall_forall in Hx.
    assert (Hxl : x ∉ l) by (intros Hin; specialize (Hx x Hin); lia).
    split.
    + apply NoDup_app. split_and!.
      * apply NoDup_fmap_2; [by intros ?? [=]|].
        clear -Hl. induction Hl as [|y l _ IH Hy]; constructor; [|done].
        intros Hin. rewrite Forall_forall in Hy. specialize (Hy y Hin). lia.
      * intros [a b] Hab Hab'. apply list_elem_of_fmap in Hab as (y & [= -> ->] & Hy).
        apply IHin in Hab' as (Hxin & _). done.
      * done.
    + intros a b. rewrite elem_of_app, list_elem_of_fmap, IHin, !elem_of_cons. split.
      * intros [(y & [= -> ->] & Hy)|(Ha & Hb & Hab)].
        -- split_and!; [by left|by right|by apply Hx].
        -- split_and!; [by right|by right|done].
      * intros ([->|Ha] & [->|Hb] & Hab).
        -- lia.
        -- left. by exists b.
        -- specialize (Hx a Ha). lia.
        -- right. done.
Qed.

(** Adding one to the count of each key of a duplicate-free list. *)
Lemma count_keys_fold (l : list (Z * Z)) :
  NoDup l →
  ∀ (m : gmap (Z * Z) Z) (k : Z * Z),
    default 0 (foldl (λ m ab, <[ab := default 0 (m !! ab) + 1]> m) m l !! k)
    = default 0 (m !! k) + (if bool_decide (k ∈ l) then 1 else 0).
Proof.
  induction 1 as [|x l Hx _ IH]; intros m k; cbn [foldl].
  - rewrite bool_decide_eq_false_2 by apply not_elem_of_nil. cbv iota.
    by rewrite Z.add_0_r.
  - rewrite IH. destruct (decide (k = x)) as [->|Hne].
    + rewrite lookup_insert_eq. cbn [default].
      rewrite (bool_decide_eq_false_2 (x ∈ l)) by done.
      rewrite bool_decide_eq_true_2 by apply list_elem_of_here. cbv iota.
      by rewrite Z.add_0_r.
    + rewrite lookup_insert_ne by done. f_equal.
      apply (f_equal (λ b : bool, if b then 1 else 0)).
      apply bool_decide_ext. rewrite elem_of_cons. split; [by right|].
      by intros [?|?].
Qed.

Lemma pair_counts_fold (h : list (gset Z)) :
  ∀ (m : gmap (Z * Z) Z) (a b : Z),
    default 0 (foldl (λ m game,
                        foldl (λ m ab, <[ab := default 0 (m !! ab) + 1]> m) m
                              (Py.combinations2 (Py.sorted_set game))) m h !! (a, b))
    = default 0 (m !! (a, b))
      + (if bool_decide (a < b)
         then Py.count (λ g, Py.mem a g && Py.mem b g) h else 0).
Proof.
  induction h as [|g h IH]; intros m a b; cbn [foldl].
  - unfold Py.count. simpl. destruct (bool_decide (a < b)); lia.
  - rewrite IH.
    destruct (sorted_set_spec g) as (Hsorted & Hmem & _).
    destruct (combinations2_ascending _ Hsorted) as [Hnd Hin].
    rewrite (count_keys_fold _ Hnd). rewrite count_cons.
    assert (Hk : bool_decide ((a, b) ∈ Py.combinations2 (Py.sorted_set g))
                 = bool_decide (a < b) && (Py.mem a g && Py.mem b g)).
    { unfold Py.mem. destruct (decide ((a, b) ∈ Py.combinations2 (Py.sorted_set g))) as [H|H].
      - rewrite bool_decide_eq_true_2 by done.
        apply Hin in H as (Ha & Hb & Hab). apply Hmem in Ha, Hb.
        by rewrite !bool_decide_eq_true_2.
      - rewrite bool_decide_eq_false_2 by done. symmetry.
        apply not_true_is_false. intros Ht.
        apply andb_true_iff in Ht as [Hab Ht]. apply andb_true_iff in Ht as [Ha Hb].
        apply bool_decide_eq_true in Hab, Ha, Hb.
        apply H, Hin. by rewrite !Hmem. }
    rewrite Hk. destruct (bool_decide (a < b)); simpl; [|lia].
    destruct (Py.mem a g && Py.mem b g); lia.
Qed.

(** X13. The Counter of [pair_analysis] holds, for two numbers a < b, the
    number of draws of the history that contain both; a pair that is not in
    ascending order is never counted. *)
Theorem pair_counts_spec (self : Analyzer.KenoAnalyzer) (a b : Z) :
  default 0 (Analyzer.pair_counts self !! (a, b))
  = if bool_decide (a < b)
    then Py.count (λ g, Py.mem a g && Py.mem b g) (Analyzer.history self)
    else 0.
Proof.
  unfold Analyzer.pair_counts. rewrite pair_counts_fold. by rewrite lookup_empty.
Qed.

(** X14. [repeat_analysis] compares each draw with the next one: it yields
    len(history) - 1 overlaps, none for an empty or single-draw history, and
    no overlap exceeds the size of either of the two draws. *)
Theorem repeats_of_spec (h : list (gset Z)) :
  length (Analyzer.repeats_of h) = (length h - 1)%nat
  ∧ ∀ (i : nat) (curr prev : gset Z),
      h !! i = Some curr → h !! S i = Some prev →
      Analyzer.repeats_of h !! i = Some (Z.of_nat (size (curr ∩ prev)))
      ∧ (size (curr ∩ prev) ≤ size curr)%nat
      ∧ (size (curr ∩ prev) ≤ size prev)%nat.
Proof.
  induction h as [|c h IH]; [done|].
  destruct h as [|p h]; [split; [done|intros i ???; by destruct i]|].
  destruct IH as [IHlen IHi].
  change (Analyzer.repeats_of (c :: p :: h))
    with (Z.of_nat (size (c ∩ p)) :: Analyzer.repeats_of (p :: h)).
  split.
  - cbn [length]. rewrite IHlen. simpl. lia.
  - intros i curr prev Hi Hsi. destruct i as [|i].
    + simpl in Hi, Hsi. injection Hi as <-. injection Hsi as <-.
      split_and!; [done| |]; apply subseteq_size; intros x Hx;
        by apply elem_of_intersection in Hx as [? ?].
    + apply (IHi i curr prev); done.
Qed.

(** ** The hybrid source: delta, repeated checks, manual entries *)

Lemma sorted_numbers_spec (l : list Z) :
  StronglySorted Z.le (Hybrid.sorted_numbers l) ∧ Hybrid.sorted_numbers l ≡ₚ l.
Proof.
  split; [apply (asc_by_ordered id)|apply sorted_perm].
Qed.

(** X15. [get_new_games_since] returns, in table order, one game for each
    row whose game_id is strictly greater than the given id and whose twenty
    number cells are all numeric, and nothing else; each returned game holds
    the twenty numbers of its row in ascending order.  The source is left
    unchanged. *)
Theorem get_new_games_since_spec (last_id : Z) (s : Hybrid.HybridGameSource) :
  let r := Hybrid.get_new_games_since last_id s in
  r.2 = s
  ∧ (∀ g, g ∈ r.1 →
       last_id < Hybrid.game_id g
       ∧ length (Hybrid.drawn g) = 20%nat
       ∧ StronglySorted Z.le (Hybrid.drawn g)
       ∧ ∃ row, row ∈ Hybrid.games_df s
                ∧ Hybrid.row_game_id row = Hybrid.game_id g
                ∧ Hybrid.drawn g ≡ₚ Hybrid.extract_drawn row)
  ∧ (∀ row, row ∈ Hybrid.games_df s → last_id < Hybrid.row_game_id row →
       length (Hybrid.extract_drawn row) = 20%nat →
       ∃ g, g ∈ r.1 ∧ Hybrid.game_id g = Hybrid.row_game_id row
            ∧ Hybrid.drawn g = Hybrid.sorted_numbers (Hybrid.extract_drawn row))
  ∧ Hybrid.game_id <$> r.1
    = Hybrid.row_game_id
        <$> List.filter (λ row, bool_decide (last_id < Hybrid.row_game_id row)
                                && bool_decide (length (Hybrid.extract_drawn row) = 20%nat))
                        (Hybrid.games_df s).
Proof.
  cbv zeta. unfold Hybrid.get_new_games_since, Hybrid.new_games_since. cbn [fst snd].
  split_and!; [done| | |].
  - intros g Hg. apply list_elem_of_bind in Hg as (row & Hg & Hrow).
    case_bool_decide as Hid; [|by apply elem_of_nil in Hg].
    case_bool_decide as Hlen; [|by apply elem_of_nil in Hg].
    apply list_elem_of_singleton in Hg as ->. cbn [Hybrid.game_id Hybrid.drawn].
    destruct (sorted_numbers_spec (Hybrid.extract_drawn row)) as [Hs Hp].
    split_and!; [done|by rewrite Hp|done|].
    exists row. by split_and!.
  - intros row Hrow Hid Hlen.
    exists (Hybrid.mkGameDict (Hybrid.row_game_id row)
              (Hybrid.sorted_numbers (Hybrid.extract_drawn row))
              (Hybrid.row_date row) (Hybrid.row_time row) None).
    split_and!; [|reflexivity|reflexivity].
    apply list_elem_of_bind. exists row. split; [|done].
    rewrite !bool_decide_eq_true_2 by done. apply list_elem_of_here.
  - generalize (Hybrid.games_df s). intros df.
    induction df as [|row df IH]; [done|]. cbn [mbind list_bind List.filter].
    rewrite fmap_app, IH.
    destruct (bool_decide (last_id < Hybrid.row_game_id row)); [|done].
    destruct (bool_decide (length (Hybrid.extract_drawn row) = 20%nat)); done.
Qed.

Lemma check_for_updates_nothing (s : Hybrid.HybridGameSource) :
  (∀ latest, last (Hybrid.games_df s) = Some latest →
             Hybrid.row_game_id latest ≤ default 0 (Hybrid.last_game_id (Hybrid.state s))) →
  Hybrid.check_for_updates s = (Hybrid.Return [], s).
Proof.
  intros H. unfold Hybrid.check_for_updates.
  destruct (last (Hybrid.games_df s)) as [latest|]; [|done].
  specialize (H latest eq_refl). by rewrite bool_decide_eq_false_2 by lia.
Qed.

Lemma check_for_updates_after (s : Hybrid.HybridGameSource) :
  Hybrid.games_df (Hybrid.check_for_updates s).2 = Hybrid.games_df s
  ∧ ∀ latest, last (Hybrid.games_df s) = Some latest →
              Hybrid.row_game_id latest
              ≤ default 0 (Hybrid.last_game_id (Hybrid.state (Hybrid.check_for_updates s).2)).
Proof.
  destruct (last (Hybrid.games_df s)) as [latest|] eqn:Hlast.
  - destruct (decide (default 0 (Hybrid.last_game_id (Hybrid.state s))
                      < Hybrid.row_game_id latest)) as [Hlt|Hge].
    + rewrite (check_for_updates_ahead s latest Hlast Hlt). cbv zeta.
      destruct (Hybrid.state_dir s); (split; [done|]); intros l [= <-]; simpl; lia.
    + unfold Hybrid.check_for_updates. rewrite Hlast.
      rewrite bool_decide_eq_false_2 by done.
      split; [done|]. intros l [= <-]. simpl. lia.
  - unfold Hybrid.check_for_updates. by rewrite Hlast.
Qed.

(** X16. A second [check_for_updates] right after a first one finds nothing
    and changes nothing: it returns an empty list and leaves the source as
    the first call left it, also when the first call could not write the
    state file. *)
Theorem check_for_updates_twice_empty (s : Hybrid.HybridGameSource) :
  Hybrid.check_for_updates (Hybrid.check_for_updates s).2
  = (Hybrid.Return [], (Hybrid.check_for_updates s).2).
Proof.
  destruct (check_for_updates_after s) as [Hdf Hid].
  apply check_for_updates_nothing. intros latest Hlast.
  rewrite Hdf in Hlast. by apply Hid.
Qed.

Lemma find_snoc {A} (f : A → bool) (l : list A) (x : A) :
  List.find f (l ++ [x])
  = match List.find f l with
    | Some y => Some y
    | None => if f x then Some x else None
    end.
Proof.
  induction l as [|y l IH]; simpl; [done|].
  destruct (f y); [done|]. exact IH.
Qed.

(** X17. After [add_manual_game] has accepted an entry, [get_manual_game]
    with the same game_id returns the first entry recorded under that id:
    the new one when the id was not used before, otherwise the earlier
    entry, which the new one does not replace. *)
Theorem manual_game_lookup (s : Hybrid.HybridGameSource) (now : string) (gid : Z)
    (drawn : list Z) (entries : list Hybrid.ManualEntry)
    (Hvalid : in_range_draw drawn)
    (Hentries : Hybrid.manual_entries (Hybrid.state s) = Some entries) :
  let s1 := (Hybrid.add_manual_game now gid drawn s).2 in
  let new_entry := Hybrid.mkManualEntry gid (Hybrid.sorted_numbers drawn) now in
  (Hybrid.get_manual_game gid s1).1
  = Some (default new_entry (Hybrid.get_manual_game gid s).1)
  ∧ ((∀ e, e ∈ entries → Hybrid.me_game_id e ≠ gid) →
     (Hybrid.get_manual_game gid s1).1 = Some new_entry)
  ∧ (∀ old, (Hybrid.get_manual_game gid s).1 = Some old →
            (Hybrid.get_manual_game gid s1).1 = Some old).
Proof.
  cbv zeta.
  assert (H : (Hybrid.get_manual_game gid (Hybrid.add_manual_game now gid drawn s).2).1
              = Some (default (Hybrid.mkManualEntry gid (Hybrid.sorted_numbers drawn) now)
                              (Hybrid.get_manual_game gid s).1)).
  { rewrite (add_manual_game_accepted s now gid drawn entries Hvalid Hentries). cbv zeta.
    unfold Hybrid.get_manual_game.
    destruct (Hybrid.state_dir s);
      cbn [fst snd Hybrid.state Hybrid.manual_entries default];
      rewrite Hentries; cbn [default]; unfold id; rewrite find_snoc;
      (destruct (List.find _ entries); [done|]);
      cbn [Hybrid.me_game_id]; by rewrite bool_decide_eq_true_2. }
  split_and!.
  - exact H.
  - intros Hfresh. rewrite H. f_equal.
    unfold Hybrid.get_manual_game. rewrite Hentries. cbn [fst default].
    rewrite find_absent; [done|].
    intros e He. apply bool_decide_eq_false. by apply Hfresh.
  - intros old Hold. by rewrite H, Hold.
Qed.

Lemma manual_game_lookup_witness :
  (Hybrid.get_manual_game 11
     (Hybrid.add_manual_game "2024-01-01T10:04:00" 11 (Py.range 21 41) source_at_10).2).1
  = Some (Hybrid.mkManualEntry 11 (Py.range 21 41) "2024-01-01T10:04:00").
Proof.
  pose proof (manual_game_lookup source_at_10 "2024-01-01T10:04:00" 11 (Py.range 21 41) [])
    as H.
  destruct H as (_ & H & _).
  - split; [reflexivity|]. apply (bool_decide_unpack _). by vm_compute.
  - reflexivity.
  - rewrite H; [reflexivity|]. intros e He. by apply elem_of_nil in He.
Defined.

Lemma forallb_in_range_iff (drawn : list Z) :
  forallb (λ n, bool_decide (1 ≤ n) && bool_decide (n ≤ 80)) drawn = true
  ↔ Forall (λ n, 1 ≤ n ≤ 80) drawn.
Proof.
  split; [|apply forallb_in_range].
  intros H. apply Forall_forall. intros n Hn.
  rewrite forallb_forall in H. apply list_elem_of_In, H in Hn.
  apply andb_true_iff in Hn as [H1 H2]. apply bool_decide_eq_true in H1, H2. lia.
Qed.

(** X18. [add_manual_game] returns True exactly when the draw has twenty
    numbers, all in [1,80] (repeated numbers are not rejected), the state has
    its manual_entries list and the directory keno_data/ exists.  A rejected
    draw returns False, leaves the state, the state file and the table
    untouched and prints one line.  A draw that passes the tests on a state
    without manual_entries raises KeyError and changes nothing.  A draw that
    passes the tests while the directory is missing raises FileNotFoundError:
    the entry is then in the list in memory, but the state file is as it
    was. *)
Theorem add_manual_game_validation (s : Hybrid.HybridGameSource) (now : string) (gid : Z)
    (drawn : list Z) :
  let r := Hybrid.add_manual_game now gid drawn s in
  (r.1 = Hybrid.Return true
   ↔ in_range_draw drawn ∧ is_Some (Hybrid.manual_entries (Hybrid.state s))
     ∧ Hybrid.state_dir s = true)
  ∧ (¬ in_range_draw drawn →
     r.1 = Hybrid.Return false
     ∧ Hybrid.checkpoint r.2 = Hybrid.checkpoint s
     ∧ Hybrid.games_df r.2 = Hybrid.games_df s
     ∧ length (Hybrid.console r.2) = S (length (Hybrid.console s)))
  ∧ (in_range_draw drawn → Hybrid.manual_entries (Hybrid.state s) = None →
     r = (Hybrid.Raise (Hybrid.KeyError "manual_entries"), s))
  ∧ (∀ entries,
       in_range_draw drawn → Hybrid.manual_entries (Hybrid.state s) = Some entries →
       Hybrid.state_dir s = false →
       r.1 = Hybrid.Raise (Hybrid.FileNotFoundError Hybrid.state_path)
       ∧ Hybrid.manual_entries (Hybrid.state r.2)
         = Some (entries ++ [Hybrid.mkManualEntry gid (Hybrid.sorted_numbers drawn) now])
       ∧ Hybrid.state_file r.2 = Hybrid.state_file s).
Proof.
  cbv zeta.
  assert (Hrejected : ¬ in_range_draw drawn →
            (Hybrid.add_manual_game now gid drawn s).1 = Hybrid.Return false
            ∧ Hybrid.checkpoint (Hybrid.add_manual_game now gid drawn s).2 = Hybrid.checkpoint s
            ∧ Hybrid.games_df (Hybrid.add_manual_game now gid drawn s).2 = Hybrid.games_df s
            ∧ length (Hybrid.console (Hybrid.add_manual_game now gid drawn s).2)
              = S (length (Hybrid.console s))).
  { unfold Hybrid.add_manual_game, in_range_draw. intros Hbad.
    destruct (decide (length drawn = 20%nat)) as [Hlen|Hlen].
    - rewrite (bool_decide_eq_false_2 (length drawn ≠ 20%nat)) by (intros ?; done).
      destruct (forallb _ drawn) eqn:Hall; cbn [negb].
      + apply forallb_in_range_iff in Hall. tauto.
      + cbn [fst snd Hybrid.print Hybrid.checkpoint Hybrid.state Hybrid.state_file
               Hybrid.games_df Hybrid.console].
        split_and!; try done. rewrite length_app. simpl. lia.
    - rewrite (bool_decide_eq_true_2 (length drawn ≠ 20%nat)) by done.
      cbn [fst snd Hybrid.print Hybrid.checkpoint Hybrid.state Hybrid.state_file
             Hybrid.games_df Hybrid.console].
      split_and!; try done. rewrite length_app. simpl. lia. }
  assert (Hmissing : in_range_draw drawn → Hybrid.manual_entries (Hybrid.state s) = None →
            Hybrid.add_manual_game now gid drawn s
            = (Hybrid.Raise (Hybrid.KeyError "manual_entries"), s)).
  { intros [Hlen Hrange] Hnone. unfold Hybrid.add_manual_game.
    rewrite bool_decide_eq_false_2 by (intros ?; done).
    rewrite forallb_in_range by done. cbn [negb]. by rewrite Hnone. }
  split_and!; [|exact Hrejected|exact Hmissing|].
  - split.
    + intros Hret.
      destruct (decide (length drawn = 20%nat ∧ Forall (λ n, 1 ≤ n ≤ 80) drawn))
        as [Hvalid|Hbad].
      * destruct (Hybrid.manual_entries (Hybrid.state s)) as [entries|] eqn:Hentries.
        -- rewrite (add_manual_game_accepted s now gid drawn entries Hvalid Hentries) in Hret.
           cbv zeta in Hret. destruct (Hybrid.state_dir s); [|discriminate Hret].
           split_and!; [done|by eexists|done].
        -- rewrite (Hmissing Hvalid eq_refl) in Hret. discriminate Hret.
      * destruct (Hrejected Hbad) as [Hfalse _]. rewrite Hfalse in Hret. discriminate Hret.
    + intros (Hvalid & [entries Hentries] & Hdir).
      rewrite (add_manual_game_accepted s now gid drawn entries Hvalid Hentries). cbv zeta.
      by rewrite Hdir.
  - intros entries Hvalid Hentries Hdir.
    rewrite (add_manual_game_accepted s now gid drawn entries Hvalid Hentries). cbv zeta.
    rewrite Hdir. by split_and!.
Qed.

Lemma add_manual_game_validation_witness :
  (Hybrid.add_manual_game "2024-01-01T10:04:00" 11 (replicate 20 7) source_at_10).1
  = Hybrid.Return true.
Proof.
  apply (proj1 (add_manual_game_validation source_at_10 "2024-01-01T10:04:00" 11
                  (replicate 20 7))).
  split_and!; [split; [reflexivity|]|by eexists|reflexivity].
  apply (bool_decide_unpack _). by vm_compute.
Defined.

(** ** The scraper: parsing, backfill, saving and polling *)

Lemma sorted_asc_strict (l : list Z) :
  NoDup l → StronglySorted Z.lt (Py.sorted (Py.asc_by id) l).
Proof.
  intros Hnd.
  assert (Hs : StronglySorted Z.le (Py.sorted (Py.asc_by id) l)) by apply (asc_by_ordered id).
  assert (Hn : NoDup (Py.sorted (Py.asc_by id) l)) by by rewrite sorted_perm.
  revert Hs Hn. generalize (Py.sorted (Py.asc_by id) l). clear.
  induction 1 as [|x l Hl IH Hx]; intros Hn; [constructor|].
  apply NoDup_cons in Hn as [Hx' Hn]. constructor; [by apply IH|].
  apply Forall_forall. intros y Hy.
  rewrite Forall_forall in Hx. specialize (Hx y Hy).
  assert (x ≠ y) by (intros ->; done). simpl in *. lia.
Qed.

(** What the loop over the tokens keeps. *)
Lemma collect_invariant (tokens : list Z) :
  ∀ (done_ : list Z) (seen_nums : gset Z) (numbers : list Z),
    seen_nums = list_to_set numbers → NoDup numbers → (length numbers ≤ 20)%nat →
    (∀ n, n ∈ numbers → n ∈ done_) →
    ((length numbers < 20)%nat → ∀ n, n ∈ done_ → n ∈ numbers) →
    NoDup (foldl ScraperPoll.collect_step (seen_nums, numbers) tokens).2
    ∧ (length (foldl ScraperPoll.collect_step (seen_nums, numbers) tokens).2 ≤ 20)%nat
    ∧ (∀ n, n ∈ (foldl ScraperPoll.collect_step (seen_nums, numbers) tokens).2 →
            n ∈ done_ ++ tokens)
    ∧ ((length (foldl ScraperPoll.collect_step (seen_nums, numbers) tokens).2 < 20)%nat →
       ∀ n, n ∈ done_ ++ tokens → n ∈ (foldl ScraperPoll.collect_step (seen_nums, numbers) tokens).2).
Proof.
  induction tokens as [|t tokens IH]; intros done_ seen_nums numbers Hseen Hnd Hlen Hsub Hall.
  - cbn [foldl snd]. rewrite app_nil_r. done.
  - cbn [foldl].
    replace (done_ ++ t :: tokens) with ((done_ ++ [t]) ++ tokens) by by rewrite <- app_assoc.
    unfold ScraperPoll.collect_step at 2 4 6 8 10. cbv beta iota.
    case_bool_decide as H20.
    + apply IH; try done.
      * intros n Hn. apply elem_of_app. left. by apply Hsub.
      * lia.
    + case_bool_decide as Hin.
      * apply IH; try done.
        -- intros n Hn. apply elem_of_app. left. by apply Hsub.
        -- intros Hlt n Hn. apply elem_of_app in Hn as [Hn|Hn]; [by apply Hall|].
           apply list_elem_of_singleton in Hn as ->.
           rewrite Hseen in Hin. by apply elem_of_list_to_set in Hin.
      * apply IH.
        -- rewrite Hseen, list_to_set_app_L. cbn [list_to_set foldr].
           rewrite (right_id_L ∅ (∪) {[t]}). apply (comm_L (∪)).
        -- apply NoDup_app. split_and!; [done| |apply NoDup_singleton].
           intros n Hn Hn'. apply list_elem_of_singleton in Hn' as ->.
           apply Hin. rewrite Hseen. by apply elem_of_list_to_set.
        -- rewrite length_app. simpl. lia.
        -- intros n Hn. apply elem_of_app in Hn as [Hn|Hn]; apply elem_of_app;
             [left; by apply Hsub|by right].
        -- intros _ n Hn. apply elem_of_app in Hn as [Hn|Hn]; apply elem_of_app;
             [left; apply Hall; [lia|done]|by right].
Qed.

Lemma collect_numbers_spec (tokens : list Z) :
  let numbers := ScraperPoll.collect_numbers tokens in
  NoDup numbers
  ∧ (∀ n, n ∈ numbers → n ∈ tokens)
  ∧ length numbers = (20 `min` size (list_to_set tokens : gset Z))%nat.
Proof.
  cbv zeta. unfold ScraperPoll.collect_numbers.
  destruct (collect_invariant tokens [] ∅ []) as (Hnd & Hlen & Hsub & Hall);
    [done|constructor|simpl; lia|done|done|].
  cbn [app] in Hsub, Hall. split_and!; [done|done|].
  set (numbers := (foldl ScraperPoll.collect_step (∅, []) tokens).2) in *.
  assert (Hle : (length numbers ≤ size (list_to_set tokens : gset Z))%nat).
  { apply length_NoDup_subset; [done|]. intros x Hx. by apply elem_of_list_to_set, Hsub. }
  destruct (decide (length numbers < 20)%nat) as [Hlt|Hge]; [|lia].
  assert (Hge : (size (list_to_set tokens : gset Z) ≤ length numbers)%nat).
  { rewrite <- (size_list_to_set (C := gset Z) numbers Hnd).
    apply subseteq_size. intros x Hx. apply elem_of_list_to_set in Hx.
    by apply elem_of_list_to_set, Hall. }
  lia.
Qed.

(** X19. [_parse_historical_entry] keeps an entry exactly when the link text
    holds a game id, the two parents exist and the row spells at least
    twenty distinct numbers; the entry then carries that game id and twenty
    numbers in strictly ascending order, each of them a token of the row.
    Fewer than twenty distinct numbers discard the entry. *)
Theorem parse_historical_entry_spec (today now : string) (e : ScraperPoll.RawEntry) :
  (is_Some (ScraperPoll.parse_historical_entry today now e)
   ↔ is_Some (ScraperPoll.game_id_match e)
     ∧ ScraperPoll.has_parent e = true ∧ ScraperPoll.has_row e = true
     ∧ (20 ≤ size (list_to_set (ScraperPoll.all_nums e) : gset Z))%nat)
  ∧ (∀ g, ScraperPoll.parse_historical_entry today now e = Some g →
       ScraperPoll.game_id_match e = Some (Scraper.game_id g)
       ∧ length (Scraper.numbers g) = 20%nat
       ∧ StronglySorted Z.lt (Scraper.numbers g)
       ∧ (∀ n, n ∈ Scraper.numbers g → n ∈ ScraperPoll.all_nums e)
       ∧ Scraper.date g = default today (ScraperPoll.date_match e)
       ∧ Scraper.time g = default now (ScraperPoll.time_match e)).
Proof.
  unfold ScraperPoll.parse_historical_entry.
  destruct (collect_numbers_spec (ScraperPoll.all_nums e)) as (Hnd & Hsub & Hlen).
  destruct (ScraperPoll.game_id_match e) as [gid|].
  2:{ split; [|done]. split; [by intros [? ?]|]. by intros [[? ?] _]. }
  destruct (ScraperPoll.has_parent e); cbn [negb].
  2:{ split; [|done]. split; [by intros [? ?]|]. by intros (_ & ? & _). }
  destruct (ScraperPoll.has_row e); cbn [negb].
  2:{ split; [|done]. split; [by intros [? ?]|]. by intros (_ & _ & ? & _). }
  case_bool_decide as H20.
  - split.
    + split; [|by eexists]. intros _. split_and!; [by eexists|done|done|lia].
    + intros g [= <-]. cbn [Scraper.game_id Scraper.numbers Scraper.date Scraper.time].
      split_and!; try done.
      * by rewrite length_sorted.
      * by apply sorted_asc_strict.
      * intros n Hn. apply elem_of_sorted in Hn. by apply Hsub.
  - split; [|done]. split; [by intros [? ?]|]. intros (_ & _ & _ & Hsize). lia.
Qed.

Lemma parse_historical_entry_spec_witness :
  is_Some (ScraperPoll.parse_historical_entry "01/01/24" "10:00:00"
             (ScraperPoll.mkRawEntry (Some 5) true true None None
                                     ([5; 5; 7] ++ Py.range 1 26))).
Proof.
  apply (proj1 (parse_historical_entry_spec "01/01/24" "10:00:00"
                  (ScraperPoll.mkRawEntry (Some 5) true true None None
                                          ([5; 5; 7] ++ Py.range 1 26)))).
  split_and!; [by eexists|reflexivity|reflexivity|]. vm_compute. lia.
Defined.

(** What the backfill has collected so far: one key per game, each key once,
    none of them known to the checkpoint. *)
Definition scan_ok (seen : gset string) (sc : Scraper.Scan) : Prop :=
  Scraper.collected_keys sc = list_to_set (Scraper.unique_key <$> Scraper.all_games sc)
  ∧ NoDup (Scraper.unique_key <$> Scraper.all_games sc)
  ∧ ∀ g, g ∈ Scraper.all_games sc → Scraper.unique_key g ∉ seen.

Lemma scan_link_ok (seen : gset string) (sc : Scraper.Scan) (pc : Scraper.PageCount)
    (link : option Scraper.Game) :
  scan_ok seen sc → scan_ok seen (Scraper.scan_link seen (sc, pc) link).1.
Proof.
  intros (Hkeys & Hnd & Hunseen). unfold Scraper.scan_link.
  destruct link as [g|]; [|done].
  case_bool_decide as Hc; [done|]. case_bool_decide as Hs; [done|].
  unfold scan_ok. cbn [fst Scraper.collected_keys Scraper.all_games]. split_and!.
  - rewrite fmap_app, list_to_set_app_L, <- Hkeys. cbn [fmap list_fmap list_to_set foldr].
    rewrite (right_id_L ∅ (∪)). apply (comm_L (∪)).
  - rewrite fmap_app. apply NoDup_app. split_and!; [done| |apply NoDup_singleton].
    intros k Hk Hk'. apply list_elem_of_singleton in Hk' as ->.
    apply Hc. rewrite Hkeys. by apply elem_of_list_to_set.
  - intros g' Hg'. apply elem_of_app in Hg' as [Hg'|Hg']; [by apply Hunseen|].
    by apply list_elem_of_singleton in Hg' as ->.
Qed.

Lemma scan_page_ok (seen : gset string) (links : list (option Scraper.Game)) :
  ∀ (sc : Scraper.Scan) (pc : Scraper.PageCount),
    scan_ok seen sc → scan_ok seen (foldl (Scraper.scan_link seen) (sc, pc) links).1.
Proof.
  induction links as [|link links IH]; intros sc pc Hok; [done|].
  cbn [foldl]. pose proof (scan_link_ok seen sc pc link Hok) as H.
  destruct (Scraper.scan_link seen (sc, pc) link) as [sc1 pc1]. by apply IH.
Qed.

Lemma scan_ok_empty_count (seen : gset string) (sc : Scraper.Scan) (n : nat) :
  scan_ok seen sc →
  scan_ok seen (Scraper.mkScan (Scraper.collected_keys sc) (Scraper.all_games sc) n).
Proof. done. Qed.

Section BackfillFacts.
Variable page_links : nat → option (list (option Scraper.Game)).
Variable navigated : nat → bool.

Lemma pages_loop_ok (seen : gset string) (max_games remaining : nat) :
  ∀ (page_num : nat) (sc : Scraper.Scan),
    scan_ok seen sc →
    scan_ok seen (Scraper.pages_loop page_links navigated seen max_games remaining page_num sc).1.
Proof.
  induction remaining as [|remaining IH]; intros page_num sc Hok; [done|].
  cbn [Scraper.pages_loop].
  case_bool_decide; [done|].
  destruct (page_links page_num) as [links|]; [|done].
  unfold Scraper.scan_page.
  pose proof (scan_page_ok seen links sc (Scraper.mkPageCount 0 0 0) Hok) as H1.
  destruct (foldl (Scraper.scan_link seen) (sc, Scraper.mkPageCount 0 0 0) links) as [sc1 pc].
  cbn [fst] in H1.
  case_bool_decide.
  - destruct (navigated page_num); [|done]. by apply IH, scan_ok_empty_count.
  - destruct (_ && _); [done|].
    case_bool_decide; [done|].
    destruct (navigated page_num); [|done]. by apply IH, scan_ok_empty_count.
Qed.

(** X20. The games that [fetch_historical_deep] returns have pairwise
    distinct identity keys, none of which is in the checkpoint's seen_games;
    without Selenium or without a driver it returns no game. *)
Theorem fetch_historical_deep_distinct (HAS_SELENIUM load_ok : bool)
    (max_games max_pages : nat) (s : Scraper.SimpleKenoScraper) :
  let games := (Scraper.fetch_historical_deep HAS_SELENIUM load_ok page_links navigated
                  max_games max_pages s).1.1 in
  NoDup (Scraper.unique_key <$> games)
  ∧ (∀ g, g ∈ games → Scraper.unique_key g ∉ Scraper.seen_games s)
  ∧ (HAS_SELENIUM = false ∨ Scraper.has_driver s = false → games = []).
Proof.
  cbv zeta. unfold Scraper.fetch_historical_deep.
  destruct HAS_SELENIUM, (Scraper.has_driver s); cbn [negb orb];
    try (split_and!; [constructor|by intros ? ?%elem_of_nil|done]).
  destruct load_ok; cbn [negb];
    [|split_and!; [constructor|by intros ? ?%elem_of_nil|by intros [?|?]]].
  pose proof (pages_loop_ok (Scraper.seen_games s) max_games max_pages 0
                (Scraper.mkScan ∅ [] 0)) as H.
  destruct (Scraper.pages_loop _ _ _ _ _ _ _) as [sc stop]. cbn [fst snd] in *.
  destruct H as (_ & Hnd & Hunseen).
  - split_and!; [done|constructor|by intros ? ?%elem_of_nil].
  - split_and!; [done|done|by intros [?|?]].
Qed.
End BackfillFacts.

(** One pass of the saving loop. *)
Lemma save_one_seen (acc : nat * Scraper.SimpleKenoScraper) (g : Scraper.Game) :
  let r := Scraper.save_one acc g in
  Scraper.seen_games r.2 = {[Scraper.unique_key g]} ∪ Scraper.seen_games acc.2
  ∧ (r.1 + size (Scraper.seen_games acc.2) = acc.1 + size (Scraper.seen_games r.2))%nat
  ∧ Scraper.last_game_id acc.2 ≤ Scraper.last_game_id r.2
  ∧ Scraper.has_driver r.2 = Scraper.has_driver acc.2
  ∧ Scraper.STATE_FILE r.2 = Scraper.STATE_FILE acc.2
  ∧ (Scraper.unique_key g ∈ Scraper.seen_games acc.2 → r = acc).
Proof.
  destruct acc as [n s]. cbv zeta. unfold Scraper.save_one. cbn [fst snd].
  case_bool_decide as Hnew.
  - cbn [fst snd Scraper.seen_games Scraper.last_game_id Scraper.has_driver Scraper.STATE_FILE].
    split_and!; try done.
    + rewrite size_union by (apply disjoint_singleton_l; done).
      rewrite size_singleton. lia.
    + case_bool_decide; lia.
  - split_and!; try done.
    apply set_eq. intros k. rewrite elem_of_union, elem_of_singleton.
    split; [by right|]. by intros [->|?].
Qed.

Lemma save_fold_spec (games : list Scraper.Game) :
  ∀ acc : nat * Scraper.SimpleKenoScraper,
    let r := foldl Scraper.save_one acc games in
    Scraper.seen_games r.2
    = Scraper.seen_games acc.2 ∪ list_to_set (Scraper.unique_key <$> games)
    ∧ (r.1 + size (Scraper.seen_games acc.2) = acc.1 + size (Scraper.seen_games r.2))%nat
    ∧ Scraper.last_game_id acc.2 ≤ Scraper.last_game_id r.2
    ∧ Scraper.has_driver r.2 = Scraper.has_driver acc.2
    ∧ Scraper.STATE_FILE r.2 = Scraper.STATE_FILE acc.2
    ∧ ((∀ g, g ∈ games → Scraper.unique_key g ∈ Scraper.seen_games acc.2) → r = acc).
Proof.
  induction games as [|g games IH]; intros acc; cbv zeta; cbn [foldl].
  - split_and!; try done. rewrite fmap_nil, list_to_set_nil. by rewrite (right_id_L ∅ (∪)).
  - destruct (save_one_seen acc g) as (Hs1 & Hn1 & Hl1 & Hd1 & Hf1 & Hid1).
    destruct (IH (Scraper.save_one acc g)) as (Hs & Hn & Hl & Hd & Hf & Hid).
    split_and!.
    + rewrite Hs, Hs1, fmap_cons, list_to_set_cons.
      rewrite (comm_L (∪) {[Scraper.unique_key g]}). by rewrite (assoc_L (∪)).
    + lia.
    + lia.
    + by rewrite Hd.
    + by rewrite Hf.
    + intros Hall. rewrite Hid1 in * by (apply Hall, list_elem_of_here).
      apply Hid. intros g' Hg'. by apply Hall, list_elem_of_further.
Qed.

(** X21. [check_and_save_new_games] returns the number of identity keys it
    adds to seen_games, which afterwards holds the old keys and the key of
    every game given; last_game_id never decreases; the state file is
    rewritten exactly when something was saved, and a call that saves nothing
    leaves the scraper as it was.  Saving the same list again saves nothing. *)
Theorem check_and_save_new_games_spec (games : list Scraper.Game)
    (s : Scraper.SimpleKenoScraper) :
  let r := Scraper.check_and_save_new_games games s in
  Scraper.seen_games r.2
  = Scraper.seen_games s ∪ list_to_set (Scraper.unique_key <$> games)
  ∧ (r.1 + size (Scraper.seen_games s) = size (Scraper.seen_games r.2))%nat
  ∧ Scraper.last_game_id s ≤ Scraper.last_game_id r.2
  ∧ (r.1 = 0%nat → r.2 = s)
  ∧ ((0 < r.1)%nat →
     Scraper.STATE_FILE r.2 = Some (Scraper.last_game_id r.2, Scraper.seen_games r.2))
  ∧ Scraper.check_and_save_new_games games r.2 = (0%nat, r.2).
Proof.
  cbv zeta.
  assert (Hagain : ∀ s', (∀ g, g ∈ games → Scraper.unique_key g ∈ Scraper.seen_games s') →
                         Scraper.check_and_save_new_games games s' = (0%nat, s')).
  { intros s' Hall. unfold Scraper.check_and_save_new_games.
    destruct (save_fold_spec games (0%nat, s')) as (_ & _ & _ & _ & _ & Hid).
    rewrite (Hid Hall). done. }
  destruct (save_fold_spec games (0%nat, s)) as (Hs & Hn & Hl & Hd & Hf & Hid).
  destruct (Scraper.check_and_save_new_games games s) as [n' s'] eqn:E.
  unfold Scraper.check_and_save_new_games in E.
  destruct (foldl Scraper.save_one (0%nat, s) games) as [n s1].
  cbn [fst snd] in *.
  assert (Hkeys : ∀ g, g ∈ games → Scraper.unique_key g ∈ Scraper.seen_games s1).
  { intros g Hg. rewrite Hs. apply elem_of_union. right.
    apply elem_of_list_to_set. by apply list_elem_of_fmap_2. }
  case_bool_decide as Hpos; injection E as <- <-;
    cbn [Scraper.seen_games Scraper.last_game_id Scraper.STATE_FILE].
  - split_and!; [done|lia|done|intros ->; lia|done|by apply Hagain].
  - assert (n = 0%nat) as -> by lia.
    assert (Hsame : Scraper.seen_games s1 = Scraper.seen_games s).
    { symmetry.
      apply set_subseteq_size_eq; [rewrite Hs; apply union_subseteq_l|lia]. }
    assert (Hs1 : s1 = s).
    { assert (H : (0%nat, s1) = (0%nat, s)); [|by injection H].
      apply Hid. intros g Hg. rewrite <- Hsame. by apply Hkeys. }
    subst s1. split_and!; [done|lia|done|done|intros ?; lia|by apply Hagain].
Qed.

Lemma check_and_save_count (games : list Scraper.Game) (s : Scraper.SimpleKenoScraper) :
  Scraper.seen_games (Scraper.check_and_save_new_games games s).2
  = Scraper.seen_games s ∪ list_to_set (Scraper.unique_key <$> games)
  ∧ ((Scraper.check_and_save_new_games games s).1 + size (Scraper.seen_games s)
     = size (Scraper.seen_games (Scraper.check_and_save_new_games games s).2))%nat.
Proof.
  destruct (save_fold_spec games (0%nat, s)) as (Hs & Hn & _).
  unfold Scraper.check_and_save_new_games.
  destruct (foldl Scraper.save_one (0%nat, s) games) as [n s1].
  cbn [fst snd] in *. by case_bool_decide.
Qed.

(** X22. Everything the backfill returns gets saved: handing the result of
    [fetch_historical_deep] to [check_and_save_new_games] saves as many games
    as were fetched. *)
Theorem deep_fetch_then_save (HAS_SELENIUM load_ok : bool)
    (page_links : nat → option (list (option Scraper.Game))) (navigated : nat → bool)
    (max_games max_pages : nat) (s : Scraper.SimpleKenoScraper) :
  let games := (Scraper.fetch_historical_deep HAS_SELENIUM load_ok page_links navigated
                  max_games max_pages s).1.1 in
  (Scraper.check_and_save_new_games games s).1 = length games.
Proof.
  cbv zeta.
  assert (Hgen : ∀ games, NoDup (Scraper.unique_key <$> games) →
                          (∀ g, g ∈ games → Scraper.unique_key g ∉ Scraper.seen_games s) →
                          (Scraper.check_and_save_new_games games s).1 = length games).
  { intros games Hnd Hunseen.
    destruct (check_and_save_count games s) as [Hs Hn].
    rewrite Hs in Hn. rewrite size_union in Hn.
    - rewrite size_list_to_set, length_fmap in Hn by done. lia.
    - intros k Hk Hk'. apply elem_of_list_to_set, list_elem_of_fmap in Hk' as (g & -> & Hg).
      by apply (Hunseen g). }
  unfold Scraper.fetch_historical_deep.
  destruct (negb HAS_SELENIUM || negb (Scraper.has_driver s)); [done|].
  destruct (negb load_ok); [done|].
  pose proof (pages_loop_ok page_links navigated (Scraper.seen_games s) max_games max_pages 0
                (Scraper.mkScan ∅ [] 0)) as H.
  destruct (Scraper.pages_loop _ _ _ _ _ _ _) as [sc stop]. cbn [fst snd] in *.
  destruct H as (_ & Hnd & Hunseen).
  - split_and!; [done|constructor|by intros ? ?%elem_of_nil].
  - by apply Hgen.
Qed.

Lemma fetch_historical_page_keys (HAS_SELENIUM : bool)
    (page : option (list (option Scraper.Game))) (s : Scraper.SimpleKenoScraper) :
  ∀ g, g ∈ ScraperPoll.fetch_historical_page HAS_SELENIUM page s →
       Scraper.unique_key g ∉ Scraper.seen_games s.
Proof.
  intros g. unfold ScraperPoll.fetch_historical_page.
  destruct (negb HAS_SELENIUM || negb (Scraper.has_driver s)); [by intros ?%elem_of_nil|].
  destruct page as [links|]; [|by intros ?%elem_of_nil].
  intros Hg. apply elem_of_filter_list in Hg as [_ Hg]. by apply bool_decide_eq_true in Hg.
Qed.

(** X23. One polling cycle: when the live page shows a non-zero game id equal
    to the checkpoint's last_game_id, [run_once] saves nothing and leaves the
    scraper as it was.  Otherwise, with a driver and a readable page, it
    saves each draw of the page whose key is not yet in seen_games once, even
    when the page lists it several times: the count it returns is the number
    of distinct new keys on the page. *)
Theorem run_once_spec (current_id : option Z) (links : list (option Scraper.Game))
    (s : Scraper.SimpleKenoScraper) :
  (∀ cid, current_id = Some cid → cid ≠ 0 → cid = Scraper.last_game_id s →
     ∀ HAS_SELENIUM page, ScraperPoll.run_once HAS_SELENIUM current_id page s = (0%nat, s))
  ∧ ((∀ cid, current_id = Some cid → cid = 0 ∨ cid ≠ Scraper.last_game_id s) →
     Scraper.has_driver s = true →
     let r := ScraperPoll.run_once true current_id (Some links) s in
     let page_keys : gset string := list_to_set (Scraper.unique_key <$> omap id links) in
     r.1 = size (page_keys ∖ Scraper.seen_games s)
     ∧ Scraper.seen_games r.2 = Scraper.seen_games s ∪ page_keys).
Proof.
  split.
  - intros cid -> Hnz Hsame HAS page. unfold ScraperPoll.run_once.
    rewrite bool_decide_eq_false_2 by done. by rewrite bool_decide_eq_true_2.
  - intros Hdiff Hdriver. cbv zeta. unfold ScraperPoll.run_once.
    assert (Hnot : match current_id with
                   | Some cid => negb (bool_decide (cid = 0))
                                 && bool_decide (cid = Scraper.last_game_id s)
                   | None => false
                   end = false).
    { destruct current_id as [cid|]; [|done].
      destruct (Hdiff cid eq_refl) as [->|Hne].
      - by rewrite bool_decide_eq_true_2.
      - rewrite (bool_decide_eq_false_2 (cid = Scraper.last_game_id s)) by done.
        apply andb_false_r. }
    rewrite Hnot.
    set (hist := ScraperPoll.fetch_historical_page true (Some links) s).
    assert (Hkeys : Scraper.seen_games s ∪ list_to_set (Scraper.unique_key <$> hist)
                    = Scraper.seen_games s
                      ∪ list_to_set (Scraper.unique_key <$> omap id links)).
    { apply set_eq. intros k. rewrite !elem_of_union, !elem_of_list_to_set.
      split; (intros [Hk|Hk]; [by left|]).
      - right. apply list_elem_of_fmap in Hk as (g & -> & Hg).
        unfold hist, ScraperPoll.fetch_historical_page in Hg.
        rewrite Hdriver in Hg. cbn [negb orb] in Hg.
        apply elem_of_filter_list in Hg as [Hg _]. by apply list_elem_of_fmap_2.
      - destruct (decide (k ∈ Scraper.seen_games s)) as [|Hnew]; [by left|]. right.
        apply list_elem_of_fmap in Hk as (g & -> & Hg). apply list_elem_of_fmap_2.
        unfold hist, ScraperPoll.fetch_historical_page.
        rewrite Hdriver. cbn [negb orb].
        apply elem_of_filter_list. split; [done|]. by apply bool_decide_eq_true_2. }
    destruct (check_and_save_count hist s) as (Hs & Hn).
    assert (Hres : (Scraper.check_and_save_new_games hist s).1
                   = size (list_to_set (Scraper.unique_key <$> omap id links)
                           ∖ Scraper.seen_games s)
                   ∧ Scraper.seen_games (Scraper.check_and_save_new_games hist s).2
                     = Scraper.seen_games s
                       ∪ list_to_set (Scraper.unique_key <$> omap id links)).
    { rewrite Hs, Hkeys in *. split; [|done].
      rewrite size_union_alt in Hn. lia. }
    destruct hist as [|g hist'] eqn:Hhist; [|exact Hres].
    cbn [fst snd]. destruct Hres as [Hr1 Hr2].
    unfold Scraper.check_and_save_new_games in Hr1, Hr2. cbn in Hr1, Hr2. done.
Qed.

Lemma run_once_spec_witness :
  (ScraperPoll.run_once true (Some 34)
     (Some [Some (draw_on 34); Some (draw_on 34); None; Some (draw_on 33)])
     fresh_scraper).1 = 2%nat.
Proof.
  pose proof (run_once_spec (Some 34)
                [Some (draw_on 34); Some (draw_on 34); None; Some (draw_on 33)]
                fresh_scraper) as [_ H].
  destruct H as [H _].
  - intros cid [= <-]. right. vm_compute. discriminate.
  - reflexivity.
  - rewrite H. by vm_compute.
Defined.

(** ** The live tracker: processing new games *)

Lemma live_score_frame (g : Tracker.Game) (s : LiveOps.KenoLiveTracker) :
  LiveOps.games (LiveOps.score_last_prediction g s).2 = LiveOps.games s
  ∧ LiveOps.predictions (LiveOps.score_last_prediction g s).2 = LiveOps.predictions s
  ∧ LiveOps.last_game_id (LiveOps.score_last_prediction g s).2 = LiveOps.last_game_id s
  ∧ (is_Some (LiveOps.score_last_prediction g s).1
     ↔ is_Some (LiveOps.find_prediction g (LiveOps.predictions s))).
Proof.
  unfold LiveOps.score_last_prediction.
  destruct (LiveOps.find_prediction g (LiveOps.predictions s)); cbn [fst snd LiveOps.games
    LiveOps.predictions LiveOps.last_game_id]; split_and!; try done.
Qed.

(** One pass of the loop of [process_new_games]. *)
Lemma process_one_spec (results : list LiveOps.Result) (s : LiveOps.KenoLiveTracker)
    (g : Tracker.Game) :
  ∃ res,
    (LiveOps.process_one (results, s) g).1 = results ++ [res]
    ∧ LiveOps.game res = g
    ∧ LiveOps.score res = (LiveOps.score_last_prediction g s).1
    ∧ LiveOps.next_prediction res
      = take 20 (Live.get_playable_numbers (g :: LiveOps.games s)).1
    ∧ LiveOps.remove_reasons res = (Live.get_playable_numbers (g :: LiveOps.games s)).2
    ∧ LiveOps.removed_count res = Z.of_nat (size (LiveOps.remove_reasons res))
    ∧ LiveOps.games (LiveOps.process_one (results, s) g).2 = g :: LiveOps.games s
    ∧ LiveOps.predictions (LiveOps.process_one (results, s) g).2
      = LiveOps.predictions s
        ++ [Tracker.mkPrediction (TrackerOps.next_game_id (Tracker.game_id g)) (Tracker.date g)
                                 (LiveOps.next_prediction res) (LiveOps.removed_count res)]
    ∧ LiveOps.PREDICTIONS_CSV (LiveOps.process_one (results, s) g).2
      = LiveOps.predictions_file (LiveOps.predictions (LiveOps.process_one (results, s) g).2)
    ∧ LiveOps.last_game_id (LiveOps.process_one (results, s) g).2
      = Z.max (LiveOps.last_game_id s) (Tracker.game_id g).
Proof.
  unfold LiveOps.process_one.
  destruct (live_score_frame g s) as (Hg & Hp & Hl & _).
  destruct (LiveOps.score_last_prediction g s) as [sc s1]. cbn [fst snd] in *.
  cbn [LiveOps.add_game LiveOps.games]. rewrite Hg.
  destruct (Live.get_playable_numbers (g :: LiveOps.games s)) as [playable reasons].
  eexists. cbn [fst snd LiveOps.game LiveOps.score LiveOps.next_prediction
                LiveOps.remove_reasons LiveOps.removed_count LiveOps.save_prediction
                LiveOps.games LiveOps.predictions LiveOps.PREDICTIONS_CSV
                LiveOps.last_game_id LiveOps.add_game].
  split_and!; try reflexivity.
  - by rewrite Hg.
  - by rewrite Hp.
  - rewrite Hl. case_bool_decide; lia.
Qed.

Lemma process_fold_spec (new_games : list Tracker.Game) :
  ∀ (results : list LiveOps.Result) (s : LiveOps.KenoLiveTracker),
    let r := foldl LiveOps.process_one (results, s) new_games in
    ∃ added,
      r.1 = results ++ added
      ∧ LiveOps.game <$> added = new_games
      ∧ LiveOps.games r.2 = reverse new_games ++ LiveOps.games s
      ∧ length (LiveOps.predictions r.2)
        = (length (LiveOps.predictions s) + length new_games)%nat
      ∧ Forall (λ res, length (LiveOps.next_prediction res)
                       = (20 `min` (80 - size (LiveOps.remove_reasons res)))%nat
                       ∧ LiveOps.removed_count res
                         = Z.of_nat (size (LiveOps.remove_reasons res))) added
      ∧ LiveOps.last_game_id s ≤ LiveOps.last_game_id r.2
      ∧ (new_games ≠ [] →
         ∃ p ps, LiveOps.PREDICTIONS_CSV r.2 = LiveOps.predictions_file (p :: ps)).
Proof.
  induction new_games as [|g new_games IH]; intros results s; cbv zeta.
  - exists []. cbn [foldl fst snd]. rewrite app_nil_r.
    split_and!; done.
  - cbn [foldl].
    destruct (process_one_spec results s g)
      as (res & Hr & Hgame & _ & Hnext & Hreasons & Hcount & Hgames & Hpreds & Hfile & Hlast).
    destruct (LiveOps.process_one (results, s) g) as [results1 s1]. cbn [fst snd] in *.
    destruct (IH results1 s1) as (added & Ha & Hga & Hgs & Hlen & Hall & Hle & Hcsv).
    exists (res :: added). split_and!.
    + rewrite Ha, Hr, <- app_assoc. done.
    + by rewrite fmap_cons, Hgame, Hga.
    + rewrite Hgs, Hgames, reverse_cons, <- app_assoc. done.
    + rewrite Hlen, Hpreds, length_app. simpl. lia.
    + apply Forall_cons. split; [|done]. split; [|done].
      rewrite Hnext, Hreasons, length_take.
      pose proof (live_playable_count (g :: LiveOps.games s)). lia.
    + lia.
    + intros _. destruct new_games as [|g' new_games'].
      * cbn [foldl snd]. rewrite Hfile, Hpreds.
        destruct (LiveOps.predictions s) as [|p ps]; eexists _, _; reflexivity.
      * apply Hcsv. done.
Qed.

(** X24. [process_new_games] returns one result per game, in the order given,
    and files one prediction per game, but each game goes to the front of
    [self.games]: afterwards the games of the batch stand in reverse order
    before the older ones.  Every result offers twenty numbers as long as
    at most sixty were removed, otherwise the numbers that are left;
    last_game_id never decreases. *)
Theorem live_process_new_games_spec (new_games : list Tracker.Game)
    (s : LiveOps.KenoLiveTracker) :
  let r := LiveOps.process_new_games new_games s in
  LiveOps.game <$> r.1 = new_games
  ∧ LiveOps.games r.2 = reverse new_games ++ LiveOps.games s
  ∧ length (LiveOps.predictions r.2) = (length (LiveOps.predictions s) + length new_games)%nat
  ∧ Forall (λ res, length (LiveOps.next_prediction res)
                   = (20 `min` (80 - size (LiveOps.remove_reasons res)))%nat
                   ∧ LiveOps.removed_count res
                     = Z.of_nat (size (LiveOps.remove_reasons res))) r.1
  ∧ LiveOps.last_game_id s ≤ LiveOps.last_game_id r.2.
Proof.
  cbv zeta. unfold LiveOps.process_new_games.
  destruct (process_fold_spec new_games [] s) as (added & Ha & Hga & Hgs & Hlen & Hall & Hle & _).
  cbn [app] in Ha. rewrite Ha. done.
Qed.

Lemma find_app_none {A} (p : A → bool) (l : list A) (x : A) :
  List.find p l = None → List.find p (l ++ [x]) = if p x then Some x else None.
Proof.
  induction l as [|y l IH]; cbn [List.find app]; [done|].
  destruct (p y); [done|]. exact IH.
Qed.

Lemma find_app_some {A} (p : A → bool) (l l' : list A) (y : A) :
  List.find p l = Some y → List.find p (l ++ l') = Some y.
Proof.
  induction l as [|z l IH]; cbn [List.find app]; [done|].
  destruct (p z); [done|]. exact IH.
Qed.

(** X25. A prediction is scored only against a game of the same date.  When
    two games are processed one after the other and no older prediction fits
    the second, the second is scored exactly when it carries the game id
    after the first one's and the first one's date: the prediction filed
    after the last draw of a day is not scored by the first draw of the next
    day.  When it is scored, the score counts the numbers of the first
    result's prediction that the second game drew. *)
Theorem live_score_needs_same_date (g1 g2 : Tracker.Game) (s : LiveOps.KenoLiveTracker)
    (Hold : LiveOps.find_prediction g2 (LiveOps.predictions s) = None) :
  ∃ r1 r2,
    (LiveOps.process_new_games [g1; g2] s).1 = [r1; r2]
    ∧ (is_Some (LiveOps.score r2)
       ↔ Tracker.game_id g2 = TrackerOps.next_game_id (Tracker.game_id g1)
         ∧ Tracker.date g2 = Tracker.date g1)
    ∧ ∀ sd, LiveOps.score r2 = Some sd →
        LiveOps.sd_hits sd
        = Z.of_nat (size (list_to_set (LiveOps.next_prediction r1)
                          ∩ list_to_set (Tracker.numbers g2) : gset Z))
        ∧ LiveOps.sd_playable_count sd = Z.of_nat (length (LiveOps.next_prediction r1))
        ∧ 0 ≤ LiveOps.sd_hits sd ≤ 20.
Proof.
  unfold LiveOps.process_new_games. cbn [foldl].
  destruct (process_one_spec [] s g1)
    as (r1 & Hr1 & _ & _ & Hnext1 & Hreasons1 & _ & _ & Hpreds1 & _).
  destruct (LiveOps.process_one ([], s) g1) as [results1 s1]. cbn [fst snd app] in *.
  subst results1.
  destruct (process_one_spec [r1] s1 g2) as (r2 & Hr2 & _ & Hscore2 & _).
  rewrite Hr2. cbn [app]. exists r1, r2. split; [done|].
  rewrite Hscore2. unfold LiveOps.score_last_prediction.
  rewrite Hpreds1. unfold LiveOps.find_prediction in *.
  rewrite (find_app_none _ _ _ Hold).
  cbn [Tracker.p_game_id Tracker.p_date].
  assert (Hlen : (length (LiveOps.next_prediction r1) ≤ 20)%nat).
  { rewrite Hnext1, length_take. lia. }
  destruct (decide (TrackerOps.next_game_id (Tracker.game_id g1) = Tracker.game_id g2))
    as [Hid|Hid].
  - destruct (decide (Tracker.date g1 = Tracker.date g2)) as [Hd|Hd].
    + rewrite !bool_decide_eq_true_2 by done. cbn [andb fst Tracker.playable_numbers].
      split; [split; [done|by eexists]|].
      intros sd [= <-]. cbn [LiveOps.sd_hits LiveOps.sd_playable_count].
      split_and!; [done|done|lia|].
      assert (size (list_to_set (LiveOps.next_prediction r1)
                    ∩ list_to_set (Tracker.numbers g2) : gset Z)
              ≤ length (LiveOps.next_prediction r1))%nat; [|lia].
      apply size_inter_list.
    + rewrite (bool_decide_eq_false_2 (Tracker.date g1 = Tracker.date g2)) by done.
      rewrite andb_false_r. cbn [fst]. split; [|done].
      split; [by intros [? ?]|]. intros [_ ?]. by destruct Hd.
  - rewrite (bool_decide_eq_false_2 _ Hid). cbn [andb fst]. split; [|done].
    split; [by intros [? ?]|]. intros [? _]. by destruct Hid.
Qed.

Definition fresh_live : LiveOps.KenoLiveTracker :=
  LiveOps.mkLive [] [] [] 0 ∅ None None None None.

Definition game_6_next_day : Tracker.Game :=
  Tracker.mkGame 6 "06/01/24" "00:02:00" (Py.range 41 61) "6_06/01/24".

Lemma live_score_needs_same_date_witness :
  ∃ r1 r2,
    (LiveOps.process_new_games [game_5_jan; game_6_next_day] fresh_live).1 = [r1; r2]
    ∧ LiveOps.score r2 = None.
Proof.
  destruct (live_score_needs_same_date game_5_jan game_6_next_day fresh_live)
    as (r1 & r2 & Hr & Hiff & _); [reflexivity|].
  exists r1, r2. split; [exact Hr|].
  destruct (LiveOps.score r2) as [sd|] eqn:Hsc; [|reflexivity].
  destruct Hiff as [Hiff _]. destruct (Hiff (ex_intro _ sd eq_refl)) as [_ Hdate].
  vm_compute in Hdate. discriminate Hdate.
Defined.

(** ** The live tracker: predictions.csv cannot be read back *)

Lemma bracket_char :
  ∃ a, String a "" ≠ "," ∧ ∀ s, "[" +:+ s = String a s.
Proof. eexists. split; [|intros s; reflexivity]. discriminate. Qed.

Lemma split_comma_bracket (s : string) :
  ∃ piece pieces, LiveOps.split_comma ("[" +:+ s) = ("[" +:+ piece) :: pieces.
Proof.
  destruct bracket_char as (a & Ha & Heq). rewrite Heq. cbn [LiveOps.split_comma].
  rewrite bool_decide_eq_false_2 by done.
  destruct (LiveOps.split_comma s) as [|piece pieces].
  - exists "", []. by rewrite Heq.
  - exists piece, pieces. by rewrite Heq.
Qed.

Lemma dict_row_prediction (a b c d : string) :
  let m := LiveOps.dict_row TrackerOps.predictions_header [a; b; c; d] in
  m !! "game_id" = Some (Some a) ∧ m !! "date" = Some (Some b)
  ∧ m !! "playable_numbers" = Some (Some c) ∧ m !! "removed_count" = Some (Some d).
Proof. by vm_compute. Qed.

Section LoadFacts.
Variable py_int : string → option Z.
(** [int] raises ValueError on a string that begins with a bracket. *)
Hypothesis py_int_bracket : ∀ s, py_int ("[" +:+ s) = None.

Lemma load_prediction_row_raises (p : Tracker.Prediction) :
  LiveOps.load_prediction py_int
    (LiveOps.dict_row TrackerOps.predictions_header (LiveOps.prediction_row p))
  = inr LiveOps.ValueError.
Proof.
  unfold LiveOps.prediction_row.
  destruct (dict_row_prediction (pretty (Tracker.p_game_id p)) (Tracker.p_date p)
              (LiveOps.str_list (Tracker.playable_numbers p))
              (pretty (Tracker.removed_count p))) as (Hg & Hd & Hp & Hr).
  unfold LiveOps.load_prediction, LiveOps.int_field. rewrite Hg.
  destruct (py_int (pretty (Tracker.p_game_id p))); [|done].
  rewrite Hd, Hp.
  destruct (split_comma_bracket
              (String.concat ", " (pretty <$> Tracker.playable_numbers p) +:+ "]"))
    as (piece & pieces & Hsplit).
  change (LiveOps.str_list (Tracker.playable_numbers p))
    with ("[" +:+ (String.concat ", " (pretty <$> Tracker.playable_numbers p) +:+ "]")).
  rewrite Hsplit. cbn [LiveOps.int_list]. by rewrite py_int_bracket.
Qed.

(** X26. predictions.csv as [save_prediction] writes it cannot be read back:
    the playable numbers are written as the text of a Python list, which
    begins with a bracket, so [_load_data] raises ValueError at the first
    row.  After [process_new_games] has processed at least one game the
    file is in that state. *)
Theorem live_predictions_file_unreadable (new_games : list Tracker.Game)
    (s : LiveOps.KenoLiveTracker) (Hnew : new_games ≠ []) :
  LiveOps.load_predictions py_int
    (LiveOps.PREDICTIONS_CSV (LiveOps.process_new_games new_games s).2)
  = inr LiveOps.ValueError.
Proof.
  unfold LiveOps.process_new_games.
  destruct (process_fold_spec new_games [] s) as (_ & _ & _ & _ & _ & _ & _ & Hcsv).
  destruct (Hcsv Hnew) as (p & ps & ->).
  cbn [LiveOps.predictions_file LiveOps.load_predictions fmap list_fmap LiveOps.load_rows].
  change (LiveOps.prediction_row p) with
    [pretty (Tracker.p_game_id p); Tracker.p_date p;
     LiveOps.str_list (Tracker.playable_numbers p); pretty (Tracker.removed_count p)] at 1.
  cbv iota.
  change [pretty (Tracker.p_game_id p); Tracker.p_date p;
          LiveOps.str_list (Tracker.playable_numbers p); pretty (Tracker.removed_count p)]
    with (LiveOps.prediction_row p).
  by rewrite load_prediction_row_raises.
Qed.
End LoadFacts.

(** A reader of decimal digits, standing for [int] on such strings. *)
Fixpoint digits_value (acc : Z) (s : string) : option Z :=
  match s with
  | EmptyString => Some acc
  | String a s' =>
      let d := Z.of_N (Ascii.N_of_ascii a) - 48 in
      if bool_decide (0 ≤ d ≤ 9) then digits_value (10 * acc + d) s' else None
  end.

Definition int_of_digits (s : string) : option Z :=
  match s with
  | EmptyString => None
  | _ => digits_value 0 s
  end.

Lemma live_predictions_file_unreadable_witness :
  LiveOps.load_predictions int_of_digits
    (LiveOps.PREDICTIONS_CSV (LiveOps.process_new_games [game_5_jan] fresh_live).2)
  = inr LiveOps.ValueError.
Proof.
  apply (live_predictions_file_unreadable int_of_digits).
  - intros s. reflexivity.
  - discriminate.
Defined.
